(** * Moderation pipeline of the marketplace: upload handling, strike ledger, audit log

    A shallow embedding of
    - [src/server/functions/uploadHandling.ts]: [onAssetUploaded],
      [checkImageForNSFW], [checkTextForNSFW], [createWarning],
      [checkExpiredBans];
    - the audit module: [logAuditAction];
    - the earlier copy of the upload handling, for the verdict lines of its
      [checkImageForNSFW], in [Module Earlier], and its [onAssetUploaded], in
      [Module EarlierHandler];
    - the callable functions of the upload handling, [manualNSFWScan] and
      [recordAssetDownload], and of the auth module, [banUser] and
      [unbanUser];
    - the audit module's [checkSuspiciousActivity];
    - [src/server/middleware/rateLimit.ts]: [createLimiter], the limiters
      built with it and [cleanupRateLimitStore], in [Module RateLimit];
    - [src/server/routes/download.ts]: [handleDownload], in
      [Module Download].

    The handlers are asynchronous functions over Firestore, Firebase Auth and
    two HTTP classifiers.  They are embedded as computations over an explicit
    [Store]; a thrown exception is the [Throw] outcome, and what was written
    before the throw stays written.  A document handed to [add] with an
    [undefined] field is refused by the store's client before anything is
    sent, as it is when [ignoreUndefinedProperties] is not set, and the code
    does not set it.  A query returns its documents in the order of the
    field of its inequality, then of their ids.  Every call that leaves the
    process is appended to the store's [trace], with the entries of
    [createWarning] and [logAuditAction], so that "was called", "was called
    once" and "was called before" are statements about that list.  What the outside answers during
    one invocation (the classifiers, the failures of the store and of auth,
    the clock) and the built-ins of the engine that are not embedded
    ([JSON.parse], the number conversions, [URL]) are the fields of [Env];
    the theorems hold for every [Env].  Console output is not modelled.

    The file has the model first, then the predicates the statements use and
    a test bench, then the lemmas and theorems, then the closed examples. *)

From Stdlib Require Import PrimFloat ZArith Ascii.
From stdpp Require Import gmap strings list pretty.

Set Warnings "-inexact-float,-register-all".

(** ** JavaScript values *)

(** What [JSON.parse] produces.  [undefined] is [None] in [option Json]. *)
Inductive Json : Type :=
| JNull
| JBool (b : bool)
| JNum (x : float)
| JStr (s : string)
| JArr (items : list Json)
| JObj (fields : list (string * Json)).

Abbreviation JsVal := (option Json).

(** Outcome of a JavaScript computation: a value, or a thrown [Error] with its
    message. *)
Inductive Outcome (A : Type) : Type :=
| Ok (a : A)
| Throw (message : string).
Arguments Ok {A} a.
Arguments Throw {A} message.

Fixpoint lookupField (k : string) (fields : list (string * Json)) : JsVal :=
  match fields with
  | [] => None
  | (k', v) :: rest => if String.eqb k k' then Some v else lookupField k rest
  end.

(** [v.k] for a property name [k] that no prototype defines: a [TypeError] on
    [undefined] and [null], the field of an object, [undefined] elsewhere. *)
Definition getProp (v : JsVal) (k : string) : Outcome JsVal :=
  match v with
  | None => Throw ("Cannot read properties of undefined (reading '" +:+ k +:+ "')")
  | Some JNull => Throw ("Cannot read properties of null (reading '" +:+ k +:+ "')")
  | Some (JObj fields) => Ok (lookupField k fields)
  | Some _ => Ok None
  end.

(** [v[0]]. *)
Definition getIndex0 (v : JsVal) : Outcome JsVal :=
  match v with
  | None => Throw "Cannot read properties of undefined (reading '0')"
  | Some JNull => Throw "Cannot read properties of null (reading '0')"
  | Some (JArr items) => Ok (head items)
  | Some (JStr (String c _)) => Ok (Some (JStr (String c EmptyString)))
  | Some (JObj fields) => Ok (lookupField "0" fields)
  | Some _ => Ok None
  end.

Definition isNaN (x : float) : bool := negb (PrimFloat.eqb x x).

(** [ToBoolean]. *)
Definition truthy (v : JsVal) : bool :=
  match v with
  | None | Some JNull => false
  | Some (JBool b) => b
  | Some (JNum x) => negb (PrimFloat.eqb x 0 || isNaN x)
  | Some (JStr s) => negb (String.eqb s EmptyString)
  | Some (JArr _) | Some (JObj _) => true
  end.

(** [v === true]. *)
Definition strictlyTrue (v : JsVal) : bool :=
  match v with
  | Some (JBool true) => true
  | _ => false
  end.

Definition obind {A B} (o : Outcome A) (k : A -> Outcome B) : Outcome B :=
  match o with
  | Ok a => k a
  | Throw e => Throw e
  end.
Notation "'let?' x ':=' o 'in' k" := (obind o (fun x => k))
  (at level 10, x binder, o at level 200, k at level 200).

(** The [TypeError] of a conversion to a primitive that finds no method to
    call. *)
Definition notPrimitive {A} : Outcome A :=
  Throw "Cannot convert object to primitive value".

Section Coercions.
(** The two conversions between strings and numbers are the engine's. *)
Variable StringToNumber : string -> float.
Variable NumberToString : float -> string.

Fixpoint joinWith (sep : string) (parts : list string) : string :=
  match parts with
  | [] => EmptyString
  | [p] => p
  | p :: rest => p +:+ sep +:+ joinWith sep rest
  end.

(** [String(v)] for a JSON value.  An array joins its elements with commas,
    [null] elements giving the empty string.  An object is converted by its
    [toString], then by its [valueOf]: a parsed object inherits both, and
    gives ["[object Object]"], unless it has a key [toString] of its own;
    the value under that key is not a function, the inherited [valueOf]
    returns the object itself, and the conversion throws. *)
Fixpoint jsonToString (v : Json) : Outcome string :=
  match v with
  | JNull => Ok "null"
  | JBool true => Ok "true"
  | JBool false => Ok "false"
  | JNum x => Ok (NumberToString x)
  | JStr s => Ok s
  | JArr items =>
      let? parts :=
        (fix elems (l : list Json) : Outcome (list string) :=
           match l with
           | [] => Ok []
           | JNull :: rest => let? r := elems rest in Ok (EmptyString :: r)
           | e :: rest =>
               let? s := jsonToString e in
               let? r := elems rest in
               Ok (s :: r)
           end) items in
      Ok (joinWith "," parts)
  | JObj fields =>
      match lookupField "toString" fields with
      | Some _ => notPrimitive
      | None => Ok "[object Object]"
      end
  end.

(** [ToString], as [String(v)] and a template literal apply it. *)
Definition ToString (v : JsVal) : Outcome string :=
  match v with
  | None => Ok "undefined"
  | Some j => jsonToString j
  end.

(** [ToNumber], as [Number(v)] and a comparison with a number apply it:
    arrays and objects go through their string form, the inherited [valueOf]
    returning the value itself. *)
Definition ToNumber (v : JsVal) : Outcome float :=
  match v with
  | None => Ok nan
  | Some JNull => Ok 0%float
  | Some (JBool true) => Ok 1%float
  | Some (JBool false) => Ok 0%float
  | Some (JNum x) => Ok x
  | Some (JStr s) => Ok (StringToNumber s)
  | Some j => let? s := jsonToString j in Ok (StringToNumber s)
  end.

(** [v > threshold] against a number literal: the left operand is made a
    number, and a comparison with NaN is false. *)
Definition exceeds (v : JsVal) (threshold : float) : Outcome bool :=
  let? n := ToNumber v in Ok (PrimFloat.ltb threshold n).

(** [a || b] as a value. *)
Definition orElse (a : JsVal) (b : Json) : JsVal :=
  if truthy a then a else Some b.
End Coercions.


(** ** The document store, Firebase Auth and the trace *)

(** A Firestore field value.  [FServerTimestamp] is the sentinel
    [FieldValue.serverTimestamp()], resolved by the server on write. *)
Inductive FieldValue : Type :=
| FNull
| FBool (b : bool)
| FNum (x : float)
| FStr (s : string)
| FDate (ms : Z)
| FServerTimestamp
| FMap (entries : list (string * FieldValue)).

Abbreviation Doc := (gmap string FieldValue).

(** Collections whose documents are addressed by id, and collections that
    only receive [add] (the store names the document). *)
Inductive Keyed := Assets | Users.
Inductive Appended := Warnings | Notifications | AuditLogs.

Inductive Cond :=
| WhereEq (field : string) (v : FieldValue)
| WhereLt (field : string) (v : FieldValue).

(** A call that leaves the process, or the entry of one of the two helpers
    whose calls the pipeline's contract counts. *)
Inductive Op :=
| DocUpdate (c : Keyed) (id : string) (fields : Doc)
| DocAdd (c : Appended) (doc : Doc)
| QueryWarnings (conds : list Cond)
| QueryUsers (conds : list Cond)
| AuthUpdateUser (uid : string) (disabled : bool)
| Fetch (endpoint : string) (subject : string)
| Call (fn : string) (args : list string).

Record Store := mkStore {
  assets : gmap string Doc;
  users : gmap string Doc;
  warnings : list Doc;
  notifications : list Doc;
  audit_logs : list Doc;
  authDisabled : gmap string bool;
  trace : list Op
}.

Definition setTrace (t : list Op) (st : Store) : Store :=
  mkStore (assets st) (users st) (warnings st) (notifications st)
    (audit_logs st) (authDisabled st) t.
Definition setAssets (a : gmap string Doc) (st : Store) : Store :=
  mkStore a (users st) (warnings st) (notifications st)
    (audit_logs st) (authDisabled st) (trace st).
Definition setUsers (u : gmap string Doc) (st : Store) : Store :=
  mkStore (assets st) u (warnings st) (notifications st)
    (audit_logs st) (authDisabled st) (trace st).
Definition setWarnings (w : list Doc) (st : Store) : Store :=
  mkStore (assets st) (users st) w (notifications st)
    (audit_logs st) (authDisabled st) (trace st).
Definition setNotifications (n : list Doc) (st : Store) : Store :=
  mkStore (assets st) (users st) (warnings st) n
    (audit_logs st) (authDisabled st) (trace st).
Definition setAuditLogs (l : list Doc) (st : Store) : Store :=
  mkStore (assets st) (users st) (warnings st) (notifications st)
    l (authDisabled st) (trace st).
Definition setAuthDisabled (a : gmap string bool) (st : Store) : Store :=
  mkStore (assets st) (users st) (warnings st) (notifications st)
    (audit_logs st) a (trace st).

(** Firestore compares values of one type only. *)
Definition fieldEqb (a b : FieldValue) : bool :=
  match a, b with
  | FNull, FNull => true
  | FBool x, FBool y => Bool.eqb x y
  | FNum x, FNum y => PrimFloat.eqb x y
  | FStr x, FStr y => String.eqb x y
  | FDate x, FDate y => Z.eqb x y
  | _, _ => false
  end.

Definition fieldLtb (a b : FieldValue) : bool :=
  match a, b with
  | FNum x, FNum y => PrimFloat.ltb x y
  | FDate x, FDate y => Z.ltb x y
  | _, _ => false
  end.

Definition satisfies (d : Doc) (c : Cond) : bool :=
  match c with
  | WhereEq f v => match d !! f with Some x => fieldEqb x v | None => false end
  | WhereLt f v => match d !! f with Some x => fieldLtb x v | None => false end
  end.

Definition matches (conds : list Cond) (d : Doc) : bool :=
  forallb (satisfies d) conds.


(** ** The environment of one invocation *)

Inductive FetchResult :=
| FetchRejects (message : string)
| Responds (status : Z) (body : string).

(** [response.ok]. *)
Definition responseOk (status : Z) : bool :=
  (200 <=? status)%Z && (status <=? 299)%Z.

Record Env := mkEnv {
  (* process configuration *)
  OPENROUTER_API_KEY : option string;
  JIGSAWSTACK_API_KEY : option string;
  (* built-ins of the JavaScript engine that are not embedded *)
  JSON_parse : string -> Outcome Json;
  StringToNumber : string -> float;
  NumberToString : float -> string;
  toFixed1 : float -> string;
  toISOString : Z -> string;
  trim : string -> string;
  URL_parses : string -> bool;
  (* the world during the invocation *)
  dateNow : Z;
  http : string -> string -> FetchResult;
  failure : Op -> option string;
  autoId : Appended -> nat -> string
}.

(** A configured secret is usable when it is a non-empty string. *)
Definition configured (key : option string) : bool :=
  match key with
  | Some k => negb (String.eqb k EmptyString)
  | None => false
  end.

(** ** Computations *)

Definition M (A : Type) : Type := Store -> Store * Outcome A.

Definition ret {A} (a : A) : M A := fun st => (st, Ok a).
Definition throw {A} (message : string) : M A := fun st => (st, Throw message).
Definition bind {A B} (m : M A) (k : A -> M B) : M B :=
  fun st =>
    match m st with
    | (st', Ok a) => k a st'
    | (st', Throw e) => (st', Throw e)
    end.
Definition try_catch {A} (m : M A) (handler : string -> M A) : M A :=
  fun st =>
    match m st with
    | (st', Throw e) => handler e st'
    | r => r
    end.
Definition lift {A} (o : Outcome A) : M A := fun st => (st, o).

Notation "'let!' x ':=' m 'in' k" := (bind m (fun x => k))
  (at level 10, x binder, m at level 200, k at level 200).
Notation "m '>>' k" := (bind m (fun _ => k))
  (at level 100, k at level 200, right associativity).

Definition emit (op : Op) : M unit :=
  fun st => (setTrace (trace st ++ [op]) st, Ok tt).

(** A call to a collaborator: it is traced, and the environment decides
    whether it throws. *)
Definition external (env : Env) (op : Op) : M unit :=
  emit op >>
  match failure env op with
  | Some message => throw message
  | None => ret tt
  end.

Definition keyedDocs (c : Keyed) (st : Store) : gmap string Doc :=
  match c with Assets => assets st | Users => users st end.
Definition setKeyedDocs (c : Keyed) (m : gmap string Doc) (st : Store) : Store :=
  match c with Assets => setAssets m st | Users => setUsers m st end.
Definition appendedDocs (c : Appended) (st : Store) : list Doc :=
  match c with
  | Warnings => warnings st
  | Notifications => notifications st
  | AuditLogs => audit_logs st
  end.
Definition setAppendedDocs (c : Appended) (l : list Doc) (st : Store) : Store :=
  match c with
  | Warnings => setWarnings l st
  | Notifications => setNotifications l st
  | AuditLogs => setAuditLogs l st
  end.

(** [ref.update(fields)]: merges the fields into an existing document and
    throws when there is none. *)
Definition updateDoc (env : Env) (c : Keyed) (id : string) (fields : Doc) : M unit :=
  external env (DocUpdate c id fields) >>
  fun st =>
    match keyedDocs c st !! id with
    | Some d => (setKeyedDocs c (<[id := fields ∪ d]> (keyedDocs c st)) st, Ok tt)
    | None => (st, Throw ("5 NOT_FOUND: No document to update: " +:+ id))
    end.

(** [collection.add(doc)]: returns the new document's id. *)
Definition addDoc (env : Env) (c : Appended) (doc : Doc) : M string :=
  external env (DocAdd c doc) >>
  fun st =>
    (setAppendedDocs c (appendedDocs c st ++ [doc]) st,
     Ok (autoId env c (length (appendedDocs c st)))).

(** [auth.updateUser(uid, { disabled })]. *)
Definition authUpdateUser (env : Env) (uid : string) (disabled : bool) : M unit :=
  external env (AuthUpdateUser uid disabled) >>
  fun st =>
    match authDisabled st !! uid with
    | Some _ => (setAuthDisabled (<[uid := disabled]> (authDisabled st)) st, Ok tt)
    | None => (st, Throw "There is no user record corresponding to the provided identifier.")
    end.

(** [fetch(endpoint, ...)] carrying [subject] (the image URL or the text). *)
Definition fetch (env : Env) (endpoint subject : string) : M (Z * string) :=
  emit (Fetch endpoint subject) >>
  match http env endpoint subject with
  | FetchRejects message => throw message
  | Responds status body => ret (status, body)
  end.


(** ** Strings *)

Definition dquote : string := String (Ascii.ascii_of_nat 34) EmptyString.

Definition lowerAscii (c : Ascii.ascii) : Ascii.ascii :=
  let n := Ascii.nat_of_ascii c in
  if (65 <=? n)%nat && (n <=? 90)%nat then Ascii.ascii_of_nat (n + 32) else c.

(** [s.toLowerCase()] on the ASCII letters; the other bytes are kept.  The
    words searched for below are ASCII, and the two other characters whose
    lower case holds an ASCII letter (the Kelvin sign, the dotted capital I)
    cannot complete any of them, so the searches agree with the engine's. *)
Fixpoint toLowerCase (s : string) : string :=
  match s with
  | EmptyString => EmptyString
  | String c rest => String (lowerAscii c) (toLowerCase rest)
  end.

(** [hay.includes(needle)]. *)
Fixpoint includes (needle hay : string) : bool :=
  String.prefix needle hay ||
  match hay with
  | EmptyString => false
  | String _ rest => includes needle rest
  end.

Fixpoint fromFirstOpen (s : string) : option string :=
  match s with
  | EmptyString => None
  | String c rest =>
      if Ascii.eqb c "{"%char then Some s else fromFirstOpen rest
  end.

Fixpoint upToLastClose (s : string) : option string :=
  match s with
  | EmptyString => None
  | String c rest =>
      match upToLastClose rest with
      | Some p => Some (String c p)
      | None => if Ascii.eqb c "}"%char then Some (String c EmptyString) else None
      end
  end.

(** [content.match(/\{[\s\S]*\}/)]: from the first opening brace to the last
    closing brace after it. *)
Definition matchBraces (content : string) : option string :=
  match fromFirstOpen content with
  | Some s => upToLastClose s
  | None => None
  end.


(** ** The audit module *)

(** The fields of an object literal handed to the store; [None] is a field
    whose value is [undefined]. *)
Abbreviation Data := (list (string * option FieldValue)).

(** The first field of [data] whose value is [undefined]. *)
Fixpoint undefinedField (data : Data) : option string :=
  match data with
  | [] => None
  | (k, None) :: _ => Some k
  | (_, Some _) :: rest => undefinedField rest
  end.

(** The fields of [data] that have a value. *)
Definition definedFields (data : Data) : list (string * FieldValue) :=
  omap (fun kv => pair kv.1 <$> kv.2) data.

(** A nested object as a field value: with [undefined] somewhere inside it
    is refused like an [undefined] field. *)
Definition mapValue (entries : Data) : option FieldValue :=
  match undefinedField entries with
  | Some _ => None
  | None => Some (FMap (definedFields entries))
  end.

Definition undefinedValue (field : string) : string :=
  "Value for argument " +:+ dquote +:+ "data" +:+ dquote
  +:+ " is not a valid Firestore document. Cannot use " +:+ dquote +:+ "undefined"
  +:+ dquote +:+ " as a Firestore value (found in field " +:+ dquote +:+ field
  +:+ dquote +:+ "). If you want to ignore undefined values, enable "
  +:+ "`ignoreUndefinedProperties`.".

(** [collection.add(data)] for an object literal.  The SDK validates the
    object before it sends anything: a field whose value is [undefined] is an
    error unless the store was configured with [ignoreUndefinedProperties],
    which nothing in the sources does. *)
Definition addData (env : Env) (c : Appended) (data : Data) : M string :=
  match undefinedField data with
  | Some field => throw (undefinedValue field)
  | None => addDoc env c (list_to_map (definedFields data))
  end.

(** The object [logAuditAction] builds: [details || {}], and the two fields
    [isSensitive ? ipAddress : undefined] and
    [isSensitive ? userAgent : undefined]. *)
Definition auditLogDoc (env : Env) (actorId action targetId : string)
    (isSensitive : bool) (details : option Data)
    (ipAddress userAgent : option string) : Data :=
  [("timestamp", Some (FDate (dateNow env)));
   ("actorId", Some (FStr actorId));
   ("action", Some (FStr action));
   ("targetId", Some (FStr targetId));
   ("details", mapValue (default [] details));
   ("status", Some (FStr "success"));
   ("ipAddress", if isSensitive then FStr <$> ipAddress else None);
   ("userAgent", if isSensitive then FStr <$> userAgent else None)].

(** [logAuditAction]: one [add] to [audit_logs]; any failure is swallowed and
    reported by the id ['audit_failed']. *)
Definition logAuditAction (env : Env) (actorId action targetId : string)
    (isSensitive : bool) (details : option Data)
    (ipAddress userAgent : option string) : M string :=
  emit (Call "logAuditAction" [actorId; action; targetId]) >>
  try_catch
    (let! docRefId :=
       addData env AuditLogs
         (auditLogDoc env actorId action targetId isSensitive details
            ipAddress userAgent) in
     ret docRefId)
    (fun _ => ret "audit_failed").

(** ** The strike ledger *)

Inductive WarningReason := upload_abuse | spam | harassment | rule_violation.

Definition reasonName (r : WarningReason) : string :=
  match r with
  | upload_abuse => "upload_abuse"
  | spam => "spam"
  | harassment => "harassment"
  | rule_violation => "rule_violation"
  end.

Definition activeWarnings (userId : string) (reason : WarningReason) : list Cond :=
  [WhereEq "userId" (FStr userId);
   WhereEq "reason" (FStr (reasonName reason));
   WhereEq "isActive" (FBool true)].

Definition queryWarnings (env : Env) (conds : list Cond) : M (list Doc) :=
  external env (QueryWarnings conds) >>
  fun st => (st, Ok (List.filter (matches conds) (warnings st))).

(** The order in which a query returns its documents: by the field of
    its inequality filter, ascending, then by document id, ids compared as
    strings of bytes. *)
Definition orderField (conds : list Cond) : option string :=
  head (omap (fun c => match c with WhereLt f _ => Some f | WhereEq _ _ => None end) conds).

Definition comesBefore (field : option string) (a b : string * Doc) : bool :=
  match field ≫= (fun f => a.2 !! f), field ≫= (fun f => b.2 !! f) with
  | Some x, Some y =>
      fieldLtb x y || (negb (fieldLtb y x) && String.leb a.1 b.1)
  | _, _ => String.leb a.1 b.1
  end.

Fixpoint insertBy {A} (leb : A -> A -> bool) (x : A) (l : list A) : list A :=
  match l with
  | [] => [x]
  | y :: rest => if leb x y then x :: l else y :: insertBy leb x rest
  end.

Definition sortBy {A} (leb : A -> A -> bool) (l : list A) : list A :=
  foldr (insertBy leb) [] l.

(** The documents of [users] that a query with [conds] returns. *)
Definition usersWhere (conds : list Cond) (st : Store) : list (string * Doc) :=
  sortBy (comesBefore (orderField conds))
    (List.filter (fun d => matches conds (snd d)) (map_to_list (users st))).

Definition queryUsers (env : Env) (conds : list Cond) : M (list (string * Doc)) :=
  external env (QueryUsers conds) >>
  fun st => (st, Ok (usersWhere conds st)).

Definition warningDoc (userId : string) (reason : WarningReason)
    (message : string) (evidence : option string) : Doc :=
  list_to_map
    [("userId", FStr userId);
     ("reason", FStr (reasonName reason));
     ("message", FStr message);
     ("evidence",
       match evidence with
       | Some e => if String.eqb e EmptyString then FNull else FStr e
       | None => FNull
       end);
     ("isActive", FBool true);
     ("createdAt", FServerTimestamp);
     ("acknowledgedAt", FNull)].

Definition notificationDoc (userId type title message : string) : Doc :=
  list_to_map
    [("userId", FStr userId);
     ("type", FStr type);
     ("title", FStr title);
     ("message", FStr message);
     ("read", FBool false);
     ("createdAt", FServerTimestamp)].

Definition banDays : Z := 7.
Definition banMillis : Z := (banDays * 24 * 60 * 60 * 1000)%Z.

Definition banFields (env : Env) (reason : WarningReason) : Doc :=
  list_to_map
    [("isBanned", FBool true);
     ("banReason", FStr ("Automatic 7-day ban: 3 warnings for " +:+ reasonName reason));
     ("banDate", FServerTimestamp);
     ("banUntilDate", FDate (dateNow env + banMillis))].

(** The branch of [createWarning] taken from the third warning on. *)
Definition autoBan (env : Env) (userId : string) (reason : WarningReason) : M unit :=
  updateDoc env Users userId (banFields env reason) >>
  authUpdateUser env userId true >>
  addDoc env Notifications
    (notificationDoc userId "ban" "Account Temporarily Suspended"
       ("Your account has been suspended for 7 days due to repeated policy violations ("
        +:+ reasonName reason
        +:+ "). You can appeal at: support@marketplace.com")) >>
  logAuditAction env "SYSTEM" "AUTO_BAN_TRIGGERED" userId true
    (Some [("reason", Some (FStr (reasonName reason)));
           ("warningCount", Some (FNum 3));
           ("banDays", Some (FNum 7))])
    None None >>
  ret tt.

(** The other branch: the user is told the count. *)
Definition notifyWarning (env : Env) (userId : string) (reason : WarningReason)
    (warningCount : nat) : M unit :=
  addDoc env Notifications
    (notificationDoc userId "warning" "Account Warning"
       ("You have received a warning for " +:+ reasonName reason
        +:+ ". (" +:+ pretty warningCount
        +:+ "/3) Repeated violations will result in suspension.")) >>
  ret tt.

(** [createWarning]: counts the active warnings of the pair, adds one, and
    bans at the third. *)
Definition createWarning (env : Env) (userId : string) (reason : WarningReason)
    (message : string) (evidence : option string) : M unit :=
  emit (Call "createWarning" [userId; reasonName reason]) >>
  try_catch
    (let! existingWarnings := queryWarnings env (activeWarnings userId reason) in
     let warningCount := (length existingWarnings + 1)%nat in
     addDoc env Warnings (warningDoc userId reason message evidence) >>
     if (3 <=? warningCount)%nat then autoBan env userId reason
     else notifyWarning env userId reason warningCount)
    (fun error => throw error).

Definition unbanFields : Doc :=
  list_to_map
    [("isBanned", FBool false);
     ("banReason", FNull);
     ("banDate", FNull);
     ("banUntilDate", FNull)].

(** The body of the sweep's loop, for one document of the query. *)
Definition restoreUser (env : Env) (userId : string) : M unit :=
  updateDoc env Users userId unbanFields >>
  authUpdateUser env userId false >>
  addDoc env Notifications
    (notificationDoc userId "unbanned" "Account Restored"
       "Your account suspension has been lifted. Welcome back!") >>
  logAuditAction env "SYSTEM" "BAN_EXPIRED" userId false
    (Some [("autoRestored", Some (FBool true))]) None None >>
  ret tt.

(** [for (const doc of bannedUsers.docs) { ...; unbannedCount++ }]. *)
Fixpoint restoreAll (env : Env) (docs : list (string * Doc)) (unbannedCount : nat)
    : M nat :=
  match docs with
  | [] => ret unbannedCount
  | doc :: rest =>
      restoreUser env (fst doc) >>
      restoreAll env rest (S unbannedCount)
  end.

Definition expiredBans (env : Env) : list Cond :=
  [WhereEq "isBanned" (FBool true); WhereLt "banUntilDate" (FDate (dateNow env))].

(** [checkExpiredBans]: the daily sweep; one handler around the whole run. *)
Definition checkExpiredBans (env : Env) : M unit :=
  try_catch
    (let! bannedUsers := queryUsers env (expiredBans env) in
     let! unbannedCount := restoreAll env bannedUsers 0 in
     ret tt)
    (fun _ => ret tt).


(** ** The image classifier adapter *)

Definition openRouterEndpoint : string :=
  "https://openrouter.ai/api/v1/chat/completions".

Record ImageVerdict := mkImageVerdict {
  isNSFW : bool;
  confidence : float;
  reason : string
}.

Definition invalidFormat {A} : Outcome A :=
  Throw "Invalid response format from OpenRouter API".

(** [data.choices[0].message.content], behind the guard
    [!data.choices || !data.choices[0] || !data.choices[0].message]. *)
Definition messageContent (data : Json) : Outcome JsVal :=
  let? choices := getProp (Some data) "choices" in
  if negb (truthy choices) then invalidFormat else
  let? first := getIndex0 choices in
  if negb (truthy first) then invalidFormat else
  let? message := getProp first "message" in
  if negb (truthy message) then invalidFormat else
  getProp message "content".

(** [content.substring(0, 100)] needs a string. *)
Definition contentText (content : JsVal) : Outcome string :=
  match content with
  | Some (JStr s) => Ok s
  | None => Throw "Cannot read properties of undefined (reading 'substring')"
  | Some JNull => Throw "Cannot read properties of null (reading 'substring')"
  | Some _ => Throw "content.substring is not a function"
  end.

(** The verdict computed from the parsed [result], lines 288 to 298:
    [||] does not evaluate the comparison when [is_nsfw] is [true];
    [Number], [String] and the template literals of the log line and of the
    reason convert their operands, and a conversion can throw. *)
Definition verdictOf (env : Env) (result : JsVal) : Outcome ImageVerdict :=
  let? is_nsfw := getProp result "is_nsfw" in
  let? conf := getProp result "confidence" in
  let? isNSFW :=
    if strictlyTrue is_nsfw then Ok true
    else exceeds (StringToNumber env) (NumberToString env) conf 0.65 in
  let? n := ToNumber (StringToNumber env) (NumberToString env) conf in
  let confidence := if truthy (Some (JNum n)) then n else 0%float in
  let? why := getProp result "reason" in
  let? reason := ToString (NumberToString env) (orElse why (JStr "No reason provided")) in
  let? category := getProp result "category" in
  let? logged := ToString (NumberToString env) category in
  let? categoryText :=
    ToString (NumberToString env) (orElse category (JStr "unknown")) in
  Ok {| isNSFW := isNSFW;
        confidence := confidence;
        reason := "[" +:+ categoryText +:+ "] " +:+ reason |}.

Definition checkImageForNSFW (env : Env) (imageUrl : string) : M ImageVerdict :=
  if negb (configured (OPENROUTER_API_KEY env)) then
    throw "NSFW detection service unavailable - uploads temporarily disabled"
  else
    try_catch
      (let! response := fetch env openRouterEndpoint imageUrl in
       if negb (responseOk (fst response)) then
         throw ("OpenRouter API error " +:+ pretty (fst response)
                +:+ ": " +:+ snd response)
       else
         let! data := lift (JSON_parse env (snd response)) in
         let! content := lift (let? c := messageContent data in contentText c) in
         match matchBraces content with
         | None => throw "Failed to parse NSFW detection response"
         | Some jsonMatch =>
             let! result :=
               try_catch (lift (JSON_parse env jsonMatch))
                 (fun _ => throw "Invalid JSON in NSFW detection response") in
             lift (verdictOf env (Some result))
         end)
      (fun message => throw ("NSFW detection failed: " +:+ message)).

(** The earlier adapter's verdict lines:
    [isNSFW: result.is_nsfw === true && result.confidence > 0.7],
    [confidence: result.confidence || 0],
    [reason: result.reason || 'Unable to determine'].
    [&&] compares only when [is_nsfw] is [true]; nothing else is converted. *)
Module Earlier.
Record Verdict := mkVerdict {
  isNSFW : bool;
  confidence : JsVal;
  reason : JsVal
}.

Definition verdictOf (env : Env) (result : JsVal) : Outcome Verdict :=
  let? is_nsfw := getProp result "is_nsfw" in
  let? conf := getProp result "confidence" in
  let? isNSFW :=
    if strictlyTrue is_nsfw
    then exceeds (StringToNumber env) (NumberToString env) conf 0.7
    else Ok false in
  let? why := getProp result "reason" in
  Ok {| isNSFW := isNSFW;
        confidence := orElse conf (JNum 0);
        reason := orElse why (JStr "Unable to determine") |}.
End Earlier.


(** ** The text classifier adapter *)

Definition jigsawEndpoint : string := "https://api.jigsawstack.com/v1/ai/sentiment".

Module Text.
Record Verdict := mkVerdict {
  isNSFW : bool;
  reason : string;
  emotion : Json;
  sentiment : Json
}.
Definition degraded (why : string) : Verdict :=
  mkVerdict false why (JStr EmptyString) (JStr EmptyString).
End Text.

Definition nsfwEmotions : list string :=
  ["anger"; "hatred"; "disgust"; "obscenity"; "explicit"; "sexual";
   "profanity"; "slur"; "abuse"; "harassment"].

(** The alternatives of
    [/sex|porn|xxx|nude|dick|pussy|cock|ass|shit|fuck|damn|cunt|whore|slut|rape|incest/gi]. *)
Definition nsfwPatterns : list string :=
  ["sex"; "porn"; "xxx"; "nude"; "dick"; "pussy"; "cock"; "ass"; "shit";
   "fuck"; "damn"; "cunt"; "whore"; "slut"; "rape"; "incest"].

(** [nsfwPatterns.test(text)] on a fresh expression: some alternative occurs,
    letters compared without case. *)
Definition textHasNSFWPattern (text : string) : bool :=
  existsb (fun p => includes p (toLowerCase text)) nsfwPatterns.

(** [emotion.toLowerCase()] exists on strings only. *)
Definition emotionLower (emotion : JsVal) : Outcome string :=
  match emotion with
  | Some (JStr s) => Ok (toLowerCase s)
  | _ => Throw "emotion.toLowerCase is not a function"
  end.

Definition isEmotionNSFW (lowered : string) : bool :=
  existsb (fun e => includes e lowered || String.eqb lowered e) nsfwEmotions.

Definition valueOr (v : JsVal) (d : Json) : Json :=
  match orElse v d with
  | Some j => j
  | None => d
  end.

(** The part of [checkTextForNSFW] after [response.json()]: the three
    values with their defaults, the log line that prints them, then the
    decision. *)
Definition textVerdictOf (env : Env) (text fieldName : string) (data : Json)
    : Outcome Text.Verdict :=
  let? sentimentData := getProp (Some data) "sentiment" in
  if negb (truthy sentimentData) then Ok (Text.degraded "No sentiment data") else
  let? emotion := getProp sentimentData "emotion" in
  let emotion := orElse emotion (JStr EmptyString) in
  let? sentiment := getProp sentimentData "sentiment" in
  let sentiment := orElse sentiment (JStr EmptyString) in
  let? score := getProp sentimentData "score" in
  let score := orElse score (JNum 0) in
  let? printedEmotion := ToString (NumberToString env) emotion in
  let? printedSentiment := ToString (NumberToString env) sentiment in
  let? printedScore := ToString (NumberToString env) score in
  let? lowered := emotionLower emotion in
  let finalIsNSFW := isEmotionNSFW lowered || textHasNSFWPattern text in
  Ok (Text.mkVerdict finalIsNSFW
        (if finalIsNSFW then fieldName +:+ ": Inappropriate content"
         else fieldName +:+ ": Safe")
        (valueOr emotion (JStr EmptyString))
        (valueOr sentiment (JStr EmptyString))).

Definition checkTextForNSFW (env : Env) (text fieldName : string) : M Text.Verdict :=
  if negb (configured (JIGSAWSTACK_API_KEY env)) then
    ret (Text.degraded "Text check skipped")
  else if String.eqb text EmptyString || String.eqb (trim env text) EmptyString then
    ret (Text.degraded "Empty text")
  else
    try_catch
      (let! response := fetch env jigsawEndpoint text in
       if negb (responseOk (fst response)) then
         ret (Text.degraded "Text check API error")
       else
         let! data := lift (JSON_parse env (snd response)) in
         lift (textVerdictOf env text fieldName data))
      (fun _ => ret (Text.degraded "Text check failed")).


(** ** The upload pipeline *)

(** The fields of the created document that the trigger reads, with the text
    fields the upload form sends along. *)
Record Asset := mkAsset {
  status : string;
  authorId : string;
  name : string;
  description : string;
  tags : list string;
  imageUrl : option string
}.

(** [asset.imageUrl] when it is truthy. *)
Definition presentUrl (a : Asset) : option string :=
  match imageUrl a with
  | Some u => if String.eqb u EmptyString then None else Some u
  | None => None
  end.

Definition rejection (why : string) (more : list (string * FieldValue)) : Doc :=
  list_to_map
    ([("status", FStr "rejected");
      ("rejectionReason", FStr why);
      ("rejectionDate", FServerTimestamp)] ++ more).

Definition publication (v : ImageVerdict) : Doc :=
  list_to_map
    [("status", FStr "published");
     ("publishedDate", FServerTimestamp);
     ("nsfwChecked", FBool true);
     ("nsfwConfidence", FNum (confidence v))].

Definition percent (env : Env) (v : ImageVerdict) : string :=
  toFixed1 env (PrimFloat.mul (confidence v) 100).

(** The update after a flagged verdict. *)
Definition flaggedRejection (nsfwResult : ImageVerdict) : Doc :=
  rejection
    ("Content violates community guidelines (inappropriate content detected - "
     +:+ reason nsfwResult +:+ ")")
    [("nsfwConfidence", FNum (confidence nsfwResult));
     ("nsfwReason", FStr (reason nsfwResult))].

(** After the rejecting update: the warning, then the audit entry, each in
    its own [try]. *)
Definition warnAndAudit (env : Env) (assetId : string) (asset : Asset)
    (url : string) (nsfwResult : ImageVerdict) : M unit :=
  try_catch
    (createWarning env (authorId asset) upload_abuse
       ("Your upload " +:+ dquote +:+ name asset +:+ dquote
        +:+ " was rejected for containing inappropriate content. Confidence: "
        +:+ percent env nsfwResult +:+ "%. Reason: " +:+ reason nsfwResult)
       (Some url))
    (fun _ => ret tt) >>
  try_catch
    (logAuditAction env (authorId asset) "UPLOAD_REJECTED_NSFW" assetId true
       (Some [("assetName", Some (FStr (name asset)));
              ("confidence", Some (FNum (confidence nsfwResult)));
              ("reason", Some (FStr (reason nsfwResult)));
              ("detectionTime", Some (FStr (toISOString env (dateNow env))))])
       None None >>
     ret tt)
    (fun _ => ret tt).

(** The steps after a flagged verdict. *)
Definition rejectFlagged (env : Env) (assetId : string) (asset : Asset)
    (url : string) (nsfwResult : ImageVerdict) : M unit :=
  updateDoc env Assets assetId (flaggedRejection nsfwResult) >>
  warnAndAudit env assetId asset url nsfwResult.

(** The steps after a clean verdict. *)
Definition publish (env : Env) (assetId : string) (asset : Asset)
    (nsfwResult : ImageVerdict) : M unit :=
  updateDoc env Assets assetId (publication nsfwResult) >>
  try_catch
    (logAuditAction env (authorId asset) "ASSET_PUBLISHED" assetId false
       (Some [("assetName", Some (FStr (name asset)));
              ("nsfwConfidence", Some (FNum (confidence nsfwResult)))])
       None None >>
     ret tt)
    (fun _ => ret tt).

(** The update of the handler's [catch]. *)
Definition failSafeRejection (message : string) : Doc :=
  rejection
    ("Upload verification failed: " +:+ message +:+ ". Please try uploading again.")
    [("verificationError", FStr message)].

(** The [catch] of the handler: reject, and swallow a failure of that update. *)
Definition failSafe (env : Env) (assetId : string) (message : string) : M unit :=
  try_catch
    (updateDoc env Assets assetId (failSafeRejection message))
    (fun _ => ret tt).

(** The [try] block of the handler. *)
Definition verify (env : Env) (assetId : string) (asset : Asset) : M unit :=
  match presentUrl asset with
  | None =>
      updateDoc env Assets assetId
        (rejection "No image provided for verification" [])
  | Some url =>
      if negb (URL_parses env url) then
        updateDoc env Assets assetId (rejection "Invalid image URL" [])
      else
        let! nsfwResult := checkImageForNSFW env url in
        if isNSFW nsfwResult then rejectFlagged env assetId asset url nsfwResult
        else publish env assetId asset nsfwResult
  end.

(** [onAssetUploaded]: the trigger on [assets/{assetId}]. *)
Definition onAssetUploaded (env : Env) (assetId : string) (asset : Asset) : M unit :=
  if negb (String.eqb (status asset) "uploading") then ret tt
  else try_catch (verify env assetId asset) (failSafe env assetId).


(** ** Callable functions *)

(** How a call of a callable function ends: with its result, with the
    [HttpsError] it throws, or with another error that escapes it. *)
Inductive Reply (A : Type) : Type :=
| Returns (a : A)
| HttpsError (code message : string)
| Escapes (message : string).
Arguments Returns {A} a.
Arguments HttpsError {A} code message.
Arguments Escapes {A} message.

Definition Callable (A : Type) : Type := Store -> Store * Reply A.

Definition collectionName (c : Keyed) : string :=
  match c with Assets => "assets" | Users => "users" end.

(** [collection(c).doc(id).get()]: a read, traced as a call of [get]; the
    snapshot holds the document if there is one.  An [id] that names no
    document (an empty one, one with a slash in it) is refused by [doc]: that
    error is one of the failures of the call that [failure env] stands
    for. *)
Definition getDoc (env : Env) (c : Keyed) (id : string) : M (option Doc) :=
  external env (Call "get" [collectionName c; id]) >>
  fun st => (st, Ok (keyedDocs c st !! id)).

(** [roles.includes(userDoc.data()?.role)]. *)
Definition hasRole (roles : list string) (userDoc : option Doc) : bool :=
  match userDoc ≫= (fun d => d !! "role") with
  | Some (FStr role) => bool_decide (role ∈ roles)
  | _ => false
  end.

(** The head of the functions for callers with a role: the check of
    [context.auth], then the caller's document and its role, read outside
    any [try]. *)
Definition callerWithRole (env : Env) (roles : list string) (denied : string)
    (auth : option string) : Callable string :=
  fun st =>
    match auth with
    | None => (st, HttpsError "unauthenticated" "Must be authenticated")
    | Some uid =>
        match getDoc env Users uid st with
        | (st1, Throw e) => (st1, Escapes e)
        | (st1, Ok callerDoc) =>
            if hasRole roles callerDoc then (st1, Returns uid)
            else (st1, HttpsError "permission-denied" denied)
        end
    end.

Definition andThen {A B} (c : Callable A) (k : A -> Callable B) : Callable B :=
  fun st =>
    match c st with
    | (st1, Returns a) => k a st1
    | (st1, HttpsError code message) => (st1, HttpsError code message)
    | (st1, Escapes message) => (st1, Escapes message)
    end.

(** [try { body } catch (error) { throw new HttpsError('internal', error.message) }]:
    whatever is thrown inside, an [HttpsError] of the body included, leaves
    with the code ['internal'] and its own message. *)
Definition orInternal {A} (body : M A) : Callable A :=
  fun st =>
    match body st with
    | (st1, Ok a) => (st1, Returns a)
    | (st1, Throw e) => (st1, HttpsError "internal" e)
    end.

(** [checkImageForNSFW(asset.imageUrl)] for a stored field: the adapter reads
    [imageUrl.substring] inside its [try], after the check of the key. *)
Definition checkStoredImage (env : Env) (imageUrl : option FieldValue) : M ImageVerdict :=
  match imageUrl with
  | Some (FStr url) => checkImageForNSFW env url
  | other =>
      if negb (configured (OPENROUTER_API_KEY env)) then
        throw "NSFW detection service unavailable - uploads temporarily disabled"
      else
        throw ("NSFW detection failed: " +:+
               match other with
               | None => "Cannot read properties of undefined (reading 'substring')"
               | Some FNull => "Cannot read properties of null (reading 'substring')"
               | Some _ => "imageUrl.substring is not a function"
               end)
  end.

(** [manualNSFWScan]: a scan of a stored asset on an admin's request. *)
Definition manualNSFWScan (env : Env) (auth : option string) (assetId : string)
    : Callable ImageVerdict :=
  andThen (callerWithRole env ["admin"; "founder"] "Admin only" auth) (fun uid =>
  orInternal
    (let! assetDoc := getDoc env Assets assetId in
     match assetDoc with
     | None => throw "Asset not found"
     | Some asset =>
         let! nsfwResult := checkStoredImage env (asset !! "imageUrl") in
         logAuditAction env uid "MANUAL_NSFW_SCAN" assetId false
           (Some [("isNSFW", Some (FBool (isNSFW nsfwResult)));
                  ("confidence", Some (FNum (confidence nsfwResult)));
                  ("reason", Some (FStr (reason nsfwResult)))])
           None None >>
         ret nsfwResult
     end)).

(** [assetDoc.ref.update({ downloads: FieldValue.increment(1) })].
    [increment] is what the server makes of the sentinel on the current value
    of the field. *)
Definition incrementDownloads (env : Env) (increment : option FieldValue -> FieldValue)
    (assetId : string) : M unit :=
  external env (Call "update" ["assets"; assetId; "downloads"; "increment(1)"]) >>
  fun st =>
    match assets st !! assetId with
    | Some d =>
        (setAssets (<[assetId := <["downloads" := increment (d !! "downloads")]> d]>
                      (assets st)) st, Ok tt)
    | None => (st, Throw ("5 NOT_FOUND: No document to update: " +:+ assetId))
    end.

(** [asset.status === 'published']. *)
Definition isPublished (asset : Doc) : bool :=
  match asset !! "status" with
  | Some (FStr s) => String.eqb s "published"
  | _ => false
  end.

(** [recordAssetDownload]: counts a download of a published asset. *)
Definition recordAssetDownload (env : Env) (increment : option FieldValue -> FieldValue)
    (auth : option string) (assetId : string) : Callable unit :=
  match auth with
  | None => fun st => (st, HttpsError "unauthenticated" "Must be authenticated")
  | Some uid =>
      orInternal
        (let! assetDoc := getDoc env Assets assetId in
         match assetDoc with
         | None => throw "Asset not found"
         | Some asset =>
             if negb (isPublished asset) then
               throw "Asset is not available for download"
             else
               incrementDownloads env increment assetId >>
               logAuditAction env uid "ASSET_DOWNLOADED" assetId false
                 (Some [("assetAuthor", asset !! "authorId")])
                 None None >>
               ret tt
         end)
  end.


(** ** The auth module: bans by hand *)

Section Accounts.
(** [s.length], the engine's count of UTF-16 code units. *)
Variable codeUnits : string -> nat.
(** [new Date(Date.now() + durationDays * 24 * 60 * 60 * 1000)] as the store
    takes it: the time value of the date, or the error with which an update
    that carries an invalid date is refused. *)
Variable dateAfter : Z -> float -> Outcome Z.

(** [banUntil || null]. *)
Definition banUntilDate (env : Env) (durationDays : option float) : Outcome FieldValue :=
  match durationDays with
  | Some days =>
      if truthy (Some (JNum days)) then
        let? t := dateAfter (dateNow env) days in Ok (FDate t)
      else Ok FNull
  | None => Ok FNull
  end.

Definition banRecord (reason : string) (banUntil : FieldValue) : Doc :=
  list_to_map
    [("isBanned", FBool true);
     ("banReason", FStr reason);
     ("banDate", FServerTimestamp);
     ("banUntilDate", banUntil)].

(** [banUser]: for admins, founders and support. *)
Definition banUser (env : Env) (auth : option string) (userId reason : string)
    (durationDays : option float) : Callable unit :=
  andThen
    (callerWithRole env ["admin"; "founder"; "support"]
       "Only admins/support can ban users" auth)
    (fun uid =>
       if String.eqb reason EmptyString || (codeUnits reason <? 5)%nat then
         fun st => (st, HttpsError "invalid-argument" "Reason is required (min 5 chars)")
       else
         orInternal
           (let! banUntil := lift (banUntilDate env durationDays) in
            updateDoc env Users userId (banRecord reason banUntil) >>
            authUpdateUser env userId true >>
            logAuditAction env uid "USER_BANNED" userId true
              (Some [("reason", Some (FStr reason));
                     ("durationDays",
                       Some match durationDays with
                            | Some days =>
                                if truthy (Some (JNum days)) then FNum days
                                else FStr "permanent"
                            | None => FStr "permanent"
                            end)])
              None None >>
            addDoc env Notifications
              (notificationDoc userId "ban" "Account Suspended"
                 ("Your account has been suspended. Reason: " +:+ reason
                  +:+ ". Contact: support@marketplace.com")) >>
            ret tt)).

(** [unbanUser]: for admins and founders. *)
Definition unbanUser (env : Env) (auth : option string) (userId : string)
    : Callable unit :=
  andThen
    (callerWithRole env ["admin"; "founder"] "Only admins can unban users" auth)
    (fun uid =>
       orInternal
         (updateDoc env Users userId unbanFields >>
          authUpdateUser env userId false >>
          logAuditAction env uid "USER_UNBANNED" userId true None None None >>
          ret tt)).
End Accounts.


(** ** The audit module: suspicious activity *)

(** [where('timestamp', '>=', from)]. *)
Definition since (from : Z) (entry : Doc) : bool :=
  match entry !! "timestamp" with
  | Some (FDate t) => (from <=? t)%Z
  | _ => false
  end.

(** The entries of [actorId] that carry [value] in [field] and are not older
    than [from]. *)
Definition entriesOf (actorId field value : string) (from : Z) (log : list Doc)
    : list Doc :=
  List.filter
    (fun entry =>
       matches [WhereEq "actorId" (FStr actorId); WhereEq field (FStr value)] entry
       && since from entry)
    log.

(** The query
    [collection('audit_logs').where('actorId', '==', actorId)
       .where(field, '==', value).where('timestamp', '>=', from).get()],
    traced as a call of [get] on the collection. *)
Definition queryAuditLogs (env : Env) (actorId field value : string) (from : Z)
    : M (list Doc) :=
  external env (Call "get" ["audit_logs"; actorId; field; value; pretty from]) >>
  fun st => (st, Ok (entriesOf actorId field value from (audit_logs st))).

Definition dayMillis : Z := 24 * 60 * 60 * 1000.
Definition hourMillis : Z := 60 * 60 * 1000.

Definition failedWritesAlert (n : nat) : string :=
  "User had " +:+ pretty n +:+ " failed write attempts in 24 hours".
Definition rapidUploadsAlert (n : nat) : string :=
  "User uploaded " +:+ pretty n +:+ " assets in 1 hour".
Definition nsfwRejectionsAlert (n : nat) : string :=
  "User had " +:+ pretty n +:+ " NSFW rejections in 24 hours".

Record Suspicion := mkSuspicion {
  suspicious : bool;
  alerts : list string
}.

(** [checkSuspiciousActivity]: three counts over the audit log; an error
    anywhere gives "not suspicious". *)
Definition checkSuspiciousActivity (env : Env) (userId : string) : M Suspicion :=
  let now := dateNow env in
  let last24h := (now - dayMillis)%Z in
  try_catch
    (let! failedWrites := queryAuditLogs env userId "status" "failed" last24h in
     let alerts1 :=
       if (20 <? length failedWrites)%nat
       then [failedWritesAlert (length failedWrites)] else [] in
     let! recentUploads :=
       queryAuditLogs env userId "action" "ASSET_CREATED" (now - hourMillis)%Z in
     let alerts2 :=
       if (20 <? length recentUploads)%nat
       then [rapidUploadsAlert (length recentUploads)] else [] in
     let! nsfwRejections :=
       queryAuditLogs env userId "action" "UPLOAD_REJECTED_NSFW" last24h in
     let alerts3 :=
       if (3 <=? length nsfwRejections)%nat
       then [nsfwRejectionsAlert (length nsfwRejections)] else [] in
     let alerts := alerts1 ++ alerts2 ++ alerts3 in
     ret {| suspicious := (0 <? length alerts)%nat; alerts := alerts |})
    (fun _ => ret {| suspicious := false; alerts := [] |}).


(** ** The rate limiter *)

Module RateLimit.
Local Open Scope Z_scope.

Record RateLimitEntry := mkEntry {
  count : Z;
  resetTime : Z
}.

(** [rateLimitStore]: the one map every limiter of the module reads and
    writes. *)
Abbreviation Limits := (gmap string RateLimitEntry).

(** What the default key generator reads of a request: [req.ip] and
    [req.socket.remoteAddress]. *)
Record Request := mkRequest {
  ip : option string;
  remoteAddress : option string
}.

(** The three headers, as the strings that are sent. *)
Record Headers := mkHeaders {
  limit : string;
  remaining : string;
  reset : string
}.

(** What the middleware does with the response: it calls [next()], or it
    answers with a status and a JSON body. *)
Inductive Reply :=
| Next (headers : option Headers)
| Json (status : Z) (headers : option Headers) (error : string)
       (message : option string) (retryAfter : option Z).

(** A string that is not falsy. *)
Definition given (s : option string) : option string :=
  match s with
  | Some v => if String.eqb v EmptyString then None else Some v
  | None => None
  end.

(** [a || b || d] for two optional strings and a default. *)
Definition firstGiven (a b : option string) (d : string) : string :=
  match given a, given b with
  | Some v, _ => v
  | None, Some v => v
  | None, None => d
  end.

(** The default key generator:
    [req.ip || req.socket.remoteAddress || "unknown"]. *)
Definition defaultKey (req : Request) : string :=
  firstGiven (ip req) (remoteAddress req) "unknown".

(** The entry a request is counted in: the stored one, or a new one when
    there is none or the stored one's window is over; then [entry.count++]. *)
Definition counted (windowMs now : Z) (key : string) (store : Limits) : RateLimitEntry :=
  let entry :=
    match store !! key with
    | Some entry => if now >? resetTime entry then mkEntry 0 (now + windowMs) else entry
    | None => mkEntry 0 (now + windowMs)
    end in
  mkEntry (count entry + 1) (resetTime entry).

(** [Math.ceil((entry.resetTime - now) / 1000)]. *)
Definition secondsLeft (entry : RateLimitEntry) (now : Z) : Z :=
  - ((now - resetTime entry) / 1000).

Definition headersOf (env : Env) (maxRequests : Z) (entry : RateLimitEntry) : Headers :=
  {| limit := pretty maxRequests;
     remaining := pretty (Z.max 0 (maxRequests - count entry));
     reset := toISOString env (resetTime entry) |}.

(** [createLimiter(windowMs, maxRequests, keyGenerator)], applied to a
    request. *)
Definition createLimiter (windowMs maxRequests : Z) (keyGenerator : Request -> string)
    (env : Env) (req : Request) (store : Limits) : Limits * Reply :=
  let key := keyGenerator req in
  let now := dateNow env in
  let entry := counted windowMs now key store in
  let headers := Some (headersOf env maxRequests entry) in
  (<[key := entry]> store,
   if count entry >? maxRequests then
     Json 429 headers "Too many requests"
       (Some ("Rate limit exceeded. Please try again in "
              +:+ pretty (secondsLeft entry now) +:+ " seconds."))
       (Some (secondsLeft entry now))
   else Next headers).

Definition loginLimiter := createLimiter (15 * 60 * 1000) 5 defaultKey.
Definition signupLimiter := createLimiter (60 * 60 * 1000) 10 defaultKey.
Definition apiLimiter := createLimiter (60 * 1000) 100 defaultKey.
Definition passwordResetLimiter := createLimiter (60 * 60 * 1000) 3 defaultKey.
Definition emailVerificationLimiter := createLimiter (60 * 60 * 1000) 5 defaultKey.

(** [cleanupRateLimitStore]: forgets the entries whose window ended more than
    a minute ago. *)
Definition cleanupRateLimitStore (env : Env) (store : Limits) : Limits :=
  filter (fun kv => ~ (dateNow env > resetTime kv.2 + 60000)) store.

(** [next()] was called. *)
Definition passed (r : Reply) : bool :=
  match r with
  | Next _ => true
  | Json _ _ _ _ _ => false
  end.

(** The requests of one client served in order, each by a limiter built by
    [createLimiter] with the default key, with its own window and maximum,
    at the time of its own [Env]. *)
Fixpoint serve (calls : list (Z * Z * Env)) (req : Request) (store : Limits)
    : Limits * list Reply :=
  match calls with
  | [] => (store, [])
  | (windowMs, maxRequests, env) :: rest =>
      let (store1, reply) := createLimiter windowMs maxRequests defaultKey env req store in
      let (store2, replies) := serve rest req store1 in
      (store2, reply :: replies)
  end.
End RateLimit.


(** ** The earlier handler *)

(** [onAssetUploaded] of the earlier copy of the upload handling.  Its
    adapter is a parameter: of the earlier [checkImageForNSFW] only the
    verdict lines are embedded ([Earlier.verdictOf]), its error texts go
    through the engine's [String(error)].  [toField] is how the store
    encodes a value of the verdict. *)
Module EarlierHandler.
Section Handler.
Variable checkImageForNSFW : string -> M Earlier.Verdict.
Variable toField : JsVal -> FieldValue.

Definition onAssetUploaded (env : Env) (assetId : string) (asset : Asset) : M unit :=
  if negb (String.eqb (status asset) "uploading") then ret tt
  else
    try_catch
      (match presentUrl asset with
       | None => ret tt
       | Some url =>
           let! nsfwResult := checkImageForNSFW url in
           if Earlier.isNSFW nsfwResult then
             updateDoc env Assets assetId
               (rejection "Content violates community guidelines (adult content)" []) >>
             createWarning env (authorId asset) upload_abuse
               ("Your upload " +:+ dquote +:+ name asset +:+ dquote
                +:+ " was rejected for containing inappropriate content")
               (Some url) >>
             logAuditAction env (authorId asset) "UPLOAD_REJECTED_NSFW" assetId true
               (Some [("assetName", Some (FStr (name asset)));
                      ("confidence", Some (toField (Earlier.confidence nsfwResult)));
                      ("reason", Some (toField (Earlier.reason nsfwResult)))])
               None None >>
             ret tt
           else
             updateDoc env Assets assetId
               (list_to_map [("status", FStr "published");
                             ("publishedDate", FServerTimestamp)]) >>
             logAuditAction env (authorId asset) "ASSET_PUBLISHED" assetId false
               (Some [("assetName", Some (FStr (name asset)))])
               None None >>
             ret tt
       end)
      (fun _ =>
         updateDoc env Assets assetId
           (rejection "Upload verification failed. Please try again." [])).
End Handler.
End EarlierHandler.


(** ** The download proxy

    [handleDownload] of [src/server/routes/download.ts], for query
    parameters that are strings or absent.  Its request to the storage has
    no body; the body of the answer is taken as its bytes. *)

Module Download.
Definition FIREBASE_BUCKET : string := "keysystem-d0b86-8df89.firebasestorage.app".

(** What the proxy answers: a JSON error, the storage's own status passed
    on, the answer of its [catch], or the file. *)
Inductive Reply :=
| Json (status : Z) (error : string) (code : option string)
| StorageError (status : Z)
| Failed (message : string)
| File (contentType disposition : string) (contentLength : Z) (body : string).

(** [s.split(sep)] for a separator of one character. *)
Fixpoint split (sep : Ascii.ascii) (s : string) : list string :=
  match s with
  | EmptyString => [EmptyString]
  | String c rest =>
      if Ascii.eqb c sep then EmptyString :: split sep rest
      else
        match split sep rest with
        | part :: parts => String c part :: parts
        | [] => [String c EmptyString]
        end
  end.

Definition backslash : string := String (Ascii.ascii_of_nat 92) EmptyString.

(** The first of the two checks on the path. *)
Definition traverses (filePath : string) : bool :=
  includes ".." filePath || String.prefix "/" filePath || includes backslash filePath.

(** The second one. *)
Definition inAllowedFolder (filePath : string) : bool :=
  String.prefix "assets/" filePath || String.prefix "temp/" filePath.

Definition allowedTypes : list string :=
  ["image/"; "application/zip"; "application/x-zip-compressed"; "application/pdf";
   "text/"; "video/"; "audio/"].

Definition storageUrl (encodeURIComponent : string -> string) (filePath : string) : string :=
  "https://firebasestorage.googleapis.com/v0/b/" +:+ FIREBASE_BUCKET +:+ "/o/"
  +:+ encodeURIComponent filePath +:+ "?alt=media".

Section Handler.
(** The engine's [encodeURIComponent] and [s.length], and the [content-type]
    header of the storage's answer to a URL. *)
Variable encodeURIComponent : string -> string.
Variable codeUnits : string -> nat.
Variable contentTypeOf : string -> option string.

(** The check of the asset behind an [assets/] path; [None] lets the request
    through. *)
Definition verifyAsset (env : Env) (filePath : string) : M (option Reply) :=
  if negb (String.prefix "assets/" filePath) then ret None
  else
    match RateLimit.given (split "/" filePath !! 1%nat) with
    | None => ret (Some (Json 400 "Invalid asset path" None))
    | Some assetId =>
        let! assetDoc := getDoc env Assets assetId in
        match assetDoc with
        | None => ret (Some (Json 404 "File not found" (Some "OBJECT_NOT_FOUND")))
        | Some asset =>
            if negb (isPublished asset) then
              ret (Some (Json 403 "Asset is not available for download"
                           (Some "FORBIDDEN")))
            else ret None
        end
    end.

(** The part of the handler after the checks: the request to the storage
    and what is made of its answer. *)
Definition deliver (env : Env) (filePath : string) (fileName : option string)
    : M Reply :=
  let firebaseUrl := storageUrl encodeURIComponent filePath in
  let! response := fetch env firebaseUrl EmptyString in
  if negb (responseOk (fst response)) then
    if (fst response =? 404)%Z then
      ret (Json 404 "File not found" (Some "OBJECT_NOT_FOUND"))
    else if (fst response =? 403)%Z then
      ret (Json 403 "Access denied" (Some "UNAUTHORIZED"))
    else ret (StorageError (fst response))
  else
    let contentType :=
      default "application/octet-stream" (RateLimit.given (contentTypeOf firebaseUrl)) in
    if negb (existsb (fun type => String.prefix type contentType) allowedTypes) then
      ret (Json 403 "File type not allowed" None)
    else
      let bufferSize := Z.of_nat (String.length (snd response)) in
      if (100 * 1024 * 1024 <? bufferSize)%Z then ret (Json 413 "File too large" None)
      else
        ret (File contentType
               ("attachment; filename=" +:+ dquote
                +:+ RateLimit.firstGiven fileName (last (split "/" filePath)) "file"
                +:+ dquote)
               bufferSize (snd response)).

(** [handleDownload], for the two parameters of the query. *)
Definition handleDownload (env : Env) (filePath fileName : option string) : M Reply :=
  try_catch
    (match RateLimit.given filePath with
     | None => ret (Json 400 "Missing filePath parameter" None)
     | Some filePath =>
         if traverses filePath then ret (Json 400 "Invalid file path" None)
         else if negb (inAllowedFolder filePath) then ret (Json 403 "Access denied" None)
         else
           let! refusal := verifyAsset env filePath in
           match refusal with
           | Some reply => ret reply
           | None =>
               match RateLimit.given fileName with
               | Some name =>
                   if (255 <? codeUnits name)%nat then ret (Json 400 "Filename too long" None)
                   else deliver env filePath fileName
               | None => deliver env filePath fileName
               end
           end
     end)
    (fun message =>
       ret (Failed (if String.eqb message EmptyString then "Unknown error" else message))).
End Handler.
End Download.


(** * The vocabulary of the statements *)

(** ** Runs *)

Definition stateAfter {A} (m : M A) (st : Store) : Store := fst (m st).
Definition outcomeOf {A} (m : M A) (st : Store) : Outcome A := snd (m st).

(** The calls a run appended to the trace. *)
Definition opsDuring {A} (m : M A) (st : Store) : list Op :=
  drop (length (trace st)) (trace (stateAfter m st)).

(** The stored value of a field of a keyed document. *)
Definition stored (docs : gmap string Doc) (id field : string) : option FieldValue :=
  docs !! id ≫= fun d => d !! field.

(** Every run of [m] takes a store to one related to it by [R]. *)
Definition preserves (R : relation Store) {A} (m : M A) : Prop :=
  forall st, R st (stateAfter m st).

(** ** Reading the trace *)

(** The [status] an update writes to an asset, if it writes one. *)
Definition statusWritten (op : Op) : option FieldValue :=
  match op with
  | DocUpdate Assets _ fields => fields !! "status"
  | _ => None
  end.

(** An entry of the function [fn]. *)
Definition isCallTo (fn : string) (op : Op) : bool :=
  match op with
  | Call f _ => String.eqb f fn
  | _ => false
  end.

(** An entry of [logAuditAction] with the given action tag. *)
Definition isAuditCall (action : string) (op : Op) : bool :=
  match op with
  | Call f [_; a; _] => String.eqb f "logAuditAction" && String.eqb a action
  | _ => false
  end.

(** A request to the given endpoint. *)
Definition isFetchOf (endpoint : string) (op : Op) : bool :=
  match op with
  | Fetch e _ => String.eqb e endpoint
  | _ => false
  end.

Definition count (p : Op -> bool) (ops : list Op) : nat :=
  length (List.filter p ops).

(** The two calls the contract of a rejection counts. *)
Definition warningCall : Op -> bool := isCallTo "createWarning".
Definition rejectionAudit : Op -> bool := isAuditCall "UPLOAD_REJECTED_NSFW".

(** A [createWarning] call, if [op] is one, is the pipeline's: for the author
    of the asset, with category [upload_abuse]. *)
Definition fromPipeline (asset : Asset) (op : Op) : Prop :=
  warningCall op = true -> op = Call "createWarning" [authorId asset; "upload_abuse"].


(** ** Effects *)

(** What one step of a run may do to the store. *)
Inductive Effect :=
| Traced (op : Op)
| Updated (c : Keyed) (id : string) (fields : Doc)
| Added (c : Appended) (doc : Doc)
| AuthSet (uid : string) (disabled : bool).

Definition applyEffect (st : Store) (e : Effect) : Store :=
  match e with
  | Traced op => setTrace (trace st ++ [op]) st
  | Updated c id fields =>
      match keyedDocs c st !! id with
      | Some d => setKeyedDocs c (<[id := fields ∪ d]> (keyedDocs c st)) st
      | None => st
      end
  | Added c doc => setAppendedDocs c (appendedDocs c st ++ [doc]) st
  | AuthSet uid disabled => setAuthDisabled (<[uid := disabled]> (authDisabled st)) st
  end.

(** [st'] is reached from [st] by effects that all satisfy [P]. *)
Definition evolves (P : Effect -> Prop) : relation Store :=
  fun st st' => exists effects, st' = foldl applyEffect st effects /\ Forall P effects.

Definition tracedOps (effects : list Effect) : list Op :=
  omap (fun e => match e with Traced op => Some op | _ => None end) effects.

(** An audit entry written as a success. *)
Definition writtenAsSuccess (entry : Doc) : Prop :=
  entry !! "status" = Some (FStr "success").

(** The audit log is only appended to, by entries written as successes. *)
Definition auditGrows : relation Store :=
  fun st st' =>
    exists new, audit_logs st' = audit_logs st ++ new /\ Forall writtenAsSuccess new.

(** Whatever is added to [audit_logs] is written as a success. *)
Definition auditedBySuccess (e : Effect) : Prop :=
  match e with
  | Added AuditLogs doc => writtenAsSuccess doc
  | _ => True
  end.

(** Nothing is added to [audit_logs]. *)
Definition notToAudit (e : Effect) : Prop :=
  match e with
  | Added AuditLogs _ => False
  | _ => True
  end.

(** Nothing is added to [warnings]. *)
Definition notToWarnings (e : Effect) : Prop :=
  match e with
  | Added Warnings _ => False
  | _ => True
  end.

(** User documents are updated for the users of [docs] only. *)
Definition updatesOnly (docs : list (string * Doc)) (e : Effect) : Prop :=
  match e with
  | Updated Users id _ => id ∈ docs.*1
  | _ => True
  end.

(** Calls that add to neither count. *)
Definition uncounted (e : Effect) : Prop :=
  match e with
  | Traced op => warningCall op = false /\ rejectionAudit op = false
  | _ => True
  end.

(** Calls that add to neither count, and no update of an asset. *)
Definition aside (e : Effect) : Prop :=
  match e with
  | Traced op => warningCall op = false /\ rejectionAudit op = false
  | Updated Assets _ _ => False
  | _ => True
  end.

(** No request to the text classifier. *)
Definition notTextCheck (e : Effect) : Prop :=
  match e with
  | Traced op => isFetchOf jigsawEndpoint op = false
  | _ => True
  end.


(** ** Failures of the classifiers *)

(** The ways the text check can fail, as the adapter distinguishes them. *)
Inductive TextFailure :=
| MissingApiKey
| HttpError
| NoSentimentData
| ExceptionThrown.

Definition diagnostic (f : TextFailure) : string :=
  match f with
  | MissingApiKey => "Text check skipped"
  | HttpError => "Text check API error"
  | NoSentimentData => "No sentiment data"
  | ExceptionThrown => "Text check failed"
  end.

(** The failure [f] is what a check of [text] meets in [env]: the key is not
    configured; the API answers outside 2xx; the answer parses but carries no
    sentiment data; or something throws (the request, the parsing of the
    body, the evaluation of the answer). *)
Definition happens (env : Env) (text fieldName : string) (f : TextFailure) : Prop :=
  match f with
  | MissingApiKey => configured (JIGSAWSTACK_API_KEY env) = false
  | HttpError =>
      exists status body,
        http env jigsawEndpoint text = Responds status body
        /\ responseOk status = false
  | NoSentimentData =>
      exists status body data sentimentData,
        http env jigsawEndpoint text = Responds status body
        /\ responseOk status = true
        /\ JSON_parse env body = Ok data
        /\ getProp (Some data) "sentiment" = Ok sentimentData
        /\ truthy sentimentData = false
  | ExceptionThrown =>
      (exists message, http env jigsawEndpoint text = FetchRejects message)
      \/ (exists status body message,
            http env jigsawEndpoint text = Responds status body
            /\ responseOk status = true
            /\ (let? data := JSON_parse env body in textVerdictOf env text fieldName data)
               = Throw message)
  end.

(** The failures of the image check by their cause: no credential, a request
    that does not complete, an answer outside 2xx, a body that is not JSON, a
    message without a JSON object in it, a JSON object that does not parse. *)
Inductive ImageFailure (env : Env) (url : string) : Prop :=
| MissingCredential :
    configured (OPENROUTER_API_KEY env) = false -> ImageFailure env url
| NetworkError message :
    http env openRouterEndpoint url = FetchRejects message -> ImageFailure env url
| HttpStatus status body :
    http env openRouterEndpoint url = Responds status body ->
    responseOk status = false -> ImageFailure env url
| BodyNotJson status body message :
    http env openRouterEndpoint url = Responds status body ->
    JSON_parse env body = Throw message -> ImageFailure env url
| NoJsonInContent status body data content :
    http env openRouterEndpoint url = Responds status body ->
    JSON_parse env body = Ok data ->
    (let? c := messageContent data in contentText c) = Ok content ->
    matchBraces content = None -> ImageFailure env url
| UnparseableJson status body data content jsonMatch message :
    http env openRouterEndpoint url = Responds status body ->
    JSON_parse env body = Ok data ->
    (let? c := messageContent data in contentText c) = Ok content ->
    matchBraces content = Some jsonMatch ->
    JSON_parse env jsonMatch = Throw message -> ImageFailure env url.

(** The classifier answers the request for [url] with a completion whose
    message holds a JSON text, and that text parses to [result]. *)
Definition parsedAnswer (env : Env) (url : string) (result : Json) : Prop :=
  configured (OPENROUTER_API_KEY env) = true
  /\ exists status body data content jsonMatch,
       http env openRouterEndpoint url = Responds status body
       /\ responseOk status = true
       /\ JSON_parse env body = Ok data
       /\ (let? c := messageContent data in contentText c) = Ok content
       /\ matchBraces content = Some jsonMatch
       /\ JSON_parse env jsonMatch = Ok result.

(** The value has a string form: its conversion does not throw. *)
Definition printable (env : Env) (v : JsVal) : Prop :=
  exists s, ToString (NumberToString env) v = Ok s.

(** A comparison that was made and came out true. *)
Definition holds (o : Outcome bool) : bool :=
  match o with
  | Ok b => b
  | Throw _ => false
  end.


(** ** The ledger, the sweep, the pipeline *)

(** The environment lets every call through. *)
Definition nominal (env : Env) : Prop := forall op, failure env op = None.

(** The strike count of a pair: its active warnings. *)
Definition activeCount (userId : string) (reason : WarningReason) (ws : list Doc) : nat :=
  length (List.filter (matches (activeWarnings userId reason)) ws).

(** The entry of [logAuditAction] for an automatic ban. *)
Definition autoBanAudit (userId : string) : Op :=
  Call "logAuditAction" ["SYSTEM"; "AUTO_BAN_TRIGGERED"; userId].

(** The documents the sweep's query returns, in the order it returns them:
    by [banUntilDate], then by id. *)
Definition expired (env : Env) (st : Store) : list (string * Doc) :=
  usersWhere (expiredBans env) st.

(** The user of [doc] is restored in [st]: the document is the one the
    query saw with the ban fields cleared, and the login is enabled. *)
Definition restored (st : Store) (doc : string * Doc) : Prop :=
  users st !! doc.1 = Some (unbanFields ∪ doc.2)
  /\ authDisabled st !! doc.1 = Some false.

(** The notification of a lifted ban. *)
Definition restoredNotice (userId : string) : Doc :=
  notificationDoc userId "unbanned" "Account Restored"
    "Your account suspension has been lifted. Welcome back!".

(** The run reaches a flagged verdict and its rejecting update goes through. *)
Definition rejectsOnVerdict (env : Env) (assetId : string) (asset : Asset)
    (st : Store) : bool :=
  String.eqb (status asset) "uploading" &&
  match presentUrl asset with
  | None => false
  | Some url =>
      URL_parses env url &&
      match checkImageForNSFW env url st with
      | (st1, Ok v) =>
          isNSFW v &&
          match updateDoc env Assets assetId (flaggedRejection v) st1 with
          | (_, Ok _) => true
          | (_, Throw _) => false
          end
      | (_, Throw _) => false
      end
  end.

(** ** More of the pipeline *)

(** An update of the asset that writes ['rejected']. *)
Definition rejectingUpdate (assetId : string) (op : Op) : Prop :=
  exists fields, op = DocUpdate Assets assetId fields
                 /\ fields !! "status" = Some (FStr "rejected").

(** Every call is such an update. *)
Definition rejectingOnly (assetId : string) (e : Effect) : Prop :=
  match e with
  | Traced op => rejectingUpdate assetId op
  | _ => True
  end.

(** Why the image URL of the asset cannot be checked, if it cannot: it is
    missing or empty, or [new URL] throws on it. *)
Definition unusableUrl (env : Env) (asset : Asset) : option string :=
  match presentUrl asset with
  | None => Some "No image provided for verification"
  | Some url => if URL_parses env url then None else Some "Invalid image URL"
  end.

Definition publishedAudit : Op -> bool := isAuditCall "ASSET_PUBLISHED".

(** An update of the asset. *)
Definition assetUpdate (assetId : string) (op : Op) : bool :=
  match op with
  | DocUpdate Assets id _ => String.eqb id assetId
  | _ => false
  end.

(** The first call of a run whose payload says ['uploading']: the payload
    and the environment decide it, the store does not. *)
Definition firstCall (env : Env) (assetId : string) (asset : Asset) : Op :=
  match presentUrl asset with
  | None =>
      DocUpdate Assets assetId (rejection "No image provided for verification" [])
  | Some url =>
      if negb (URL_parses env url) then
        DocUpdate Assets assetId (rejection "Invalid image URL" [])
      else if configured (OPENROUTER_API_KEY env) then Fetch openRouterEndpoint url
      else
        DocUpdate Assets assetId
          (failSafeRejection
             "NSFW detection service unavailable - uploads temporarily disabled")
  end.

(** The status that a run whose payload says ['uploading'] decides on: the
    payload, the environment and the classifier's answer decide it, the
    stored document does not. *)
Definition decidedStatus (env : Env) (asset : Asset) (st : Store) : string :=
  match presentUrl asset with
  | None => "rejected"
  | Some url =>
      if negb (URL_parses env url) then "rejected"
      else
        match outcomeOf (checkImageForNSFW env url) st with
        | Ok v => if isNSFW v then "rejected" else "published"
        | Throw _ => "rejected"
        end
  end.

(** ** More of the ledger and the sweep *)

(** Warnings are added for other pairs only. *)
Definition strikesOf (userId : string) (reason : WarningReason) (e : Effect) : Prop :=
  match e with
  | Added Warnings doc => matches (activeWarnings userId reason) doc = false
  | _ => True
  end.

(** What the sweep may touch: the documents and auth records of the users of
    [docs]; no asset, no warning. *)
Definition sweepOnly (docs : list (string * Doc)) (e : Effect) : Prop :=
  match e with
  | Updated Users id _ => id ∈ docs.*1
  | Updated Assets _ _ => False
  | Added Warnings _ => False
  | AuthSet uid _ => uid ∈ docs.*1
  | _ => True
  end.

(** The document is not one the sweep's query returns at the time of [env]:
    the user is not banned, or the ban has no date, or its date is not past. *)
Definition notDue (env : Env) (d : Doc) : Prop :=
  d !! "isBanned" <> Some (FBool true)
  \/ forall t, d !! "banUntilDate" = Some (FDate t) -> (dateNow env <= t)%Z.

(** The store after the daily sweeps of [envs], run one after the other. *)
Definition sweeps (envs : list Env) (st : Store) : Store :=
  foldl (fun st env => stateAfter (checkExpiredBans env) st) st envs.


(** ** Calls of the callable functions *)

Definition replyOf {A} (c : Callable A) (st : Store) : Reply A := (c st).2.
Definition storeAfter {A} (c : Callable A) (st : Store) : Store := (c st).1.

(** The stored documents, apart from the audit log, and the auth records are
    the same in both stores. *)
Definition sameRecords (st st' : Store) : Prop :=
  assets st' = assets st /\ users st' = users st /\ warnings st' = warnings st
  /\ notifications st' = notifications st /\ authDisabled st' = authDisabled st.

(** An id that names a document of a collection: not empty, no slash. *)
Definition usableId (id : string) : bool :=
  negb (String.eqb id EmptyString) && negb (includes "/" id).


(** [durationDays] is absent, zero or not a number. *)
Definition withoutDuration (durationDays : option float) : Prop :=
  match durationDays with
  | Some days => truthy (Some (JNum days)) = false
  | None => True
  end.

(** ** Runs of the download proxy *)

(** The call is a request over HTTP. *)
Definition isFetch (op : Op) : bool :=
  match op with
  | Fetch _ _ => true
  | _ => false
  end.

(** The path passed both checks of the proxy, and when it lies under
    [assets/] its second segment names a published asset of the store. *)
Definition checkedPath (filePath : string) (st : Store) : Prop :=
  Download.traverses filePath = false
  /\ Download.inAllowedFolder filePath = true
  /\ (String.prefix "assets/" filePath = true ->
      exists assetId asset,
        Download.split "/" filePath !! 1%nat = Some assetId
        /\ assets st !! assetId = Some asset
        /\ isPublished asset = true).


(** * A test bench

    A concrete environment for the closed examples: two configured keys,
    classifiers that answer by endpoint and image URL, and tables for the
    engine's built-ins that cover the values the examples use. *)
Module Bench.
Definition key (k : string) : string := dquote +:+ k +:+ dquote +:+ ":".
Definition str (s : string) : string := dquote +:+ s +:+ dquote.

Definition safeContent : string :=
  "{" +:+ key "is_nsfw" +:+ "false," +:+ key "confidence" +:+ "0.1,"
  +:+ key "category" +:+ str "safe" +:+ "," +:+ key "reason"
  +:+ str "product photo" +:+ "}".
Definition flaggedContent : string :=
  "{" +:+ key "is_nsfw" +:+ "false," +:+ key "confidence" +:+ "0.8,"
  +:+ key "category" +:+ str "adult" +:+ "," +:+ key "reason"
  +:+ str "suggestive pose" +:+ "}".

Definition safeResult : Json :=
  JObj [("is_nsfw", JBool false); ("confidence", JNum 0.1);
        ("category", JStr "safe"); ("reason", JStr "product photo")].
Definition flaggedResult : Json :=
  JObj [("is_nsfw", JBool false); ("confidence", JNum 0.8);
        ("category", JStr "adult"); ("reason", JStr "suggestive pose")].

(** [s] as the inside of a JSON string: its quotes escaped. *)
Fixpoint escape (s : string) : string :=
  match s with
  | EmptyString => EmptyString
  | String c rest =>
      if Ascii.eqb c (ascii_of_nat 34)
      then String (ascii_of_nat 92) (String c (escape rest))
      else String c (escape rest)
  end.

(** The body of a chat completion whose message is [content]. *)
Definition completionBody (content : string) : string :=
  "{" +:+ key "choices" +:+ "[{" +:+ key "message" +:+ "{" +:+ key "content"
  +:+ str (escape content) +:+ "}}]}".
Definition completion (content : string) : Json :=
  JObj [("choices", JArr [JObj [("message", JObj [("content", JStr content)])]])].

(** What the sentiment API answers for an explicit title. *)
Definition sentimentBody : string :=
  "{" +:+ key "sentiment" +:+ "{" +:+ key "emotion" +:+ str "sexual" +:+ ","
  +:+ key "sentiment" +:+ str "negative" +:+ "," +:+ key "score" +:+ "0.9}}".
Definition sentimentData : Json :=
  JObj [("sentiment",
         JObj [("emotion", JStr "sexual"); ("sentiment", JStr "negative");
               ("score", JNum 0.9)])].

Definition parse (s : string) : Outcome Json :=
  if String.eqb s (completionBody safeContent) then Ok (completion safeContent)
  else if String.eqb s (completionBody flaggedContent) then Ok (completion flaggedContent)
  else if String.eqb s safeContent then Ok safeResult
  else if String.eqb s flaggedContent then Ok flaggedResult
  else if String.eqb s sentimentBody then Ok sentimentData
  else Throw "Unexpected token in JSON".

Definition fixed1 (x : float) : string :=
  if PrimFloat.eqb x 80 then "80.0"
  else if PrimFloat.eqb x 10 then "10.0"
  else "0.0".

Definition answers (endpoint subject : string) : FetchResult :=
  if String.eqb endpoint openRouterEndpoint then
    if String.eqb subject "https://valid/nsfw.png"
    then Responds 200 (completionBody flaggedContent)
    else Responds 200 (completionBody safeContent)
  else if String.eqb endpoint jigsawEndpoint then Responds 200 sentimentBody
  else FetchRejects "fetch failed".

Definition env : Env :=
  {| OPENROUTER_API_KEY := Some "sk-or-bench";
     JIGSAWSTACK_API_KEY := Some "sk-js-bench";
     JSON_parse := parse;
     StringToNumber := fun _ => nan;
     NumberToString := fun _ => "NaN";
     toFixed1 := fixed1;
     toISOString := fun _ => "2026-01-01T00:00:00.000Z";
     trim := fun s => s;
     URL_parses := String.prefix "https://";
     dateNow := 1767225600000;
     http := answers;
     failure := fun _ => None;
     autoId := fun _ n => "doc" +:+ pretty n |}.

Definition withFailure (f : Op -> option string) (e : Env) : Env :=
  {| OPENROUTER_API_KEY := OPENROUTER_API_KEY e;
     JIGSAWSTACK_API_KEY := JIGSAWSTACK_API_KEY e;
     JSON_parse := JSON_parse e;
     StringToNumber := StringToNumber e;
     NumberToString := NumberToString e;
     toFixed1 := toFixed1 e;
     toISOString := toISOString e;
     trim := trim e;
     URL_parses := URL_parses e;
     dateNow := dateNow e;
     http := http e;
     failure := f;
     autoId := autoId e |}.

Definition withKeys (image text : option string) (e : Env) : Env :=
  {| OPENROUTER_API_KEY := image;
     JIGSAWSTACK_API_KEY := text;
     JSON_parse := JSON_parse e;
     StringToNumber := StringToNumber e;
     NumberToString := NumberToString e;
     toFixed1 := toFixed1 e;
     toISOString := toISOString e;
     trim := trim e;
     URL_parses := URL_parses e;
     dateNow := dateNow e;
     http := http e;
     failure := failure e;
     autoId := autoId e |}.

Definition upload (title : string) (url : option string) : Asset :=
  {| status := "uploading"; authorId := "u1"; name := title;
     description := "High-quality camera"; tags := ["camera"];
     imageUrl := url |}.

Definition doc (fields : list (string * FieldValue)) : Doc := list_to_map fields.

(** A store holding the uploaded asset [a1] and its author [u1]. *)
Definition store : Store :=
  {| assets := {[ "a1" := doc [("status", FStr "uploading")] ]};
     users := {[ "u1" := doc [("isBanned", FBool false)] ]};
     warnings := [];
     notifications := [];
     audit_logs := [];
     authDisabled := {[ "u1" := false ]};
     trace := [] |}.
End Bench.

Definition publishedAsset : Asset :=
  {| status := "published"; authorId := "u1"; name := "Realistic Camera Rig";
     description := "High-quality camera"; tags := ["camera"];
     imageUrl := Some "https://valid/img.png" |}.

(** Three users whose bans have run out, [u3] first, then [u1], then [u2];
    re-enabling the login of [u1] fails. *)
Module Sweep.
Definition banned (banUntil : Z) : Doc :=
  Bench.doc [("isBanned", FBool true);
             ("banReason", FStr "Automatic 7-day ban: 3 warnings for upload_abuse");
             ("banUntilDate", FDate banUntil)].

Definition store : Store :=
  {| assets := ∅;
     users := {[ "u1" := banned 1767000000000; "u2" := banned 1767100000000;
                 "u3" := banned 1766900000000 ]};
     warnings := [];
     notifications := [];
     audit_logs := [];
     authDisabled := {[ "u1" := true; "u2" := true; "u3" := true ]};
     trace := [] |}.

Definition authDown (op : Op) : option string :=
  match op with
  | AuthUpdateUser uid false =>
      if String.eqb uid "u1" then Some "auth/internal-error" else None
  | _ => None
  end.

Definition env : Env := Bench.withFailure authDown Bench.env.
End Sweep.

(** A second bench, for the functions around the pipeline: environments
    with another clock, another classifier answer or another parser, a
    store with its staff, and the engine's built-ins the account functions
    need. *)
Module Desk.
Definition withHttp (h : string -> string -> FetchResult) (e : Env) : Env :=
  {| OPENROUTER_API_KEY := OPENROUTER_API_KEY e;
     JIGSAWSTACK_API_KEY := JIGSAWSTACK_API_KEY e;
     JSON_parse := JSON_parse e;
     StringToNumber := StringToNumber e;
     NumberToString := NumberToString e;
     toFixed1 := toFixed1 e;
     toISOString := toISOString e;
     trim := trim e;
     URL_parses := URL_parses e;
     dateNow := dateNow e;
     http := h;
     failure := failure e;
     autoId := autoId e |}.

Definition withClock (now : Z) (e : Env) : Env :=
  {| OPENROUTER_API_KEY := OPENROUTER_API_KEY e;
     JIGSAWSTACK_API_KEY := JIGSAWSTACK_API_KEY e;
     JSON_parse := JSON_parse e;
     StringToNumber := StringToNumber e;
     NumberToString := NumberToString e;
     toFixed1 := toFixed1 e;
     toISOString := toISOString e;
     trim := trim e;
     URL_parses := URL_parses e;
     dateNow := now;
     http := http e;
     failure := failure e;
     autoId := autoId e |}.

Definition withParse (p : string -> Outcome Json) (e : Env) : Env :=
  {| OPENROUTER_API_KEY := OPENROUTER_API_KEY e;
     JIGSAWSTACK_API_KEY := JIGSAWSTACK_API_KEY e;
     JSON_parse := p;
     StringToNumber := StringToNumber e;
     NumberToString := NumberToString e;
     toFixed1 := toFixed1 e;
     toISOString := toISOString e;
     trim := trim e;
     URL_parses := URL_parses e;
     dateNow := dateNow e;
     http := http e;
     failure := failure e;
     autoId := autoId e |}.

(** The image classifier is down. *)
Definition down : Env :=
  withHttp (fun _ _ => Responds 503 "upstream down") Bench.env.

(** The sentiment API finds nothing wrong. *)
Definition calmBody : string :=
  "{" +:+ Bench.key "sentiment" +:+ "{" +:+ Bench.key "emotion" +:+ Bench.str "joy"
  +:+ "," +:+ Bench.key "sentiment" +:+ Bench.str "positive" +:+ "}}".
Definition calmData : Json :=
  JObj [("sentiment", JObj [("emotion", JStr "joy"); ("sentiment", JStr "positive")])].
Definition calm : Env :=
  withParse
    (fun s => if String.eqb s calmBody then Ok calmData
              else Throw "Unexpected token in JSON")
    (withHttp (fun _ _ => Responds 200 calmBody) Bench.env).

(** Eight days after the bench's clock. *)
Definition later : Env :=
  withClock (dateNow Bench.env + 8 * 24 * 60 * 60 * 1000) Bench.env.

(** The bench's store after three warnings for [u1]. *)
Definition struck : Store :=
  let call := createWarning Bench.env "u1" upload_abuse "rejected upload" None in
  stateAfter call (stateAfter call (stateAfter call Bench.store)).

(** A user with a document, two active warnings and no auth record. *)
Definition orphaned : Store :=
  {| assets := ∅;
     users := {[ "u9" := Bench.doc [("isBanned", FBool false)] ]};
     warnings := [warningDoc "u9" spam "first" None; warningDoc "u9" spam "second" None];
     notifications := [];
     audit_logs := [];
     authDisabled := ∅;
     trace := [] |}.

(** An admin, a member of support and a member, and two assets. *)
Definition store : Store :=
  {| assets := {[ "a1" := Bench.doc [("status", FStr "published");
                                      ("authorId", FStr "u1");
                                      ("imageUrl", FStr "https://valid/nsfw.png")];
                  "a2" := Bench.doc [("status", FStr "rejected");
                                      ("authorId", FStr "u1")] ]};
     users := {[ "adm" := Bench.doc [("role", FStr "admin")];
                 "sup" := Bench.doc [("role", FStr "support")];
                 "u1" := Bench.doc [("role", FStr "member"); ("isBanned", FBool false)] ]};
     warnings := [];
     notifications := [];
     audit_logs := [];
     authDisabled := {[ "adm" := false; "sup" := false; "u1" := false ]};
     trace := [] |}.

(** The engine's date arithmetic, for the one duration the examples use. *)
Definition dateAfter (now : Z) (days : float) : Outcome Z :=
  if PrimFloat.eqb days 7 then Ok (now + 7 * 24 * 60 * 60 * 1000)%Z
  else Throw "Value for argument seconds is not a valid integer.".

(** The server's [increment(1)], for the counts the examples use. *)
Definition increment (current : option FieldValue) : FieldValue :=
  match current with
  | Some (FNum x) => FNum (x + 1)
  | _ => FNum 1
  end.

Definition client : RateLimit.Request :=
  {| RateLimit.ip := Some "203.0.113.7"; RateLimit.remoteAddress := None |}.
End Desk.


(** * Runs and what they leave behind *)

(** ** Relations every step of a run preserves *)

Section Preserved.
Context (R : relation Store) `{!PreOrder R}.

Lemma preserves_ret {A} (a : A) : preserves R (ret a).
Proof. intros st. reflexivity. Qed.

Lemma preserves_throw {A} e : preserves R (@throw A e).
Proof. intros st. reflexivity. Qed.

Lemma preserves_lift {A} (o : Outcome A) : preserves R (lift o).
Proof. intros st. reflexivity. Qed.

Lemma preserves_bind {A B} (m : M A) (k : A -> M B) :
  preserves R m -> (forall a, preserves R (k a)) -> preserves R (bind m k).
Proof.
  intros Hm Hk st. specialize (Hm st).
  unfold stateAfter, bind in *.
  destruct (m st) as [st1 [a | e]]; simpl in *; [| done].
  etransitivity; [exact Hm | apply Hk].
Qed.

Lemma preserves_try_catch {A} (m : M A) (h : string -> M A) :
  preserves R m -> (forall e, preserves R (h e)) -> preserves R (try_catch m h).
Proof.
  intros Hm Hh st. specialize (Hm st).
  unfold stateAfter, try_catch in *.
  destruct (m st) as [st1 [a | e]]; simpl in *; [done |].
  etransitivity; [exact Hm | apply Hh].
Qed.

(** A call to a collaborator preserves what its trace entry preserves. *)
Lemma preserves_external env op :
  preserves R (emit op) -> preserves R (external env op).
Proof.
  intros He. unfold external. apply preserves_bind; [done |].
  intros _. destruct (failure env op); [apply preserves_throw | apply preserves_ret].
Qed.
End Preserved.

Ltac preserves_structure :=
  lazymatch goal with
  | |- PreOrder _ => apply _
  | |- forall _, _ => intros ?
  | |- preserves _ (bind _ _) => apply preserves_bind
  | |- preserves _ (try_catch _ _) => apply preserves_try_catch
  | |- preserves _ (ret _) => apply preserves_ret
  | |- preserves _ (throw _) => apply preserves_throw
  | |- preserves _ (lift _) => apply preserves_lift
  | |- preserves _ (external _ _) => apply preserves_external
  | |- preserves _ (if ?b then _ else _) => destruct b
  | |- preserves _ (match ?x with _ => _ end) => destruct x
  end.


(** ** Runs as sequences of effects *)

#[global] Instance evolves_preorder P : PreOrder (evolves P).
Proof.
  split.
  - intros st. by exists [].
  - intros a b c (e1 & -> & F1) (e2 & -> & F2). exists (e1 ++ e2).
    split; [by rewrite foldl_app | by apply Forall_app].
Qed.

Section Evolves.
Context (P : Effect -> Prop) (env : Env).

Lemma evolves_one st e : P e -> evolves P st (applyEffect st e).
Proof. intros H. exists [e]. split; [done | by constructor]. Qed.

Lemma evolves_emit op : P (Traced op) -> preserves (evolves P) (emit op).
Proof. intros H st. by apply (evolves_one st (Traced op)). Qed.

Lemma evolves_updateDoc c id fields :
  P (Traced (DocUpdate c id fields)) -> P (Updated c id fields) ->
  preserves (evolves P) (updateDoc env c id fields).
Proof.
  intros HT HU. unfold updateDoc. repeat preserves_structure.
  - by apply evolves_emit.
  - intros st. unfold stateAfter.
    destruct (keyedDocs c st !! id) as [d |] eqn:E; simpl; [| reflexivity].
    replace (setKeyedDocs c _ st) with (applyEffect st (Updated c id fields))
      by (simpl; by rewrite E).
    by apply evolves_one.
Qed.

Lemma evolves_addDoc c doc :
  P (Traced (DocAdd c doc)) -> P (Added c doc) ->
  preserves (evolves P) (addDoc env c doc).
Proof.
  intros HT HA. unfold addDoc. repeat preserves_structure.
  - by apply evolves_emit.
  - intros st. by apply (evolves_one st (Added c doc)).
Qed.

Lemma evolves_authUpdateUser uid disabled :
  P (Traced (AuthUpdateUser uid disabled)) -> P (AuthSet uid disabled) ->
  preserves (evolves P) (authUpdateUser env uid disabled).
Proof.
  intros HT HA. unfold authUpdateUser. repeat preserves_structure.
  - by apply evolves_emit.
  - intros st. unfold stateAfter.
    destruct (authDisabled st !! uid); simpl; [| reflexivity].
    by apply (evolves_one st (AuthSet uid disabled)).
Qed.

Lemma evolves_queryWarnings conds :
  P (Traced (QueryWarnings conds)) -> preserves (evolves P) (queryWarnings env conds).
Proof.
  intros HT. unfold queryWarnings. repeat preserves_structure.
  - by apply evolves_emit.
  - intros st. reflexivity.
Qed.

Lemma evolves_queryUsers conds :
  P (Traced (QueryUsers conds)) -> preserves (evolves P) (queryUsers env conds).
Proof.
  intros HT. unfold queryUsers. repeat preserves_structure.
  - by apply evolves_emit.
  - intros st. reflexivity.
Qed.

Lemma evolves_fetch endpoint subject :
  P (Traced (Fetch endpoint subject)) ->
  preserves (evolves P) (fetch env endpoint subject).
Proof.
  intros HT. unfold fetch. repeat preserves_structure. by apply evolves_emit.
Qed.
Lemma evolves_addData c data :
  P (Traced (DocAdd c (list_to_map (definedFields data)))) ->
  P (Added c (list_to_map (definedFields data))) ->
  preserves (evolves P) (addData env c data).
Proof.
  intros HT HA. unfold addData.
  destruct (undefinedField data); [apply preserves_throw; apply _ | by apply evolves_addDoc].
Qed.
End Evolves.

(** ** An audit entry without a user agent

    [logAuditAction] hands the store an object whose [userAgent] is
    [undefined] whenever the caller gives none, and none of the callers in
    the sources gives one: the store refuses the object, nothing is sent,
    and the function answers ['audit_failed']. *)

Lemma auditLogDoc_undefined env actorId action targetId isSensitive details ip :
  is_Some (undefinedField
             (auditLogDoc env actorId action targetId isSensitive details ip None)).
Proof.
  unfold auditLogDoc. cbn [undefinedField].
  destruct (mapValue _); [| by eexists].
  destruct isSensitive; [destruct ip |]; by eexists.
Qed.

Lemma logAuditAction_unsent env actorId action targetId isSensitive details ip st :
  logAuditAction env actorId action targetId isSensitive details ip None st
  = (setTrace (trace st ++ [Call "logAuditAction" [actorId; action; targetId]]) st,
     Ok "audit_failed").
Proof.
  unfold logAuditAction, addData.
  destruct (auditLogDoc_undefined env actorId action targetId isSensitive details ip)
    as [field ->].
  reflexivity.
Qed.

Lemma evolves_logAuditAction_unsent (P : Effect -> Prop) env actorId action targetId
    isSensitive details ip :
  P (Traced (Call "logAuditAction" [actorId; action; targetId])) ->
  preserves (evolves P)
    (logAuditAction env actorId action targetId isSensitive details ip None).
Proof.
  intros HT st. unfold stateAfter. rewrite logAuditAction_unsent.
  by apply (evolves_one P st (Traced _)).
Qed.

Ltac evolves_primitive :=
  first
    [ apply evolves_updateDoc | apply evolves_addDoc | apply evolves_addData
    | apply evolves_authUpdateUser
    | apply evolves_queryWarnings | apply evolves_queryUsers | apply evolves_fetch
    | apply evolves_logAuditAction_unsent | apply evolves_emit ].

(** Unfolds the handlers down to the primitives and walks their structure;
    what is left are the side conditions on the effects. *)
Ltac evolves_walk :=
  unfold onAssetUploaded, verify, failSafe, publish, rejectFlagged, warnAndAudit,
    checkImageForNSFW,
    checkTextForNSFW, createWarning, autoBan, notifyWarning, restoreUser;
  repeat first [preserves_structure | evolves_primitive].

(** *** What the effects say about the parts of the store *)

Lemma trace_foldl effects st :
  trace (foldl applyEffect st effects) = trace st ++ tracedOps effects.
Proof.
  revert st. induction effects as [| e effects IH]; intros st; simpl.
  - by rewrite app_nil_r.
  - rewrite IH. destruct e as [op | c id f | c doc | uid b]; simpl.
    + unfold tracedOps. simpl. by rewrite <- app_assoc.
    + destruct c; simpl; by destruct (_ !! id).
    + by destruct c.
    + done.
Qed.

(** The calls of a run are the traced effects. *)
Lemma opsDuring_evolves {A} (P : Effect -> Prop) (Q : Op -> Prop) (m : M A) st :
  evolves P st (stateAfter m st) ->
  (forall op, P (Traced op) -> Q op) ->
  Forall Q (opsDuring m st).
Proof.
  intros (effects & E & F) HPQ. unfold opsDuring.
  rewrite E, trace_foldl, drop_app_length. clear E.
  induction F as [| e effects He F IH]; [constructor |].
  destruct e; unfold tracedOps in *; simpl; try done.
  constructor; auto.
Qed.

Lemma count_none p ops : Forall (fun op => p op = false) ops -> count p ops = 0%nat.
Proof.
  unfold count. induction 1 as [| op ops H F IH]; simpl; [done |]. by rewrite H.
Qed.

Lemma count_app p a b : count p (a ++ b) = (count p a + count p b)%nat.
Proof. unfold count. by rewrite List.filter_app, length_app. Qed.

Lemma count_cons p op ops :
  count p (op :: ops) = ((if p op then 1 else 0) + count p ops)%nat.
Proof. unfold count. simpl. by destruct (p op). Qed.

Lemma opsDuring_trace {A} (m : M A) st new :
  trace (stateAfter m st) = trace st ++ new -> opsDuring m st = new.
Proof. intros H. unfold opsDuring. by rewrite H, drop_app_length. Qed.

Lemma audit_evolves (P : Effect -> Prop) st st' :
  evolves P st st' ->
  (forall doc, P (Added AuditLogs doc) -> writtenAsSuccess doc) ->
  auditGrows st st'.
Proof.
  intros (effects & -> & F) HP. revert st.
  induction F as [| e effects He F IH]; intros st; simpl.
  - exists []. by rewrite app_nil_r.
  - destruct (IH (applyEffect st e)) as (new & E & Fn).
    destruct e as [op | c id f | c doc | uid b]; simpl in *.
    + by exists new.
    + exists new. split; [| done]. rewrite E.
      destruct c; simpl; by destruct (_ !! id).
    + destruct c; simpl in *; try by exists new.
      exists (doc :: new). split; [by rewrite E, <- app_assoc |].
      constructor; [by apply HP | done].
    + by exists new.
Qed.

(** A user's document is touched only by an update addressed to it. *)
Lemma users_evolves (P : Effect -> Prop) (v : string) st st' :
  evolves P st st' ->
  (forall id fields, P (Updated Users id fields) -> id <> v) ->
  users st' !! v = users st !! v.
Proof.
  intros (effects & -> & F) HP. revert st.
  induction F as [| e effects He F IH]; intros st; simpl; [done |].
  rewrite IH. destruct e as [op | c id f | c doc | uid b]; simpl; try done.
  - destruct c; simpl.
    + by destruct (assets st !! id).
    + destruct (users st !! id) eqn:E; simpl; [| done].
      apply lookup_insert_ne. by apply HP in He.
  - by destruct c.
Qed.

(** The sweep's loop preserves what its body preserves. *)
Lemma restoreAll_preserves (R : relation Store) `{!PreOrder R} env :
  (forall userId, preserves R (restoreUser env userId)) ->
  forall docs n, preserves R (restoreAll env docs n).
Proof.
  intros Hbody docs. induction docs as [| doc docs IH]; intros n; simpl.
  - repeat preserves_structure.
  - repeat preserves_structure; [apply Hbody | apply IH].
Qed.


(** ** The audit log *)

Lemma auditLogDoc_success env actorId action targetId isSensitive details ip ua :
  writtenAsSuccess
    (list_to_map
       (definedFields (auditLogDoc env actorId action targetId isSensitive details ip ua))).
Proof.
  unfold writtenAsSuccess, auditLogDoc, definedFields. cbn [omap list_omap fst snd].
  destruct (mapValue _); cbn;
    repeat (rewrite lookup_insert_ne by done); apply lookup_insert_eq.
Qed.

Ltac audited_side :=
  lazymatch goal with
  | |- auditedBySuccess (Added AuditLogs _) => apply auditLogDoc_success
  | |- auditedBySuccess _ => exact I
  end.

Lemma createWarning_audited env userId reason message evidence :
  preserves (evolves auditedBySuccess)
    (createWarning env userId reason message evidence).
Proof. evolves_walk; audited_side. Qed.

Lemma onAssetUploaded_audited env assetId asset :
  preserves (evolves auditedBySuccess) (onAssetUploaded env assetId asset).
Proof. evolves_walk; audited_side. Qed.

Lemma checkExpiredBans_audited env :
  preserves (evolves auditedBySuccess) (checkExpiredBans env).
Proof.
  unfold checkExpiredBans. repeat first [preserves_structure | evolves_primitive].
  - exact I.
  - apply restoreAll_preserves; [apply _ |]. intros userId.
    evolves_walk; audited_side.
Qed.

Lemma audited_grows st st' : evolves auditedBySuccess st st' -> auditGrows st st'.
Proof. intros H. by apply (audit_evolves _ _ _ H). Qed.

(** The handlers give [logAuditAction] no user agent: their runs leave the
    audit log as it was. *)
Lemma audit_unchanged (P : Effect -> Prop) st st' :
  evolves P st st' ->
  (forall doc, ~ P (Added AuditLogs doc)) ->
  audit_logs st' = audit_logs st.
Proof.
  intros (effects & -> & F) HP. revert st.
  induction F as [| e effects He F IH]; intros st; simpl; [done |].
  rewrite IH. destruct e as [op | c id f | c doc | uid b]; simpl; try done.
  - destruct c; simpl; by destruct (_ !! id).
  - destruct c; simpl; try done. by apply HP in He.
Qed.

Lemma createWarning_unaudited env userId reason message evidence :
  preserves (evolves notToAudit) (createWarning env userId reason message evidence).
Proof. evolves_walk; exact I. Qed.

Lemma onAssetUploaded_unaudited env assetId asset :
  preserves (evolves notToAudit) (onAssetUploaded env assetId asset).
Proof. evolves_walk; exact I. Qed.

Lemma checkExpiredBans_unaudited env :
  preserves (evolves notToAudit) (checkExpiredBans env).
Proof.
  unfold checkExpiredBans. repeat first [preserves_structure | evolves_primitive].
  - exact I.
  - apply restoreAll_preserves; [apply _ |]. intros userId.
    evolves_walk; exact I.
Qed.

Lemma unaudited_keeps st st' : evolves notToAudit st st' -> audit_logs st' = audit_logs st.
Proof. intros H. apply (audit_unchanged _ _ _ H). intros doc Hd. exact Hd. Qed.

(** What one call of [logAuditAction] returns and leaves in the log. *)
Lemma logAuditAction_run env actorId action targetId isSensitive details ip ua st :
  let run := logAuditAction env actorId action targetId isSensitive details ip ua st in
  let data := auditLogDoc env actorId action targetId isSensitive details ip ua in
  match undefinedField data, failure env (DocAdd AuditLogs (list_to_map (definedFields data))) with
  | None, None =>
      run.2 = Ok (autoId env AuditLogs (length (audit_logs st)))
      /\ audit_logs run.1 = audit_logs st ++ [list_to_map (definedFields data)]
  | _, _ => run.2 = Ok "audit_failed" /\ audit_logs run.1 = audit_logs st
  end.
Proof.
  unfold logAuditAction, addData, try_catch, bind, emit.
  destruct (undefinedField _); [done |].
  unfold addDoc, external, emit, bind, ret, throw. simpl. by destruct (failure env _).
Qed.

(** C10. Every entry that [logAuditAction] adds to [audit_logs] carries status
    ['success'], whatever [isSensitive] is, and the call never throws: when
    the write fails it returns ['audit_failed'] and adds nothing.  No handler
    of the core ([createWarning], [onAssetUploaded], [checkExpiredBans]) adds
    an entry in any other way, so every entry a run appends is written as a
    success, also on the paths where the surrounding operation failed. *)
Theorem audit_entries_are_written_as_success :
  forall (env : Env) (st : Store),
    (forall actorId action targetId isSensitive details ip ua,
        let run := logAuditAction env actorId action targetId isSensitive details ip ua st in
        (run.2 = Ok "audit_failed" /\ audit_logs run.1 = audit_logs st)
        \/ (exists entry,
               run.2 = Ok (autoId env AuditLogs (length (audit_logs st)))
               /\ audit_logs run.1 = audit_logs st ++ [entry]
               /\ entry !! "status" = Some (FStr "success")
               /\ entry !! "status" <> Some (FStr "failed")))
    /\ (forall userId reason message evidence,
          auditGrows st (stateAfter (createWarning env userId reason message evidence) st))
    /\ (forall assetId asset,
          auditGrows st (stateAfter (onAssetUploaded env assetId asset) st))
    /\ auditGrows st (stateAfter (checkExpiredBans env) st).
Proof.
  intros env st. repeat split.
  - intros actorId action targetId isSensitive details ip ua run.
    pose proof (logAuditAction_run env actorId action targetId isSensitive
                  details ip ua st) as H.
    cbv zeta in H. fold run in H.
    destruct (undefinedField _); [by left |].
    destruct (failure env _); [by left |].
    right. destruct H as [H1 H2]. eexists. repeat split; [exact H1 | exact H2 | |].
    + apply auditLogDoc_success.
    + rewrite auditLogDoc_success. discriminate.
  - intros. apply audited_grows, createWarning_audited.
  - intros. apply audited_grows, onAssetUploaded_audited.
  - apply audited_grows, checkExpiredBans_audited.
Qed.


(** ** The image verdict *)

Lemma strictlyTrue_spec v : strictlyTrue v = true <-> v = Some (JBool true).
Proof.
  split; [| by intros ->].
  destruct v as [[| [] | | | |] |]; simpl; congruence.
Qed.

Lemma holds_spec o : holds o = true <-> o = Ok true.
Proof. destruct o as [[] |]; simpl; split; congruence. Qed.

(** A value with a string form has a number form, and stays printable behind
    a default. *)
Lemma printable_ToNumber env v :
  printable env v ->
  exists n, ToNumber (StringToNumber env) (NumberToString env) v = Ok n.
Proof.
  intros [s H]. destruct v as [[| [] | | | |] |]; simpl in *; eauto.
  all: rewrite H; simpl; eauto.
Qed.

Lemma printable_orElse env v d :
  printable env v -> printable env (Some d) -> printable env (orElse v d).
Proof. intros Hv Hd. unfold orElse. by destruct (truthy v). Qed.

(** The flag of a verdict is the rule of line 288. *)
Lemma verdictOf_flag env fields v :
  verdictOf env (Some (JObj fields)) = Ok v ->
  isNSFW v
  = strictlyTrue (lookupField "is_nsfw" fields)
    || holds (exceeds (StringToNumber env) (NumberToString env)
                (lookupField "confidence" fields) 0.65).
Proof.
  unfold verdictOf. cbn [getProp obind].
  set (flag := if strictlyTrue _ then _ else _).
  assert (Hflag : forall b, flag = Ok b ->
            b = strictlyTrue (lookupField "is_nsfw" fields)
                || holds (exceeds (StringToNumber env) (NumberToString env)
                            (lookupField "confidence" fields) 0.65)).
  { subst flag. intros b. destruct (strictlyTrue _); simpl.
    - by intros [= <-].
    - by intros ->. }
  destruct flag as [b |]; cbn [obind]; [| discriminate].
  destruct (ToNumber _ _ _) as [n |]; cbn [obind]; [| discriminate].
  destruct (ToString _ (orElse _ (JStr "No reason provided"))) as [r |];
    cbn [obind]; [| discriminate].
  destruct (ToString _ (lookupField "category" fields)) as [l |];
    cbn [obind]; [| discriminate].
  destruct (ToString _ (orElse _ (JStr "unknown"))) as [c |];
    cbn [obind]; [| discriminate].
  intros [= <-]. simpl. by apply Hflag.
Qed.

(** The lines return a verdict when the three values they convert have a
    string form. *)
Lemma verdictOf_returns env fields :
  printable env (lookupField "confidence" fields) ->
  printable env (lookupField "reason" fields) ->
  printable env (lookupField "category" fields) ->
  exists v, verdictOf env (Some (JObj fields)) = Ok v.
Proof.
  intros Hc Hr Hk. unfold verdictOf. cbn [getProp obind].
  destruct (printable_ToNumber env _ Hc) as [n Hn].
  assert (Hflag : exists b,
            (if strictlyTrue (lookupField "is_nsfw" fields) then Ok true
             else exceeds (StringToNumber env) (NumberToString env)
                    (lookupField "confidence" fields) 0.65) = Ok b).
  { destruct (strictlyTrue _); [by eexists |].
    unfold exceeds. rewrite Hn. by eexists. }
  destruct Hflag as [b ->]. cbn [obind]. rewrite Hn. cbn [obind].
  destruct (printable_orElse env _ (JStr "No reason provided") Hr) as [r ->];
    [by eexists |].
  cbn [obind]. destruct Hk as [l Hl]. rewrite Hl. cbn [obind].
  destruct (printable_orElse env (lookupField "category" fields) (JStr "unknown"))
    as [c ->]; [by exists l | by eexists |].
  cbn [obind]. by eexists.
Qed.

(** The adapter on an answer that parses: its one request, then the verdict
    lines, whose error it wraps. *)
Lemma checkImageForNSFW_parsed env url result st :
  parsedAnswer env url result ->
  checkImageForNSFW env url st
  = (setTrace (trace st ++ [Fetch openRouterEndpoint url]) st,
     match verdictOf env (Some result) with
     | Ok v => Ok v
     | Throw e => Throw ("NSFW detection failed: " +:+ e)
     end).
Proof.
  intros (K & status & body & data & content & jsonMatch & H & Hok & HP & HC & HM & HJ).
  unfold checkImageForNSFW. rewrite K. simpl.
  unfold try_catch, bind, fetch, emit, lift, ret, throw. simpl.
  rewrite H. simpl. rewrite Hok. simpl. rewrite HP. simpl.
  rewrite HC. simpl. rewrite HM. simpl. rewrite HJ. simpl.
  by destruct (verdictOf env (Some result)).
Qed.

(** C4. For a response object that parses, the verdict [checkImageForNSFW]
    returns is flagged exactly when the object's [is_nsfw] is [true] or its
    [confidence] exceeds 0.65, and the adapter does return a verdict when
    the [confidence], [reason] and [category] of the object have a string
    form (as numbers, strings, booleans and [null] have); for a boolean
    [is_nsfw] and a numeric [confidence] the flag is
    [is_nsfw || 0.65 < confidence].  In particular
    [{is_nsfw: false, confidence: 0.8}] is flagged and
    [{is_nsfw: false, confidence: 0.3}] is not. *)
Theorem flagged_iff_marked_or_confident :
  forall (env : Env) (url : string) (fields : list (string * Json)) (st : Store),
    parsedAnswer env url (JObj fields) ->
    let run := outcomeOf (checkImageForNSFW env url) st in
    (forall v,
        run = Ok v ->
        (isNSFW v = true <->
           lookupField "is_nsfw" fields = Some (JBool true)
           \/ exceeds (StringToNumber env) (NumberToString env)
                (lookupField "confidence" fields) 0.65 = Ok true))
    /\ (printable env (lookupField "confidence" fields) ->
        printable env (lookupField "reason" fields) ->
        printable env (lookupField "category" fields) ->
        exists v, run = Ok v)
    /\ (forall (marked : bool) (x : float) (more : list (string * Json)),
          fields = ("is_nsfw", JBool marked) :: ("confidence", JNum x) :: more ->
          forall v, run = Ok v -> isNSFW v = marked || PrimFloat.ltb 0.65 x)
    /\ (fields = [("is_nsfw", JBool false); ("confidence", JNum 0.8)] ->
        exists v, run = Ok v /\ isNSFW v = true)
    /\ (fields = [("is_nsfw", JBool false); ("confidence", JNum 0.3)] ->
        exists v, run = Ok v /\ isNSFW v = false).
Proof.
  intros env url fields st H run.
  assert (Hrun : run = match verdictOf env (Some (JObj fields)) with
                       | Ok v => Ok v
                       | Throw e => Throw ("NSFW detection failed: " +:+ e)
                       end).
  { unfold run, outcomeOf. by rewrite (checkImageForNSFW_parsed env url _ st H). }
  assert (Hflag : forall v, run = Ok v ->
            isNSFW v
            = strictlyTrue (lookupField "is_nsfw" fields)
              || holds (exceeds (StringToNumber env) (NumberToString env)
                          (lookupField "confidence" fields) 0.65)).
  { intros v Hv. rewrite Hrun in Hv.
    destruct (verdictOf env (Some (JObj fields))) as [v' |] eqn:E; [| discriminate].
    injection Hv as <-. by apply verdictOf_flag. }
  assert (Hreturns : printable env (lookupField "confidence" fields) ->
                     printable env (lookupField "reason" fields) ->
                     printable env (lookupField "category" fields) ->
                     exists v, run = Ok v).
  { intros Hc Hr Hk. destruct (verdictOf_returns env fields Hc Hr Hk) as [v Hv].
    exists v. by rewrite Hrun, Hv. }
  split; [| split; [exact Hreturns | split; [| split]]].
  - intros v Hv. rewrite (Hflag v Hv), orb_true_iff, strictlyTrue_spec, holds_spec.
    reflexivity.
  - intros marked x more -> v Hv. rewrite (Hflag v Hv). by destruct marked.
  - intros ->. destruct Hreturns as [v Hv]; [by eexists .. |].
    exists v. split; [done |]. by rewrite (Hflag v Hv).
  - intros ->. destruct Hreturns as [v Hv]; [by eexists .. |].
    exists v. split; [done |]. by rewrite (Hflag v Hv).
Qed.

(** What the earlier lines return: they compare only when [is_nsfw] is
    [true], and convert nothing else. *)
Lemma earlier_verdictOf_flag env fields v0 :
  Earlier.verdictOf env (Some (JObj fields)) = Ok v0 ->
  Earlier.isNSFW v0
  = strictlyTrue (lookupField "is_nsfw" fields)
    && holds (exceeds (StringToNumber env) (NumberToString env)
                (lookupField "confidence" fields) 0.7).
Proof.
  unfold Earlier.verdictOf. cbn [getProp obind].
  destruct (strictlyTrue _); cbn [andb].
  - destruct (exceeds _ _ _ 0.7) as [b |]; cbn [obind]; [| discriminate].
    by intros [= <-].
  - by intros [= <-].
Qed.

(** C9, as the code has it.  The two adapters do not agree: the earlier one
    needs [is_nsfw === true] and a confidence above 0.7, the current one
    either [is_nsfw === true] or a confidence above 0.65, and the current
    one converts the reason and the category to strings where the earlier
    one hands them on as they are.  When both return a verdict, the current
    one flags whenever the earlier one does, and the outcomes are equal
    exactly when [is_nsfw === true] with confidence above 0.7, or [is_nsfw]
    is not [true] with confidence not above 0.65.  When the earlier one
    throws, the current one throws the same error.  The current one also
    throws where the earlier one flags: on an object marked [true], with a
    numeric confidence, whose reason is an object with a key [toString]. *)
Theorem earlier_flag_implies_current_flag :
  forall (env : Env) (fields : list (string * Json)),
    let result := Some (JObj fields) in
    let above threshold :=
      holds (exceeds (StringToNumber env) (NumberToString env)
               (lookupField "confidence" fields) threshold) in
    (forall v0 v,
        Earlier.verdictOf env result = Ok v0 ->
        verdictOf env result = Ok v ->
        implb (Earlier.isNSFW v0) (isNSFW v) = true
        /\ Bool.eqb (Earlier.isNSFW v0) (isNSFW v)
           = if strictlyTrue (lookupField "is_nsfw" fields)
             then above 0.7%float
             else negb (above 0.65%float))
    /\ (forall e, Earlier.verdictOf env result = Throw e ->
          verdictOf env result = Throw e)
    /\ (printable env (lookupField "confidence" fields) ->
        exists v0, Earlier.verdictOf env result = Ok v0)
    /\ (forall (x : float) (why : Json) (more : list (string * Json)),
          fields = [("is_nsfw", JBool true); ("confidence", JNum x);
                    ("reason", JObj (("toString", why) :: more))] ->
          (exists v0, Earlier.verdictOf env result = Ok v0
                      /\ Earlier.isNSFW v0 = PrimFloat.ltb 0.7 x)
          /\ verdictOf env result = Throw "Cannot convert object to primitive value").
Proof.
  intros env fields result above. split; [| split; [| split]].
  - intros v0 v H0 H.
    rewrite (earlier_verdictOf_flag env fields v0 H0), (verdictOf_flag env fields v H).
    fold (above 0.7%float). fold (above 0.65%float).
    destruct (strictlyTrue _); cbn [andb orb].
    + split; by destruct (above 0.7%float).
    + split; [done | by destruct (above 0.65%float)].
  - intros e. subst result. unfold Earlier.verdictOf, verdictOf. cbn [getProp obind].
    destruct (strictlyTrue _) eqn:Hs; [| discriminate].
    unfold exceeds.
    destruct (ToNumber _ _ (lookupField "confidence" fields)) as [n |] eqn:En;
      cbn [obind]; [discriminate |].
    by intros [= <-].
  - intros Hc. subst result. unfold Earlier.verdictOf. cbn [getProp obind].
    destruct (printable_ToNumber env _ Hc) as [n Hn].
    unfold exceeds. rewrite Hn. cbn [obind].
    destruct (strictlyTrue _); cbn [obind]; by eexists.
  - intros x why more ->. subst result. split; [by eexists |]. reflexivity.
Qed.

(** ** The text check fails open *)

Lemma checkTextForNSFW_never_throws env text fieldName st :
  exists st' v, checkTextForNSFW env text fieldName st = (st', Ok v).
Proof.
  unfold checkTextForNSFW.
  destruct (configured _); simpl; [| by eauto].
  destruct (_ || _); simpl; [by eauto |].
  unfold try_catch, bind, fetch, emit, lift, ret, throw. simpl.
  destruct (http env jigsawEndpoint text) as [m | status body]; simpl; [by eauto |].
  destruct (responseOk status); simpl; [| by eauto].
  destruct (JSON_parse env body) as [data | m]; simpl; [| by eauto].
  destruct (textVerdictOf env text fieldName data); simpl; by eauto.
Qed.

(** C8. Whatever way the text check fails (missing API key, non-2xx answer,
    no sentiment data, a thrown exception), [checkTextForNSFW] returns, and
    what it returns is a verdict that is not flagged and carries the
    diagnostic of that failure (or, when the check was never attempted, the
    reason why: no key, or an empty text). *)
Theorem text_check_fails_open :
  forall (env : Env) (text fieldName : string) (f : TextFailure) (st : Store),
    happens env text fieldName f ->
    exists st' v,
      checkTextForNSFW env text fieldName st = (st', Ok v)
      /\ Text.isNSFW v = false
      /\ Text.reason v =
           if negb (configured (JIGSAWSTACK_API_KEY env)) then "Text check skipped"
           else if String.eqb text EmptyString || String.eqb (trim env text) EmptyString
                then "Empty text"
                else diagnostic f.
Proof.
  intros env text fieldName f st H. unfold checkTextForNSFW.
  destruct (configured (JIGSAWSTACK_API_KEY env)) eqn:K; simpl; [| by eauto].
  destruct (_ || _); simpl; [by eauto |].
  unfold try_catch, bind, fetch, emit, lift, ret, throw. simpl.
  destruct f; unfold happens in H.
  - congruence.
  - destruct H as (status & body & -> & Hok). simpl. rewrite Hok. simpl. by eauto.
  - destruct H as (status & body & data & sd & -> & Hok & HP & HS & HT).
    simpl. rewrite Hok. simpl. rewrite HP. simpl.
    unfold textVerdictOf. rewrite HS. simpl. rewrite HT. simpl. by eauto.
  - destruct H as [(m & ->) | (status & body & m & -> & Hok & HT)]; simpl; [by eauto |].
    rewrite Hok. simpl.
    destruct (JSON_parse env body) as [data | m']; simpl in *; [| by eauto].
    rewrite HT. simpl. by eauto.
Qed.


(** ** The image check fails closed *)

(** The image adapter touches nothing but the trace, where it leaves its one
    request when the key is configured. *)
Lemma checkImageForNSFW_state env url st :
  stateAfter (checkImageForNSFW env url) st =
  if configured (OPENROUTER_API_KEY env)
  then setTrace (trace st ++ [Fetch openRouterEndpoint url]) st
  else st.
Proof.
  unfold stateAfter, checkImageForNSFW.
  destruct (configured _); simpl; [| done].
  unfold try_catch, bind, fetch, emit, lift, ret, throw. simpl.
  destruct (http env openRouterEndpoint url) as [m | status body]; simpl; [done |].
  destruct (responseOk status); simpl; [| done].
  destruct (JSON_parse env body) as [data | m]; simpl; [| done].
  destruct (let? c := messageContent data in contentText c) as [content | m];
    simpl; [| done].
  destruct (matchBraces content) as [jsonMatch |]; simpl; [| done].
  destruct (JSON_parse env jsonMatch) as [result | m]; simpl; [| done].
  by destruct (verdictOf env (Some result)).
Qed.

Lemma image_failure_throws env url st :
  ImageFailure env url -> exists e, outcomeOf (checkImageForNSFW env url) st = Throw e.
Proof.
  intros H. unfold outcomeOf, checkImageForNSFW.
  destruct (configured (OPENROUTER_API_KEY env)) eqn:K; simpl; [| by eauto].
  unfold try_catch, bind, fetch, emit, lift, ret, throw. simpl.
  destruct H as [H | m H | status body H Hok | status body m H HP
                 | status body data content H HP HC HM
                 | status body data content jm m H HP HC HM HJ]; [congruence | ..];
    rewrite H; simpl; [by eauto | ..].
  - rewrite Hok. simpl. by eauto.
  - destruct (responseOk status); simpl; [| by eauto]. rewrite HP. simpl. by eauto.
  - destruct (responseOk status); simpl; [| by eauto].
    rewrite HP. simpl. rewrite HC. simpl. rewrite HM. simpl. by eauto.
  - destruct (responseOk status); simpl; [| by eauto].
    rewrite HP. simpl. rewrite HC. simpl. rewrite HM. simpl. rewrite HJ. simpl.
    by eauto.
Qed.

Lemma rejection_status why more : rejection why more !! "status" = Some (FStr "rejected").
Proof. unfold rejection. simpl. apply lookup_insert_eq. Qed.

Lemma stored_insert docs id d field :
  stored (<[id := d]> docs) id field = d !! field.
Proof. unfold stored. by rewrite lookup_insert_eq. Qed.

(** C1. In every run in which [checkImageForNSFW] throws, for whatever reason,
    the handler returns normally and the one status it writes to the asset is
    ['rejected']: the calls of the run hold exactly one status update, it
    carries ['rejected'], and none carries ['published'].  When the store
    takes that update the stored status is ['rejected']; when the store
    refuses it the asset documents are as they were. *)
Theorem classifier_failure_rejects :
  forall (env : Env) (assetId : string) (asset : Asset) (url : string)
         (st st1 : Store) (e : string),
    status asset = "uploading" ->
    presentUrl asset = Some url ->
    URL_parses env url = true ->
    checkImageForNSFW env url st = (st1, Throw e) ->
    let run := onAssetUploaded env assetId asset st in
    run.2 = Ok tt
    /\ omap statusWritten (opsDuring (onAssetUploaded env assetId asset) st)
       = [FStr "rejected"]
    /\ (stored (assets run.1) assetId "status" = Some (FStr "rejected")
        \/ assets run.1 = assets st)
    /\ (failure env (DocUpdate Assets assetId (failSafeRejection e)) = None ->
        is_Some (assets st !! assetId) ->
        stored (assets run.1) assetId "status" = Some (FStr "rejected")).
Proof.
  intros env assetId asset url st st1 e Hstatus Hurl Hparse Hcheck run.
  pose proof (checkImageForNSFW_state env url st) as Hst1.
  unfold stateAfter in Hst1. rewrite Hcheck in Hst1. simpl in Hst1.
  assert (Hassets : assets st1 = assets st)
    by (rewrite Hst1; by destruct (configured _)).
  assert (Htrace : exists request, trace st1 = trace st ++ request
                                   /\ omap statusWritten request = [])
    by (rewrite Hst1; destruct (configured _); simpl;
        [by exists [Fetch openRouterEndpoint url]
        | exists []; by rewrite app_nil_r]).
  destruct Htrace as (request & Htrace & Hrequest).
  assert (Hrun : run = failSafe env assetId e st1).
  { unfold run, onAssetUploaded, verify. rewrite Hstatus, Hurl. simpl.
    rewrite Hparse. simpl.
    unfold try_catch at 1. unfold bind at 1. by rewrite Hcheck. }
  unfold opsDuring, stateAfter. fold run. rewrite Hrun. clear Hrun run.
  unfold failSafe, try_catch, updateDoc, external, emit, bind, ret, throw. simpl.
  set (op := DocUpdate Assets assetId (failSafeRejection e)).
  assert (Hops : omap statusWritten (drop (length (trace st)) (trace st1 ++ [op]))
                 = [FStr "rejected"]).
  { rewrite Htrace, <- app_assoc, drop_app_length, omap_app, Hrequest. simpl.
    unfold failSafeRejection. by rewrite rejection_status. }
  destruct (failure env op) as [m |]; simpl.
  - repeat split; [done | by right | done].
  - rewrite Hassets.
    destruct (assets st !! assetId) as [d |] eqn:Hdoc; simpl.
    + assert (Hstored : stored (<[assetId := failSafeRejection e ∪ d]> (assets st))
                          assetId "status" = Some (FStr "rejected")).
      { rewrite stored_insert. apply lookup_union_Some_l.
        unfold failSafeRejection. apply rejection_status. }
      repeat split; [done | by left | done].
    + repeat split; [done | by right |]. intros _ [d Hd]. congruence.
Qed.


(** ** The strike threshold *)

(** Appended documents of the other collections leave [warnings] alone. *)
Lemma warnings_evolves (P : Effect -> Prop) st st' :
  evolves P st st' ->
  (forall doc, ~ P (Added Warnings doc)) ->
  warnings st' = warnings st.
Proof.
  intros (effects & -> & F) HP. revert st.
  induction F as [| e effects He F IH]; intros st; simpl; [done |].
  rewrite IH. destruct e as [op | c id f | c doc | uid b]; simpl; try done.
  - destruct c; simpl; by destruct (_ !! id).
  - destruct c; simpl; try done. by apply HP in He.
Qed.

Lemma autoBan_keeps_warnings env userId reason st :
  warnings (stateAfter (autoBan env userId reason) st) = warnings st.
Proof.
  assert (H : preserves (evolves notToWarnings) (autoBan env userId reason))
    by (evolves_walk; exact I).
  apply (warnings_evolves notToWarnings); [apply H |]. intros doc Hd. exact Hd.
Qed.

Lemma warningDoc_matches userId reason message evidence :
  matches (activeWarnings userId reason) (warningDoc userId reason message evidence) = true.
Proof.
  unfold matches, activeWarnings, warningDoc. simpl.
  rewrite lookup_insert_eq.
  rewrite lookup_insert_ne by done. rewrite lookup_insert_eq.
  do 4 (rewrite lookup_insert_ne by done). rewrite lookup_insert_eq.
  simpl. by rewrite !String.eqb_refl.
Qed.

Lemma activeCount_snoc userId reason message evidence ws :
  activeCount userId reason (ws ++ [warningDoc userId reason message evidence])
  = S (activeCount userId reason ws).
Proof.
  unfold activeCount. rewrite List.filter_app, length_app. cbn [List.filter].
  rewrite warningDoc_matches. simpl. lia.
Qed.
Local Arguments logAuditAction : simpl never.

Lemma autoBan_nominal env userId reason st d :
  nominal env -> users st !! userId = Some d -> is_Some (authDisabled st !! userId) ->
  let run := autoBan env userId reason st in
  run.2 = Ok tt
  /\ users run.1 = <[userId := banFields env reason ∪ d]> (users st)
  /\ authDisabled run.1 = <[userId := true]> (authDisabled st)
  /\ audit_logs run.1 = audit_logs st
  /\ exists before,
       trace run.1 = trace st ++ before ++ [autoBanAudit userId]
       /\ Forall (fun op => isAuditCall "AUTO_BAN_TRIGGERED" op = false) before.
Proof.
  intros Hn Hd [b Hb].
  unfold autoBan.
  unfold updateDoc, authUpdateUser, addDoc, external, emit, bind, ret, throw.
  simpl. rewrite !Hn. simpl. rewrite Hd. simpl. rewrite Hb. simpl.
  repeat split; try done.
  eexists [_; _; _]. split; [by rewrite <- !app_assoc | by repeat constructor].
Qed.

Section Threshold.
Local Arguments Nat.leb : simpl never.

(** One call in an environment that lets every call through: the warning is
    added whatever the count; below the threshold nothing else of the ledger
    moves, from the threshold on the user is banned. *)
Lemma createWarning_nominal env userId reason message evidence st :
  nominal env ->
  let m := createWarning env userId reason message evidence in
  let n := (activeCount userId reason (warnings st) + 1)%nat in
  warnings (stateAfter m st) = warnings st ++ [warningDoc userId reason message evidence]
  /\ if (3 <=? n)%nat
    then forall d, users st !! userId = Some d -> is_Some (authDisabled st !! userId) ->
         outcomeOf m st = Ok tt
         /\ users (stateAfter m st) = <[userId := banFields env reason ∪ d]> (users st)
         /\ authDisabled (stateAfter m st) = <[userId := true]> (authDisabled st)
         /\ audit_logs (stateAfter m st) = audit_logs st
         /\ exists ops,
              trace (stateAfter m st) = trace st ++ ops
              /\ count (isAuditCall "AUTO_BAN_TRIGGERED") ops = 1%nat
    else outcomeOf m st = Ok tt
         /\ users (stateAfter m st) = users st
         /\ audit_logs (stateAfter m st) = audit_logs st
         /\ authDisabled (stateAfter m st) = authDisabled st.
Proof.
  intros Hn m n. subst m. unfold stateAfter, outcomeOf.
  unfold createWarning, try_catch, bind, queryWarnings, addDoc, external, emit, bind, ret, throw.
  simpl. rewrite !Hn. simpl. fold (activeCount userId reason (warnings st)). fold n.
  destruct (3 <=? n)%nat.
  - match goal with |- context [autoBan env userId reason ?s] =>
      pose proof (autoBan_nominal env userId reason s) as HB;
      pose proof (autoBan_keeps_warnings env userId reason s) as HW
    end.
    unfold stateAfter in HW. simpl in HB, HW.
    destruct (autoBan env userId reason _) as [st' o]. simpl in *.
    split.
    + by destruct o.
    + intros d Hd Ha. destruct (HB d Hn Hd Ha) as (-> & Hu & Hauth & Hl & before & Ht & Hb).
      repeat split; try done.
      exists ([Call "createWarning" [userId; reasonName reason];
               QueryWarnings (activeWarnings userId reason);
               DocAdd Warnings (warningDoc userId reason message evidence)]
              ++ before ++ [autoBanAudit userId]).
      split; [cbn [fst]; rewrite Ht; by rewrite <- !app_assoc |].
      rewrite !count_app, (count_none _ _ Hb). reflexivity.
  - unfold notifyWarning, bind, addDoc, external, emit, bind, ret, throw.
    simpl. rewrite !Hn. simpl. done.
Qed.

(** C5, as the code runs.  Three calls of [createWarning] in a row for one
    pair of user and category, starting from no active warning of the pair,
    in environments that let every call through, for a user with a document
    and an auth record.  Each call adds its warning, active, to [warnings],
    and that holds for any call whatever the count.  After the second call
    the user's document and the audit log are as before, so [isBanned] is
    what it was.  The third call sets [isBanned] to [true] and
    [banUntilDate] to the time of that call plus 7 days and disables the
    login.  It calls [logAuditAction] for [AUTO_BAN_TRIGGERED] once, and no
    entry is appended: the entry carries an [undefined] user agent, which
    the store refuses, so the audit log is still what it was at the
    start. *)
Theorem third_warning_bans :
  forall (env1 env2 env3 : Env) (userId : string) (reason : WarningReason)
         (m1 m2 m3 : string) (e1 e2 e3 : option string) (st : Store) (d : Doc),
    nominal env1 -> nominal env2 -> nominal env3 ->
    users st !! userId = Some d ->
    is_Some (authDisabled st !! userId) ->
    activeCount userId reason (warnings st) = 0%nat ->
    let st1 := stateAfter (createWarning env1 userId reason m1 e1) st in
    let st2 := stateAfter (createWarning env2 userId reason m2 e2) st1 in
    let third := createWarning env3 userId reason m3 e3 in
    let st3 := stateAfter third st2 in
    (warnings st1 = warnings st ++ [warningDoc userId reason m1 e1]
     /\ warnings st2 = warnings st1 ++ [warningDoc userId reason m2 e2]
     /\ warnings st3 = warnings st2 ++ [warningDoc userId reason m3 e3]
     /\ activeCount userId reason (warnings st3) = 3%nat
     /\ (forall m e, warningDoc userId reason m e !! "isActive" = Some (FBool true))
     /\ (forall env st0 m e,
           nominal env ->
           warnings (stateAfter (createWarning env userId reason m e) st0)
           = warnings st0 ++ [warningDoc userId reason m e]))
    /\ (users st2 = users st
        /\ stored (users st2) userId "isBanned" = stored (users st) userId "isBanned"
        /\ audit_logs st2 = audit_logs st)
    /\ (stored (users st3) userId "isBanned" = Some (FBool true)
        /\ stored (users st3) userId "banUntilDate"
           = Some (FDate (dateNow env3 + 7 * 24 * 60 * 60 * 1000))
        /\ authDisabled st3 !! userId = Some true
        /\ count (isAuditCall "AUTO_BAN_TRIGGERED") (opsDuring third st2) = 1%nat
        /\ audit_logs st3 = audit_logs st).
Proof.
  intros env1 env2 env3 userId reason m1 m2 m3 e1 e2 e3 st d H1 H2 H3 Hd Ha H0
    st1 st2 third st3.
  pose proof (createWarning_nominal env1 userId reason m1 e1 st H1) as (W1 & B1).
  cbv zeta in W1, B1. fold st1 in W1, B1. rewrite H0 in B1. simpl in B1.
  change (3 <=? 1)%nat with false in B1.
  destruct B1 as (_ & U1 & L1 & A1).
  pose proof (createWarning_nominal env2 userId reason m2 e2 st1 H2) as (W2 & B2).
  cbv zeta in W2, B2. fold st2 in W2, B2. rewrite W1, activeCount_snoc, H0 in B2. simpl in B2.
  change (3 <=? 2)%nat with false in B2.
  destruct B2 as (_ & U2 & L2 & A2).
  pose proof (createWarning_nominal env3 userId reason m3 e3 st2 H3) as (W3 & B3).
  cbv zeta in W3, B3. fold third in W3, B3. fold st3 in W3, B3.
  rewrite W2, W1, !activeCount_snoc, H0 in B3. simpl in B3.
  change (3 <=? 3)%nat with true in B3.
  destruct (B3 d) as (_ & U3 & A3 & L3 & ops & T3 & C3).
  { by rewrite U2, U1. }
  { by rewrite A2, A1. }
  repeat split; try done.
  - by rewrite W3, W2, W1, !activeCount_snoc, H0.
  - intros env st0 m e Hn.
    by destruct (createWarning_nominal env userId reason m e st0 Hn) as [W _].
  - by rewrite U2, U1.
  - by rewrite U2, U1.
  - by rewrite L2, L1.
  - rewrite U3, stored_insert. by apply lookup_union_Some_l.
  - rewrite U3, stored_insert. by apply lookup_union_Some_l.
  - rewrite A3. apply lookup_insert_eq.
  - by rewrite (opsDuring_trace third st2 ops T3).
  - by rewrite L3, L2, L1.
Qed.
End Threshold.


(** ** The expiry sweep *)

Lemma filter_sublist {A} (f : A -> bool) (l : list A) : List.filter f l `sublist_of` l.
Proof.
  induction l as [| x l IH]; cbn [List.filter]; [constructor |].
  destruct (f x); [by apply sublist_skip | by apply sublist_cons].
Qed.

Lemma restoreAll_preserves_each (R : relation Store) `{!PreOrder R} env docs :
  Forall (fun doc => preserves R (restoreUser env doc.1)) docs ->
  forall n, preserves R (restoreAll env docs n).
Proof.
  induction 1 as [| doc docs Hdoc _ IH]; intros n; simpl.
  - repeat preserves_structure.
  - repeat preserves_structure; [apply Hdoc | apply IH].
Qed.

(** The loop runs its documents in order: after the ones that went through
    it continues with the rest. *)
Lemma restoreAll_app env pre rest n st st1 n1 :
  restoreAll env pre n st = (st1, Ok n1) ->
  restoreAll env (pre ++ rest) n st = restoreAll env rest n1 st1.
Proof.
  revert n st. induction pre as [| doc pre IH]; intros n st H; simpl in *.
  - unfold ret in H. by inversion H.
  - unfold bind in *. destruct (restoreUser env doc.1 st) as [st' [[] | e]].
    + by apply IH.
    + discriminate.
Qed.

(** A throw in the body ends the loop there. *)
Lemma restoreAll_throw env doc post n st st2 e :
  restoreUser env doc.1 st = (st2, Throw e) ->
  restoreAll env (doc :: post) n st = (st2, Throw e).
Proof. intros H. simpl. unfold bind. by rewrite H. Qed.

Lemma restoreUser_updatesOnly env docs doc :
  doc ∈ docs -> preserves (evolves (updatesOnly docs)) (restoreUser env doc.1).
Proof.
  intros Hin. evolves_walk; try exact I.
  simpl. by apply list_elem_of_fmap_2.
Qed.

(** The order of a query's result rearranges the matching documents. *)
Lemma insertBy_Permutation {A} (leb : A -> A -> bool) x l : insertBy leb x l ≡ₚ x :: l.
Proof.
  induction l as [| y l IH]; simpl; [done |].
  destruct (leb x y); [done |]. rewrite IH. apply Permutation_swap.
Qed.

Lemma sortBy_Permutation {A} (leb : A -> A -> bool) l : sortBy leb l ≡ₚ l.
Proof.
  induction l as [| x l IH]; simpl; [done |].
  rewrite insertBy_Permutation. by f_equiv.
Qed.

Lemma usersWhere_elem conds st v d :
  (v, d) ∈ usersWhere conds st <-> users st !! v = Some d /\ matches conds d = true.
Proof.
  unfold usersWhere. rewrite sortBy_Permutation.
  rewrite list_elem_of_In, List.filter_In, <- list_elem_of_In.
  by rewrite elem_of_map_to_list.
Qed.

Lemma usersWhere_NoDup conds st : NoDup (usersWhere conds st).*1.
Proof.
  unfold usersWhere. rewrite sortBy_Permutation.
  apply (sublist_NoDup _ (map_to_list (users st)).*1);
    [apply (NoDup_fst_map_to_list (users st)) |].
  apply fmap_sublist, filter_sublist.
Qed.

(** ** Warnings and audit entries of a rejection *)

Lemma trace_evolves (P : Effect -> Prop) st st' :
  evolves P st st' ->
  exists new, trace st' = trace st ++ new /\ Forall (fun op => P (Traced op)) new.
Proof.
  intros (effects & -> & F). exists (tracedOps effects). split; [apply trace_foldl |].
  induction F as [| e effects He F IH]; [constructor |].
  destruct e; unfold tracedOps in *; simpl; try done. by constructor.
Qed.

Lemma assets_evolves (P : Effect -> Prop) st st' :
  evolves P st st' ->
  (forall id fields, ~ P (Updated Assets id fields)) ->
  assets st' = assets st.
Proof.
  intros (effects & -> & F) HP. revert st.
  induction F as [| e effects He F IH]; intros st; simpl; [done |].
  rewrite IH. destruct e as [op | c id f | c doc | uid b]; simpl; try done.
  - destruct c; simpl.
    + by apply HP in He.
    + by destruct (users st !! id).
  - by destruct c.
Qed.

Ltac uncounted_side :=
  lazymatch goal with
  | |- uncounted (Traced _) => by split
  | |- uncounted _ => exact I
  | |- aside (Traced _) => by split
  | |- aside _ => exact I
  end.

Lemma uncounted_counts ops :
  Forall (fun op => uncounted (Traced op)) ops ->
  count warningCall ops = 0%nat /\ count rejectionAudit ops = 0%nat.
Proof.
  intros F. split; apply count_none; eapply Forall_impl; try exact F;
    simpl; by intros op [].
Qed.

Lemma aside_uncounted e : aside e -> uncounted e.
Proof. destruct e as [| [] | |]; simpl; tauto. Qed.

(** The body of [createWarning] after its entry, and of [logAuditAction]
    after its entry. *)
Lemma createWarning_tail env userId reason message evidence st :
  exists rest,
    trace (stateAfter (createWarning env userId reason message evidence) st)
    = trace st ++ Call "createWarning" [userId; reasonName reason] :: rest
    /\ Forall (fun op => aside (Traced op)) rest
    /\ assets (stateAfter (createWarning env userId reason message evidence) st)
       = assets st.
Proof.
  unfold createWarning.
  set (body := try_catch _ _).
  assert (H : preserves (evolves aside) body)
    by (subst body; evolves_walk; uncounted_side).
  set (st0 := setTrace (trace st ++ [Call "createWarning" [userId; reasonName reason]]) st).
  specialize (H st0).
  replace (stateAfter (emit _ >> body) st) with (stateAfter body st0) by reflexivity.
  destruct (trace_evolves _ _ _ H) as (rest & E & F).
  exists rest. repeat split; [| done |].
  - rewrite E. simpl. by rewrite <- app_assoc.
  - rewrite (assets_evolves _ _ _ H); [done |]. intros id fields Hu. exact Hu.
Qed.

Lemma logAuditAction_tail env actorId action targetId isSensitive details ip ua st :
  let m := logAuditAction env actorId action targetId isSensitive details ip ua in
  exists rest,
    trace (stateAfter m st)
    = trace st ++ Call "logAuditAction" [actorId; action; targetId] :: rest
    /\ Forall (fun op => aside (Traced op)) rest
    /\ assets (stateAfter m st) = assets st.
Proof.
  intros m. subst m. unfold logAuditAction.
  set (body := try_catch _ _).
  assert (H : preserves (evolves aside) body)
    by (subst body; evolves_walk; uncounted_side).
  set (st0 := setTrace (trace st ++ [Call "logAuditAction" [actorId; action; targetId]]) st).
  specialize (H st0).
  replace (stateAfter (emit _ >> body) st) with (stateAfter body st0) by reflexivity.
  destruct (trace_evolves _ _ _ H) as (rest & E & F).
  exists rest. repeat split; [| done |].
  - rewrite E. simpl. by rewrite <- app_assoc.
  - rewrite (assets_evolves _ _ _ H); [done |]. intros id fields Hu. exact Hu.
Qed.

(** After the rejecting update: one warning call, one audit call. *)
Lemma warnAndAudit_counts env assetId asset url v st :
  let m := warnAndAudit env assetId asset url v in
  exists ops,
    trace (stateAfter m st) = trace st ++ ops
    /\ count warningCall ops = 1%nat
    /\ count rejectionAudit ops = 1%nat
    /\ Forall (fun op => warningCall op = true ->
                         op = Call "createWarning" [authorId asset; "upload_abuse"]) ops
    /\ assets (stateAfter m st) = assets st.
Proof.
  intros m. subst m. unfold warnAndAudit.
  set (warn := createWarning _ _ _ _ _).
  set (audit := logAuditAction _ _ _ _ _ _ _ _).
  assert (Hstate : forall s, stateAfter (try_catch warn (fun _ => ret tt) >>
                      try_catch (audit >> ret tt) (fun _ => ret tt)) s
                    = stateAfter audit (stateAfter warn s)).
  { intros s. unfold stateAfter, bind, try_catch, ret.
    destruct (warn s) as [s1 []]; simpl; by destruct (audit s1) as [s2 []]. }
  rewrite Hstate.
  destruct (createWarning_tail env (authorId asset) upload_abuse
              ("Your upload " +:+ dquote +:+ name asset +:+ dquote
               +:+ " was rejected for containing inappropriate content. Confidence: "
               +:+ percent env v +:+ "%. Reason: " +:+ reason v)
              (Some url) st) as (r1 & E1 & F1 & A1).
  fold warn in E1, A1.
  destruct (logAuditAction_tail env (authorId asset) "UPLOAD_REJECTED_NSFW" assetId
              true
              (Some [("assetName", Some (FStr (name asset)));
                     ("confidence", Some (FNum (confidence v)));
                     ("reason", Some (FStr (reason v)));
                     ("detectionTime", Some (FStr (toISOString env (dateNow env))))])
              None None (stateAfter warn st)) as (r2 & E2 & F2 & A2).
  cbv zeta in E2, A2. fold audit in E2, A2.
  destruct (uncounted_counts r1) as [C1 C1'];
    [eapply Forall_impl; [exact F1 | intros; by apply aside_uncounted] |].
  destruct (uncounted_counts r2) as [C2 C2'];
    [eapply Forall_impl; [exact F2 | intros; by apply aside_uncounted] |].
  eexists. split; [rewrite E2, E1, <- app_assoc; reflexivity |].
  simpl. rewrite !count_cons, !count_app, !count_cons, C1, C1', C2, C2'.
  repeat split; try reflexivity.
  - constructor; [done |]. apply Forall_app. split.
    + eapply Forall_impl; [exact F1 |]. simpl. intros op [H _] H'. congruence.
    + constructor; [done |].
      eapply Forall_impl; [exact F2 |]. simpl. intros op [H _] H'. congruence.
  - exact A1.
Qed.

Lemma warnAndAudit_returns env assetId asset url v st :
  outcomeOf (warnAndAudit env assetId asset url v) st = Ok tt.
Proof.
  unfold outcomeOf, warnAndAudit, bind, try_catch, ret.
  destruct (createWarning _ _ _ _ _ st) as [s1 [[] |]];
    by rewrite logAuditAction_unsent.
Qed.

(** A successful [update] is the merge into the document that was there. *)
Lemma updateDoc_ok env c id fields st st' :
  updateDoc env c id fields st = (st', Ok tt) ->
  exists d,
    keyedDocs c st !! id = Some d
    /\ st' = setKeyedDocs c (<[id := fields ∪ d]> (keyedDocs c st))
               (setTrace (trace st ++ [DocUpdate c id fields]) st).
Proof.
  unfold updateDoc, external, emit, bind, ret, throw. simpl.
  destruct (failure env _); simpl; [discriminate |].
  replace (keyedDocs c (setTrace (trace st ++ [DocUpdate c id fields]) st))
    with (keyedDocs c st) by (by destruct c).
  destruct (keyedDocs c st !! id) as [d |]; [| discriminate].
  intros H. inversion H. by exists d.
Qed.

Lemma quiet_run {A} (m : M A) asset st :
  evolves uncounted st (stateAfter m st) ->
  count warningCall (opsDuring m st) = 0%nat
  /\ count rejectionAudit (opsDuring m st) = 0%nat
  /\ Forall (fromPipeline asset) (opsDuring m st).
Proof.
  intros H. destruct (trace_evolves _ _ _ H) as (new & E & F).
  rewrite (opsDuring_trace _ _ _ E).
  destruct (uncounted_counts new F) as [C1 C2]. repeat split; [done | done |].
  eapply Forall_impl; [exact F |]. intros op [H1 _] H2. congruence.
Qed.

Lemma quiet_updateDoc env c id fields :
  preserves (evolves uncounted) (updateDoc env c id fields).
Proof. evolves_walk; uncounted_side. Qed.

Lemma quiet_failSafe env assetId e : preserves (evolves uncounted) (failSafe env assetId e).
Proof. evolves_walk; uncounted_side. Qed.

Lemma quiet_publish env assetId asset v :
  preserves (evolves uncounted) (publish env assetId asset v).
Proof. evolves_walk; uncounted_side. Qed.

Lemma quiet_checkImageForNSFW env url :
  preserves (evolves uncounted) (checkImageForNSFW env url).
Proof. evolves_walk; uncounted_side. Qed.

(** C3, as the code has it.  Not every rejection is followed by a warning
    and an audit entry: the handler makes its [createWarning] call (category
    [upload_abuse]) and its [UPLOAD_REJECTED_NSFW] audit call only after it
    has recorded a rejection on a flagged image verdict, and then it makes
    each exactly once, with the asset stored as ['rejected'].  Every other
    run (the entry guard, a missing or invalid image URL, a failed image
    check, a clean verdict, a rejecting update that throws) makes neither
    call. *)
Theorem warning_and_audit_follow_flagged_rejection :
  forall (env : Env) (assetId : string) (asset : Asset) (st : Store),
    let m := onAssetUploaded env assetId asset in
    let once := if rejectsOnVerdict env assetId asset st then 1%nat else 0%nat in
    count warningCall (opsDuring m st) = once
    /\ count rejectionAudit (opsDuring m st) = once
    /\ Forall (fromPipeline asset) (opsDuring m st)
    /\ (if rejectsOnVerdict env assetId asset st
        then stored (assets (stateAfter m st)) assetId "status" = Some (FStr "rejected")
        else True).
Proof.
  intros env assetId asset st m once. subst m once.
  unfold rejectsOnVerdict, onAssetUploaded.
  destruct (String.eqb (status asset) "uploading"); simpl negb; cbv iota;
    [| rewrite andb_false_l; repeat split;
       unfold opsDuring, stateAfter; simpl; rewrite drop_all; by constructor].
  rewrite andb_true_l.
  assert (Quiet : forall m' : M unit,
             stateAfter (try_catch (verify env assetId asset) (failSafe env assetId)) st
             = stateAfter m' st ->
             preserves (evolves uncounted) m' ->
             let m := try_catch (verify env assetId asset) (failSafe env assetId) in
             count warningCall (opsDuring m st) = 0%nat
             /\ count rejectionAudit (opsDuring m st) = 0%nat
             /\ Forall (fromPipeline asset) (opsDuring m st) /\ True).
  { intros m' E H m. destruct (quiet_run m asset st) as (C1 & C2 & F); [| done].
    subst m. rewrite E. apply H. }
  destruct (presentUrl asset) as [url |] eqn:Hurl.
  2: { apply (Quiet (try_catch (updateDoc env Assets assetId
                                 (rejection "No image provided for verification" []))
                       (failSafe env assetId))).
       - unfold verify. by rewrite Hurl.
       - repeat preserves_structure; [apply quiet_updateDoc | apply quiet_failSafe]. }
  destruct (URL_parses env url) eqn:Hparse; simpl negb; cbv iota.
  2: { rewrite andb_false_l.
       apply (Quiet (try_catch (updateDoc env Assets assetId
                                 (rejection "Invalid image URL" []))
                       (failSafe env assetId))).
       - unfold verify. by rewrite Hurl, Hparse.
       - repeat preserves_structure; [apply quiet_updateDoc | apply quiet_failSafe]. }
  rewrite andb_true_l.
  pose proof (quiet_checkImageForNSFW env url st) as Hcheck.
  unfold stateAfter in Hcheck.
  destruct (checkImageForNSFW env url st) as [st1 [v | e]] eqn:Hc; simpl in Hcheck.
  2: { (* the adapter throws *)
       destruct (quiet_run (try_catch (verify env assetId asset) (failSafe env assetId))
                   asset st) as (C1 & C2 & F); [| done].
       unfold stateAfter, verify. rewrite Hurl, Hparse. simpl negb. cbv iota.
       unfold try_catch at 1. unfold bind at 1. rewrite Hc.
       etransitivity; [exact Hcheck | apply (quiet_failSafe env assetId e st1)]. }
  destruct (isNSFW v) eqn:Hflag.
  2: { (* a clean verdict *)
       rewrite andb_false_l.
       destruct (quiet_run (try_catch (verify env assetId asset) (failSafe env assetId))
                   asset st) as (C1 & C2 & F); [| done].
       assert (E : stateAfter (try_catch (verify env assetId asset) (failSafe env assetId)) st
                   = stateAfter (try_catch (publish env assetId asset v)
                                   (failSafe env assetId)) st1).
       { unfold stateAfter, verify. rewrite Hurl, Hparse. simpl negb. cbv iota.
         unfold try_catch, bind at 1. rewrite Hc, Hflag. reflexivity. }
       rewrite E. etransitivity; [exact Hcheck |].
       assert (H : preserves (evolves uncounted)
                     (try_catch (publish env assetId asset v) (failSafe env assetId)))
         by (repeat preserves_structure; [apply quiet_publish | apply quiet_failSafe]).
       apply H. }
  rewrite andb_true_l.
  pose proof (quiet_updateDoc env Assets assetId (flaggedRejection v) st1) as Hupd.
  unfold stateAfter in Hupd.
  destruct (updateDoc env Assets assetId (flaggedRejection v) st1)
    as [st2 [[] | e]] eqn:Hu; simpl in Hupd.
  2: { (* the rejecting update throws *)
       destruct (quiet_run (try_catch (verify env assetId asset) (failSafe env assetId))
                   asset st) as (C1 & C2 & F); [| done].
       unfold stateAfter, verify. rewrite Hurl, Hparse. simpl negb. cbv iota.
       unfold try_catch at 1. unfold bind at 1. rewrite Hc, Hflag.
       unfold rejectFlagged, bind. rewrite Hu.
       etransitivity; [exact Hcheck |]. etransitivity; [exact Hupd |].
       apply (quiet_failSafe env assetId e st2). }
  (* the rejection is recorded *)
  assert (E : stateAfter (try_catch (verify env assetId asset) (failSafe env assetId)) st
              = stateAfter (warnAndAudit env assetId asset url v) st2).
  { pose proof (warnAndAudit_returns env assetId asset url v st2) as Hret.
    unfold stateAfter, outcomeOf, verify in *. rewrite Hurl, Hparse. simpl negb. cbv iota.
    unfold try_catch at 1. unfold bind at 1. rewrite Hc, Hflag.
    unfold rejectFlagged, bind. rewrite Hu.
    destruct (warnAndAudit env assetId asset url v st2) as [st4 o]. simpl in *.
    by subst o. }
  destruct (warnAndAudit_counts env assetId asset url v st2)
    as (ops & Eops & C1 & C2 & F & A).
  cbv zeta in Eops, A.
  destruct (trace_evolves _ _ _ Hcheck) as (n1 & E1 & F1).
  destruct (trace_evolves _ _ _ Hupd) as (n2 & E2 & F2).
  destruct (uncounted_counts n1 F1) as [Z1 Z1'].
  destruct (uncounted_counts n2 F2) as [Z2 Z2'].
  assert (Eall : trace (stateAfter (try_catch (verify env assetId asset)
                                      (failSafe env assetId)) st)
                 = trace st ++ (n1 ++ n2 ++ ops))
    by (rewrite E, Eops, E2, E1, <- !app_assoc; reflexivity).
  rewrite (opsDuring_trace _ _ _ Eall), !count_app, Z1, Z1', Z2, Z2', C1, C2.
  repeat split.
  - repeat (apply Forall_app; split); [| | exact F].
    + eapply Forall_impl; [exact F1 |]. intros op [H1 _] H2. congruence.
    + eapply Forall_impl; [exact F2 |]. intros op [H1 _] H2. congruence.
  - rewrite E, A.
    destruct (updateDoc_ok _ _ _ _ _ _ Hu) as (d & Hd & ->). simpl.
    rewrite stored_insert. apply lookup_union_Some_l.
    unfold flaggedRejection. apply rejection_status.
Qed.


(** ** The text check is not part of the pipeline *)

Lemma onAssetUploaded_notTextCheck env assetId asset :
  preserves (evolves notTextCheck) (onAssetUploaded env assetId asset).
Proof. evolves_walk; done. Qed.

(** * Closed examples *)

(** C9 as stated fails: on [{is_nsfw: false, confidence: 0.8}] the earlier
    adapter does not flag and the current one does. *)
Lemma adapters_disagree :
  let result := Some (JObj [("is_nsfw", JBool false); ("confidence", JNum 0.8)]) in
  exists v0 v,
    Earlier.verdictOf Bench.env result = Ok v0
    /\ verdictOf Bench.env result = Ok v
    /\ Earlier.isNSFW v0 = false
    /\ isNSFW v = true.
Proof. do 2 eexists. repeat split. Qed.

(** Without the image classifier's key the upload ends ['rejected']. *)
Lemma classifier_failure_rejects_witness :
  let env := Bench.withKeys None (Some "sk-js-bench") Bench.env in
  let asset := Bench.upload "Realistic Camera Rig" (Some "https://valid/img.png") in
  let run := onAssetUploaded env "a1" asset Bench.store in
  run.2 = Ok tt
  /\ omap statusWritten (opsDuring (onAssetUploaded env "a1" asset) Bench.store)
     = [FStr "rejected"]
  /\ stored (assets run.1) "a1" "status" = Some (FStr "rejected").
Proof.
  pose proof
    (classifier_failure_rejects
       (Bench.withKeys None (Some "sk-js-bench") Bench.env) "a1"
       (Bench.upload "Realistic Camera Rig" (Some "https://valid/img.png"))
       "https://valid/img.png" Bench.store Bench.store
       "NSFW detection service unavailable - uploads temporarily disabled"
       eq_refl eq_refl eq_refl eq_refl) as (H1 & H2 & _ & H4).
  cbv zeta. split; [exact H1 | split; [exact H2 |]].
  apply H4; [reflexivity |]. vm_compute. eauto.
Defined.

(** Without the text classifier's key the check of an explicit title returns
    a verdict that is not flagged. *)
Lemma text_check_fails_open_witness :
  let env := Bench.withKeys (Some "sk-or-bench") None Bench.env in
  happens env "sex toys collection" "Asset Name" MissingApiKey
  /\ exists st' v,
       checkTextForNSFW env "sex toys collection" "Asset Name" Bench.store = (st', Ok v)
       /\ Text.isNSFW v = false
       /\ Text.reason v = "Text check skipped".
Proof.
  split; [reflexivity |].
  apply (text_check_fails_open
           (Bench.withKeys (Some "sk-or-bench") None Bench.env)
           "sex toys collection" "Asset Name" MissingApiKey Bench.store).
  reflexivity.
Defined.

(** Three warnings for [u1]: not banned after two, banned for 7 days by the
    third, which asks for the audit entry once and leaves the log empty. *)
Lemma third_warning_bans_witness :
  let call := createWarning Bench.env "u1" upload_abuse "rejected upload" None in
  let st2 := stateAfter call (stateAfter call Bench.store) in
  let st3 := stateAfter call st2 in
  stored (users st2) "u1" "isBanned" = Some (FBool false)
  /\ stored (users st3) "u1" "isBanned" = Some (FBool true)
  /\ stored (users st3) "u1" "banUntilDate" = Some (FDate (1767225600000 + 604800000))
  /\ count (isAuditCall "AUTO_BAN_TRIGGERED") (opsDuring call st2) = 1%nat
  /\ audit_logs st3 = [].
Proof.
  pose proof
    (third_warning_bans Bench.env Bench.env Bench.env "u1" upload_abuse
       "rejected upload" "rejected upload" "rejected upload" None None None
       Bench.store (Bench.doc [("isBanned", FBool false)])
       (fun _ => eq_refl) (fun _ => eq_refl) (fun _ => eq_refl)
       eq_refl (ex_intro _ false eq_refl) eq_refl)
    as (_ & (_ & H2 & _) & (H3 & H4 & _ & H6 & H7)).
  cbv zeta in *.
  split; [| split; [exact H3 | split; [exact H4 | split; [exact H6 | exact H7]]]].
  rewrite H2. reflexivity.
Defined.

(** C3 as stated fails: an upload without an image URL ends ['rejected'] with
    no [createWarning] call, no [logAuditAction] call, no warning and no audit
    entry. *)
Lemma rejection_without_warning :
  let m := onAssetUploaded Bench.env "a1" (Bench.upload "Realistic Camera Rig" None) in
  stored (assets (stateAfter m Bench.store)) "a1" "status" = Some (FStr "rejected")
  /\ count (isCallTo "createWarning") (opsDuring m Bench.store) = 0%nat
  /\ count (isCallTo "logAuditAction") (opsDuring m Bench.store) = 0%nat
  /\ warnings (stateAfter m Bench.store) = []
  /\ audit_logs (stateAfter m Bench.store) = [].
Proof. vm_compute. repeat split. Qed.

(** C2 on the code.  [onAssetUploaded] never sends a request to the text
    classifier, whatever the asset and the environment.  On the upload named
    "sex toys collection", whose name [checkTextForNSFW] flags, with an image
    the image classifier finds clean: the image classifier is called, the
    text classifier is not, no warning is recorded and the asset is
    published. *)
Theorem pipeline_never_checks_text :
  (forall env assetId asset st,
      Forall (fun op => isFetchOf jigsawEndpoint op = false)
        (opsDuring (onAssetUploaded env assetId asset) st))
  /\ (let asset := Bench.upload "sex toys collection" (Some "https://valid/img.png") in
      let m := onAssetUploaded Bench.env "a1" asset in
      (exists st' v,
          checkTextForNSFW Bench.env (name asset) "Asset Name" Bench.store = (st', Ok v)
          /\ Text.isNSFW v = true)
      /\ count (isFetchOf openRouterEndpoint) (opsDuring m Bench.store) = 1%nat
      /\ count (isFetchOf jigsawEndpoint) (opsDuring m Bench.store) = 0%nat
      /\ warnings (stateAfter m Bench.store) = []
      /\ stored (assets (stateAfter m Bench.store)) "a1" "status"
         = Some (FStr "published")).
Proof.
  split.
  - intros env assetId asset st.
    apply (opsDuring_evolves notTextCheck);
      [apply onAssetUploaded_notTextCheck | by intros op].
  - cbv zeta. split.
    + do 2 eexists. split; reflexivity.
    + vm_compute. repeat split.
Qed.

(** An upload whose image is flagged: one warning call, one audit call. *)
Lemma flagged_upload_warns_once :
  let asset := Bench.upload "Beach photo set" (Some "https://valid/nsfw.png") in
  let m := onAssetUploaded Bench.env "a1" asset in
  rejectsOnVerdict Bench.env "a1" asset Bench.store = true
  /\ count warningCall (opsDuring m Bench.store) = 1%nat
  /\ count rejectionAudit (opsDuring m Bench.store) = 1%nat
  /\ stored (assets (stateAfter m Bench.store)) "a1" "status" = Some (FStr "rejected").
Proof.
  pose proof
    (warning_and_audit_follow_flagged_rejection Bench.env "a1"
       (Bench.upload "Beach photo set" (Some "https://valid/nsfw.png")) Bench.store)
    as H.
  cbv zeta in *.
  assert (E : rejectsOnVerdict Bench.env "a1"
                (Bench.upload "Beach photo set" (Some "https://valid/nsfw.png"))
                Bench.store = true) by (vm_compute; reflexivity).
  rewrite E in H. destruct H as (H1 & H2 & _ & H4).
  split; [exact E | split; [exact H1 | split; [exact H2 | exact H4]]].
Defined.


(** * More of the code

    Properties of the paths and functions the statements above leave out:
    the other paths of the handler, the strings of the adapters, the ledger
    and the sweep beyond the threshold, the callable functions, the account
    functions, the alerts of the audit module, the rate limiter and the
    earlier handler. *)

(** ** The handler's other paths *)

Lemma try_catch_returns (m : M unit) (h : string -> M unit) st :
  (forall e s, outcomeOf (h e) s = Ok tt) -> outcomeOf (try_catch m h) st = Ok tt.
Proof.
  intros Hh. unfold outcomeOf, try_catch in *.
  destruct (m st) as [s1 [[] | e]]; simpl; [done | apply Hh].
Qed.

Lemma failSafe_returns env assetId e st : outcomeOf (failSafe env assetId e) st = Ok tt.
Proof. unfold failSafe. by apply try_catch_returns. Qed.

(** X1. Both triggers return normally in every environment and on every
    store: [onAssetUploaded] catches whatever its body throws, a failure of
    the fail-safe update included, and [checkExpiredBans] catches whatever
    its query or its loop throws. *)
Theorem triggers_return_normally :
  forall env : Env,
    (forall assetId asset st, outcomeOf (onAssetUploaded env assetId asset) st = Ok tt)
    /\ (forall st, outcomeOf (checkExpiredBans env) st = Ok tt).
Proof.
  intros env. split.
  - intros assetId asset st. unfold onAssetUploaded.
    destruct (negb _); [done |].
    apply try_catch_returns. intros e s. apply failSafe_returns.
  - intros st. unfold checkExpiredBans. by apply try_catch_returns.
Qed.

(** The store after a call of [logAuditAction] that gives no user agent. *)
Lemma logAuditAction_state env actorId action targetId isSensitive details ip st :
  stateAfter (logAuditAction env actorId action targetId isSensitive details ip None) st
  = setTrace (trace st ++ [Call "logAuditAction" [actorId; action; targetId]]) st.
Proof. unfold stateAfter. by rewrite logAuditAction_unsent. Qed.

Lemma failSafe_rejectingOnly env assetId e :
  preserves (evolves (rejectingOnly assetId)) (failSafe env assetId e).
Proof.
  unfold failSafe. repeat first [preserves_structure | evolves_primitive]; simpl; [| done].
  eexists. split; [reflexivity | apply rejection_status].
Qed.

(** X2. An uploaded asset whose image URL is missing, empty or not a URL is
    rejected without any other call: every call of the run is an update of
    the asset that writes ['rejected'], so the classifier is not asked, no
    warning is created and nothing is logged.  When the store takes the
    update, the asset's document is the old one with the rejection merged
    in, its reason being the one of the failed check. *)
Theorem unusable_url_rejects_without_request :
  forall (env : Env) (assetId : string) (asset : Asset) (why : string) (st : Store),
    status asset = "uploading" ->
    unusableUrl env asset = Some why ->
    let m := onAssetUploaded env assetId asset in
    Forall (rejectingUpdate assetId) (opsDuring m st)
    /\ (forall d, assets st !! assetId = Some d ->
          failure env (DocUpdate Assets assetId (rejection why [])) = None ->
          assets (stateAfter m st) = <[assetId := rejection why [] ∪ d]> (assets st)).
Proof.
  intros env assetId asset why st Hs Hu m.
  assert (Em : m = try_catch (updateDoc env Assets assetId (rejection why []))
                     (failSafe env assetId)).
  { subst m. unfold onAssetUploaded, verify, unusableUrl in *. rewrite Hs. simpl.
    destruct (presentUrl asset) as [url |].
    - destruct (URL_parses env url); [discriminate |]. simpl. by inversion Hu.
    - by inversion Hu. }
  rewrite Em. split.
  - assert (H : preserves (evolves (rejectingOnly assetId))
                   (try_catch (updateDoc env Assets assetId (rejection why []))
                      (failSafe env assetId))).
    { repeat first [preserves_structure | evolves_primitive]; simpl; try done.
      + eexists. split; [reflexivity | apply rejection_status].
      + apply failSafe_rejectingOnly. }
    apply (opsDuring_evolves (rejectingOnly assetId)); [apply H | by intros op].
  - intros d Hd Hf.
    unfold stateAfter, try_catch, updateDoc, external, emit, bind, ret, throw. simpl.
    rewrite Hf. simpl. rewrite Hd. simpl. reflexivity.
Qed.

Lemma onAssetUploaded_verdict env assetId asset url st st1 v :
  status asset = "uploading" ->
  presentUrl asset = Some url ->
  URL_parses env url = true ->
  checkImageForNSFW env url st = (st1, Ok v) ->
  onAssetUploaded env assetId asset st
  = try_catch
      (if isNSFW v then rejectFlagged env assetId asset url v
       else publish env assetId asset v)
      (failSafe env assetId) st1.
Proof.
  intros Hs Hu Hp Hc. unfold onAssetUploaded, verify. rewrite Hs, Hu, Hp. simpl.
  unfold try_catch, bind. by rewrite Hc.
Qed.

Lemma checkImageForNSFW_ok env url st st1 v :
  checkImageForNSFW env url st = (st1, Ok v) ->
  st1 = setTrace (trace st ++ [Fetch openRouterEndpoint url]) st
  /\ exists result, verdictOf env (Some result) = Ok v.
Proof.
  unfold checkImageForNSFW.
  destruct (configured _); simpl; [| discriminate].
  unfold try_catch, bind, fetch, emit, lift, ret, throw. simpl.
  destruct (http env openRouterEndpoint url) as [m | status body]; simpl; [discriminate |].
  destruct (responseOk status); simpl; [| discriminate].
  destruct (JSON_parse env body) as [data | m]; simpl; [| discriminate].
  destruct (let? c := messageContent data in contentText c) as [content | m];
    simpl; [| discriminate].
  destruct (matchBraces content) as [jsonMatch |]; simpl; [| discriminate].
  destruct (JSON_parse env jsonMatch) as [result | m]; simpl; [| discriminate].
  destruct (verdictOf env (Some result)) as [v' | m] eqn:E; [| discriminate].
  intros H. inversion H. subst. split; [done | by exists result].
Qed.

(** X3. A clean verdict whose publishing update goes through: the one status
    the run writes is ['published'], the asset is stored as published with
    [nsfwChecked] and the verdict's confidence, [createWarning] is not
    called, [logAuditAction] is called once with [ASSET_PUBLISHED], and no
    warning or user document changes. *)
Theorem clean_verdict_publishes :
  forall (env : Env) (assetId : string) (asset : Asset) (url : string)
         (st st1 st2 : Store) (v : ImageVerdict),
    status asset = "uploading" ->
    presentUrl asset = Some url ->
    URL_parses env url = true ->
    checkImageForNSFW env url st = (st1, Ok v) ->
    isNSFW v = false ->
    updateDoc env Assets assetId (publication v) st1 = (st2, Ok tt) ->
    let m := onAssetUploaded env assetId asset in
    let st' := stateAfter m st in
    omap statusWritten (opsDuring m st) = [FStr "published"]
    /\ stored (assets st') assetId "status" = Some (FStr "published")
    /\ stored (assets st') assetId "nsfwChecked" = Some (FBool true)
    /\ stored (assets st') assetId "nsfwConfidence" = Some (FNum (confidence v))
    /\ count warningCall (opsDuring m st) = 0%nat
    /\ count publishedAudit (opsDuring m st) = 1%nat
    /\ warnings st' = warnings st
    /\ users st' = users st.
Proof.
  intros env assetId asset url st st1 st2 v Hs Hu Hp Hc Hv Hup m st'.
  assert (Em : m st = (stateAfter
                         (logAuditAction env (authorId asset) "ASSET_PUBLISHED" assetId false
                            (Some [("assetName", Some (FStr (name asset)));
                                   ("nsfwConfidence", Some (FNum (confidence v)))]) None None) st2,
                       Ok tt)).
  { subst m. rewrite (onAssetUploaded_verdict _ _ _ _ _ _ _ Hs Hu Hp Hc), Hv.
    unfold publish, try_catch, bind, stateAfter. rewrite Hup.
    by destruct (logAuditAction _ _ _ _ _ _ _ _ st2) as [s []]. }
  assert (Est : st' = (m st).1) by reflexivity. rewrite Em in Est. simpl in Est.
  rewrite logAuditAction_state in Est.
  destruct (checkImageForNSFW_ok _ _ _ _ _ Hc) as [E1 _].
  destruct (updateDoc_ok _ _ _ _ _ _ Hup) as (d & Hd & E2).
  assert (T : trace st' = trace st ++
              [Fetch openRouterEndpoint url;
               DocUpdate Assets assetId (publication v);
               Call "logAuditAction" [authorId asset; "ASSET_PUBLISHED"; assetId]]).
  { rewrite Est. simpl. rewrite E2. simpl. rewrite E1. simpl.
    by rewrite <- !app_assoc. }
  assert (A : assets st' = <[assetId := publication v ∪ d]> (assets st1)).
  { rewrite Est. simpl. by rewrite E2. }
  unfold opsDuring. fold st'. rewrite T, drop_app_length.
  repeat apply conj.
  - simpl. unfold publication. simpl. by rewrite lookup_insert_eq.
  - rewrite A, stored_insert. apply lookup_union_Some_l. apply lookup_insert_eq.
  - rewrite A, stored_insert. apply lookup_union_Some_l. unfold publication. simpl.
    do 2 (rewrite lookup_insert_ne by done). apply lookup_insert_eq.
  - rewrite A, stored_insert. apply lookup_union_Some_l. unfold publication. simpl.
    do 3 (rewrite lookup_insert_ne by done). apply lookup_insert_eq.
  - reflexivity.
  - reflexivity.
  - rewrite Est. simpl. rewrite E2. simpl. by rewrite E1.
  - rewrite Est. simpl. rewrite E2. simpl. by rewrite E1.
Qed.

Lemma updateDoc_throw env c id fields st st' e :
  updateDoc env c id fields st = (st', Throw e) ->
  st' = setTrace (trace st ++ [DocUpdate c id fields]) st.
Proof.
  unfold updateDoc, external, emit, bind, ret, throw. simpl.
  destruct (failure env _); simpl; [by inversion 1 |].
  replace (keyedDocs c (setTrace (trace st ++ [DocUpdate c id fields]) st))
    with (keyedDocs c st) by (by destruct c).
  destruct (keyedDocs c st !! id) as [d |]; [discriminate | by inversion 1].
Qed.

Lemma failSafe_state env assetId e st :
  let st0 := setTrace (trace st ++ [DocUpdate Assets assetId (failSafeRejection e)]) st in
  stateAfter (failSafe env assetId e) st = st0
  \/ exists d, assets st !! assetId = Some d
               /\ stateAfter (failSafe env assetId e) st
                  = setAssets (<[assetId := failSafeRejection e ∪ d]> (assets st)) st0.
Proof.
  intros st0. unfold stateAfter, failSafe, try_catch.
  destruct (updateDoc env Assets assetId (failSafeRejection e) st) as [s [[] | e']] eqn:E.
  - right. destruct (updateDoc_ok _ _ _ _ _ _ E) as (d & Hd & ->). by exists d.
  - left. simpl. by apply updateDoc_throw in E.
Qed.

(** X4. A clean verdict whose publishing update throws: the handler falls
    into its fail-safe and asks for a rejection, so the calls of the run are
    the classifier request, the refused ['published'] update and a
    ['rejected'] update, with no audit call.  Either the assets are as they
    were, or the asset is stored ['rejected'] with the store's error as
    [verificationError]. *)
Theorem refused_publication_rejects :
  forall (env : Env) (assetId : string) (asset : Asset) (url : string)
         (st st1 st2 : Store) (v : ImageVerdict) (e : string),
    status asset = "uploading" ->
    presentUrl asset = Some url ->
    URL_parses env url = true ->
    checkImageForNSFW env url st = (st1, Ok v) ->
    isNSFW v = false ->
    updateDoc env Assets assetId (publication v) st1 = (st2, Throw e) ->
    let m := onAssetUploaded env assetId asset in
    let st' := stateAfter m st in
    opsDuring m st
    = [Fetch openRouterEndpoint url;
       DocUpdate Assets assetId (publication v);
       DocUpdate Assets assetId (failSafeRejection e)]
    /\ (assets st' = assets st
        \/ stored (assets st') assetId "status" = Some (FStr "rejected")
           /\ stored (assets st') assetId "verificationError" = Some (FStr e)).
Proof.
  intros env assetId asset url st st1 st2 v e Hs Hu Hp Hc Hv Hup m st'.
  assert (Em : m st = failSafe env assetId e st2).
  { subst m. rewrite (onAssetUploaded_verdict _ _ _ _ _ _ _ Hs Hu Hp Hc), Hv.
    unfold publish, try_catch, bind. by rewrite Hup. }
  assert (Est : st' = stateAfter (failSafe env assetId e) st2)
    by (unfold st', stateAfter; by rewrite Em).
  destruct (checkImageForNSFW_ok _ _ _ _ _ Hc) as [E1 _].
  apply updateDoc_throw in Hup.
  destruct (failSafe_state env assetId e st2) as [E | (d & Hd & E)];
    cbv zeta in E; rewrite <- Est in E.
  - split.
    + apply opsDuring_trace. fold st'. rewrite E, Hup, E1. simpl.
      by rewrite <- !app_assoc.
    + left. by rewrite E, Hup, E1.
  - split.
    + apply opsDuring_trace. fold st'. rewrite E, Hup, E1. simpl.
      by rewrite <- !app_assoc.
    + right. rewrite E. simpl. rewrite !stored_insert. split.
      * apply lookup_union_Some_l. apply rejection_status.
      * apply lookup_union_Some_l. unfold failSafeRejection, rejection. simpl.
        do 3 (rewrite lookup_insert_ne by done). apply lookup_insert_eq.
Qed.

(** The two numbers of a verdict come from one conversion of the
    [confidence]. *)
Lemma verdictOf_parts env result v :
  verdictOf env result = Ok v ->
  exists is_nsfw n,
    getProp result "is_nsfw" = Ok is_nsfw
    /\ isNSFW v = strictlyTrue is_nsfw || PrimFloat.ltb 0.65 n
    /\ confidence v = if truthy (Some (JNum n)) then n else 0%float.
Proof.
  unfold verdictOf.
  destruct (getProp result "is_nsfw") as [is_nsfw |]; cbn [obind]; [| discriminate].
  destruct (getProp result "confidence") as [conf |]; cbn [obind]; [| discriminate].
  unfold exceeds.
  destruct (ToNumber _ _ conf) as [n |]; cbn [obind];
    [| destruct (strictlyTrue is_nsfw); discriminate].
  destruct (getProp result "reason") as [why |]; cbn [obind];
    [| destruct (strictlyTrue is_nsfw); discriminate].
  destruct (ToString _ (orElse why _)) as [r |]; cbn [obind];
    [| destruct (strictlyTrue is_nsfw); discriminate].
  destruct (getProp result "category") as [category |]; cbn [obind];
    [| destruct (strictlyTrue is_nsfw); discriminate].
  destruct (ToString _ category) as [l |]; cbn [obind];
    [| destruct (strictlyTrue is_nsfw); discriminate].
  destruct (ToString _ (orElse category _)) as [c |]; cbn [obind];
    [| destruct (strictlyTrue is_nsfw); discriminate].
  intros H. exists is_nsfw, n. split; [done |].
  destruct (strictlyTrue is_nsfw); cbn [obind] in H; injection H as <-; by split.
Qed.

Lemma verdictOf_confidence env result v :
  verdictOf env result = Ok v -> isNaN (confidence v) = false.
Proof.
  intros H. apply verdictOf_parts in H as (is_nsfw & n & _ & _ & ->). simpl.
  destruct (PrimFloat.eqb _ 0 || isNaN _) eqn:E; simpl; [reflexivity |].
  by apply orb_false_elim in E as [_ E].
Qed.

(** X5. The confidence of a verdict that [checkImageForNSFW] returns is
    never NaN, and a verdict that is not flagged has a confidence that is
    not above 0.65: that is the value the pipeline stores as
    [nsfwConfidence] of a published asset. *)
Theorem published_confidence_is_bounded :
  forall (env : Env) (url : string) (st st1 : Store) (v : ImageVerdict),
    checkImageForNSFW env url st = (st1, Ok v) ->
    isNaN (confidence v) = false
    /\ (isNSFW v = false -> PrimFloat.ltb 0.65 (confidence v) = false).
Proof.
  intros env url st st1 v H.
  apply checkImageForNSFW_ok in H as [_ [result H]].
  split; [by apply (verdictOf_confidence env (Some result)) |].
  apply verdictOf_parts in H as (is_nsfw & n & _ & -> & ->). intros Hf.
  apply orb_false_elim in Hf as [_ Hf]. simpl.
  destruct (PrimFloat.eqb _ 0 || isNaN _); simpl; [reflexivity | exact Hf].
Qed.

Lemma onAssetUploaded_failed env assetId asset url st st1 e :
  status asset = "uploading" ->
  presentUrl asset = Some url ->
  URL_parses env url = true ->
  checkImageForNSFW env url st = (st1, Throw e) ->
  onAssetUploaded env assetId asset st = failSafe env assetId e st1.
Proof.
  intros Hs Hu Hp Hc. unfold onAssetUploaded, verify. rewrite Hs, Hu, Hp. simpl.
  unfold try_catch at 1. unfold bind. by rewrite Hc.
Qed.

Lemma failSafe_accepted env assetId e st d :
  assets st !! assetId = Some d ->
  failure env (DocUpdate Assets assetId (failSafeRejection e)) = None ->
  assets (stateAfter (failSafe env assetId e) st)
  = <[assetId := failSafeRejection e ∪ d]> (assets st).
Proof.
  intros Hd Hf.
  unfold stateAfter, failSafe, try_catch, updateDoc, external, emit, bind, ret, throw.
  rewrite Hf. cbn [fst snd keyedDocs setTrace assets]. by rewrite Hd.
Qed.

(** X6. When the classifier answers outside 2xx, the body of its answer is
    copied into the asset's document: [verificationError] is
    ["NSFW detection failed: OpenRouter API error <status>: <body>"] and
    [rejectionReason] wraps the same text, with status ['rejected']. *)
Theorem upstream_error_body_is_stored :
  forall (env : Env) (assetId : string) (asset : Asset) (url : string)
         (code : Z) (body : string) (st : Store) (d : Doc),
    let message :=
      "NSFW detection failed: OpenRouter API error " +:+ pretty code +:+ ": " +:+ body in
    status asset = "uploading" ->
    presentUrl asset = Some url ->
    URL_parses env url = true ->
    configured (OPENROUTER_API_KEY env) = true ->
    http env openRouterEndpoint url = Responds code body ->
    responseOk code = false ->
    assets st !! assetId = Some d ->
    failure env (DocUpdate Assets assetId (failSafeRejection message)) = None ->
    let st' := stateAfter (onAssetUploaded env assetId asset) st in
    stored (assets st') assetId "status" = Some (FStr "rejected")
    /\ stored (assets st') assetId "verificationError" = Some (FStr message)
    /\ stored (assets st') assetId "rejectionReason"
       = Some (FStr ("Upload verification failed: " +:+ message
                     +:+ ". Please try uploading again.")).
Proof.
  intros env assetId asset url code body st d message Hs Hu Hp Hk Hh Hok Hd Hf st'.
  assert (Hc : checkImageForNSFW env url st
               = (setTrace (trace st ++ [Fetch openRouterEndpoint url]) st, Throw message)).
  { unfold checkImageForNSFW. rewrite Hk. cbn [negb].
    unfold try_catch, bind, fetch, emit, lift, ret, throw.
    simpl. rewrite Hh. simpl. rewrite Hok. reflexivity. }
  assert (E : assets st' = <[assetId := failSafeRejection message ∪ d]> (assets st)).
  { subst st'. unfold stateAfter.
    rewrite (onAssetUploaded_failed _ _ _ _ _ _ _ Hs Hu Hp Hc).
    exact (failSafe_accepted env assetId message
             (setTrace (trace st ++ [Fetch openRouterEndpoint url]) st) d Hd Hf). }
  rewrite E, !stored_insert. repeat apply conj; apply lookup_union_Some_l.
  - apply rejection_status.
  - unfold failSafeRejection, rejection. simpl.
    do 3 (rewrite lookup_insert_ne by done). apply lookup_insert_eq.
  - unfold failSafeRejection, rejection. simpl.
    rewrite lookup_insert_ne by done. apply lookup_insert_eq.
Qed.

(** ** The entry guard *)

Lemma updateDoc_accepted env id fields st d :
  assets st !! id = Some d ->
  failure env (DocUpdate Assets id fields) = None ->
  updateDoc env Assets id fields st
  = (setAssets (<[id := fields ∪ d]> (assets st))
       (setTrace (trace st ++ [DocUpdate Assets id fields]) st), Ok tt).
Proof.
  intros Hd Hf. unfold updateDoc, external, emit, bind, ret, throw.
  rewrite Hf. cbn [fst snd keyedDocs setKeyedDocs setTrace assets]. by rewrite Hd.
Qed.

(** A run that starts with an update of the asset has that update as its
    first call. *)
Lemma update_first env assetId fields st :
  exists rest,
    trace (stateAfter (try_catch (updateDoc env Assets assetId fields)
                         (failSafe env assetId)) st)
    = trace st ++ DocUpdate Assets assetId fields :: rest.
Proof.
  unfold stateAfter, try_catch.
  destruct (updateDoc env Assets assetId fields st) as [s [[] | e]] eqn:E.
  - destruct (updateDoc_ok _ _ _ _ _ _ E) as (d & _ & ->). by exists [].
  - apply updateDoc_throw in E as ->.
    exists [DocUpdate Assets assetId (failSafeRejection e)].
    destruct (failSafe_state env assetId e
                (setTrace (trace st ++ [DocUpdate Assets assetId fields]) st))
      as [H | (d & _ & H)]; unfold stateAfter in H; rewrite H; simpl;
      by rewrite <- app_assoc.
Qed.

Lemma failSafe_first env assetId e st :
  trace (stateAfter (failSafe env assetId e) st)
  = trace st ++ [DocUpdate Assets assetId (failSafeRejection e)].
Proof. by destruct (failSafe_state env assetId e st) as [-> | (d & _ & ->)]. Qed.

Lemma decision_grows env assetId asset url v :
  preserves (evolves (fun _ => True))
    (try_catch
       (if isNSFW v then rejectFlagged env assetId asset url v
        else publish env assetId asset v)
       (failSafe env assetId)).
Proof. destruct (isNSFW v); evolves_walk; exact I. Qed.

(** The first call of a run whose payload says ['uploading']. *)
Lemma onAssetUploaded_first env assetId asset st :
  status asset = "uploading" ->
  exists rest,
    trace (stateAfter (onAssetUploaded env assetId asset) st)
    = trace st ++ firstCall env assetId asset :: rest.
Proof.
  intros Hs. unfold firstCall.
  destruct (presentUrl asset) as [url |] eqn:Hu.
  - destruct (URL_parses env url) eqn:Hp; cbn [negb].
    + destruct (checkImageForNSFW env url st) as [st1 [v | e]] eqn:Hc.
      * pose proof (checkImageForNSFW_state env url st) as S1.
        unfold stateAfter in S1. rewrite Hc in S1. cbn [fst] in S1.
        destruct (configured (OPENROUTER_API_KEY env)) eqn:K.
        -- unfold stateAfter.
           rewrite (onAssetUploaded_verdict env assetId asset url st st1 v Hs Hu Hp Hc).
           destruct (trace_evolves _ _ _ (decision_grows env assetId asset url v st1))
             as (new & E & _).
           unfold stateAfter in E. rewrite E, S1. simpl. rewrite <- app_assoc.
           by exists new.
        -- unfold checkImageForNSFW in Hc. rewrite K in Hc. discriminate.
      * pose proof (checkImageForNSFW_state env url st) as S1.
        unfold stateAfter in S1. rewrite Hc in S1. cbn [fst] in S1.
        unfold stateAfter.
        rewrite (onAssetUploaded_failed env assetId asset url st st1 e Hs Hu Hp Hc).
        pose proof (failSafe_first env assetId e st1) as F. unfold stateAfter in F.
        rewrite F, S1.
        destruct (configured (OPENROUTER_API_KEY env)) eqn:K.
        -- simpl. rewrite <- app_assoc. by eexists.
        -- unfold checkImageForNSFW in Hc. rewrite K in Hc. inversion Hc.
           by exists [].
    + destruct (update_first env assetId (rejection "Invalid image URL" []) st)
        as (rest & E).
      exists rest. rewrite <- E. unfold onAssetUploaded, verify.
      by rewrite Hs, Hu, Hp.
  - destruct (update_first env assetId
                (rejection "No image provided for verification" []) st) as (rest & E).
    exists rest. rewrite <- E. unfold onAssetUploaded, verify. by rewrite Hs, Hu.
Qed.

(** The status stored by a run whose payload says ['uploading'], when the
    asset has a document and the store takes the updates. *)
Lemma onAssetUploaded_decides env assetId asset st d :
  status asset = "uploading" ->
  assets st !! assetId = Some d ->
  (forall fields, failure env (DocUpdate Assets assetId fields) = None) ->
  stored (assets (stateAfter (onAssetUploaded env assetId asset) st)) assetId "status"
  = Some (FStr (decidedStatus env asset st)).
Proof.
  intros Hs Hd Hf.
  assert (Hfirst : forall why,
            stored (assets (stateAfter
                              (try_catch (updateDoc env Assets assetId (rejection why []))
                                 (failSafe env assetId)) st)) assetId "status"
            = Some (FStr "rejected")).
  { intros why. unfold stateAfter, try_catch.
    rewrite (updateDoc_accepted env assetId _ st d Hd (Hf _)). simpl.
    rewrite stored_insert. apply lookup_union_Some_l, rejection_status. }
  unfold decidedStatus.
  destruct (presentUrl asset) as [url |] eqn:Hu.
  - destruct (URL_parses env url) eqn:Hp; cbn [negb].
    + pose proof (checkImageForNSFW_state env url st) as S1.
      unfold outcomeOf. unfold stateAfter in S1.
      destruct (checkImageForNSFW env url st) as [st1 [v | e]] eqn:Hc; cbn [fst snd] in *.
      * assert (Hd1 : assets st1 !! assetId = Some d)
          by (rewrite S1; by destruct (configured _)).
        unfold stateAfter.
        rewrite (onAssetUploaded_verdict env assetId asset url st st1 v Hs Hu Hp Hc).
        unfold try_catch.
        destruct (isNSFW v).
        -- unfold rejectFlagged, bind.
           rewrite (updateDoc_accepted env assetId _ st1 d Hd1 (Hf _)).
           set (st2 := setAssets _ _).
           pose proof (warnAndAudit_returns env assetId asset url v st2) as R.
           destruct (warnAndAudit_counts env assetId asset url v st2)
             as (ops & _ & _ & _ & _ & A).
           unfold outcomeOf in R. unfold stateAfter in A.
           destruct (warnAndAudit env assetId asset url v st2) as [st3 o].
           cbn [fst snd] in *. subst o. cbn [fst]. rewrite A. subst st2. simpl.
           rewrite stored_insert. apply lookup_union_Some_l.
           unfold flaggedRejection. apply rejection_status.
        -- unfold publish, bind.
           rewrite (updateDoc_accepted env assetId _ st1 d Hd1 (Hf _)).
           unfold try_catch, bind. rewrite logAuditAction_unsent. simpl.
           rewrite stored_insert. apply lookup_union_Some_l.
           unfold publication. simpl. apply lookup_insert_eq.
      * assert (Hd1 : assets st1 !! assetId = Some d)
          by (rewrite S1; by destruct (configured _)).
        unfold stateAfter.
        rewrite (onAssetUploaded_failed env assetId asset url st st1 e Hs Hu Hp Hc).
        fold (stateAfter (failSafe env assetId e) st1).
        rewrite (failSafe_accepted env assetId e st1 d Hd1 (Hf _)).
        rewrite stored_insert. apply lookup_union_Some_l.
        unfold failSafeRejection. apply rejection_status.
    + rewrite <- (Hfirst "Invalid image URL"). unfold onAssetUploaded, verify.
      by rewrite Hs, Hu, Hp.
  - rewrite <- (Hfirst "No image provided for verification").
    unfold onAssetUploaded, verify. by rewrite Hs, Hu.
Qed.

(** C7, as the code has it.  The guard at entry reads the status of the
    document the event delivers, the created one, and never the stored
    document.  When that status is not ['uploading'] (so also ['published']
    and ['rejected']) the run leaves the store exactly as it was: no update,
    no warning, no audit entry, no call at all.  When it is ['uploading'] the
    run goes on, whatever the store holds for the asset: its first call is
    the one the payload and the environment decide, and when the asset has a
    document and the store takes the updates, the status stored after the
    run is the one this run decides on, ['published'] for a clean verdict and
    ['rejected'] otherwise, so a repeated delivery of the creation event
    decides the asset again. *)
Theorem skips_assets_not_uploading :
  forall (env : Env) (assetId : string) (asset : Asset) (st : Store),
    let run := onAssetUploaded env assetId asset in
    (status asset <> "uploading" -> run st = (st, Ok tt))
    /\ (status asset = "uploading" ->
        head (opsDuring run st) = Some (firstCall env assetId asset)
        /\ (forall d,
              assets st !! assetId = Some d ->
              (forall fields, failure env (DocUpdate Assets assetId fields) = None) ->
              stored (assets (stateAfter run st)) assetId "status"
              = Some (FStr (decidedStatus env asset st)))).
Proof.
  intros env assetId asset st run. split.
  - intros H. unfold run, onAssetUploaded.
    destruct (String.eqb_spec (status asset) "uploading") as [E | _]; [done |].
    reflexivity.
  - intros Hs. split.
    + destruct (onAssetUploaded_first env assetId asset st Hs) as (rest & E).
      unfold run. apply opsDuring_trace in E. by rewrite E.
    + intros d Hd Hf. by apply (onAssetUploaded_decides env assetId asset st d).
Qed.

(** ** The strings of the adapters *)

Lemma app_cons c a b : String c a +:+ b = String c (a +:+ b).
Proof. reflexivity. Qed.

Lemma app_empty b : EmptyString +:+ b = b.
Proof. reflexivity. Qed.

Lemma includes_char_cons c d rest :
  includes (String c EmptyString) (String d rest)
  = Ascii.eqb d c || includes (String c EmptyString) rest.
Proof.
  cbn [includes String.prefix]. f_equal.
  destruct (ascii_dec c d) as [-> | Hn].
  - rewrite Ascii.eqb_refl. by destruct rest.
  - symmetry. apply Ascii.eqb_neq. congruence.
Qed.

Lemma fromFirstOpen_spec s t :
  fromFirstOpen s = Some t <->
  exists pre rest, s = pre +:+ "{" +:+ rest /\ t = "{" +:+ rest
                   /\ includes "{" pre = false.
Proof.
  revert t. induction s as [| c s IH]; intros t; simpl.
  - split; [done |]. intros (pre & rest & E & _). by destruct pre.
  - destruct (Ascii.eqb c "{") eqn:Ec.
    + apply Ascii.eqb_eq in Ec as ->. split.
      * intros H. inversion H. by exists EmptyString, s.
      * intros (pre & rest & E & -> & Hpre). destruct pre as [| d pre].
        -- rewrite app_empty in E. by rewrite E.
        -- rewrite app_cons in E. inversion E. subst d.
           rewrite includes_char_cons in Hpre. done.
    + rewrite IH. split.
      * intros (pre & rest & -> & -> & Hpre). exists (String c pre), rest.
        repeat apply conj; try done.
        rewrite includes_char_cons, Ec, Hpre. done.
      * intros (pre & rest & E & -> & Hpre). destruct pre as [| d pre].
        -- rewrite app_empty in E. inversion E. subst c. done.
        -- rewrite app_cons in E. inversion E. subst.
           rewrite includes_char_cons in Hpre.
           apply orb_false_elim in Hpre as [_ Hpre]. by exists pre, rest.
Qed.

Lemma upToLastClose_None s : upToLastClose s = None <-> includes "}" s = false.
Proof.
  induction s as [| c s IH]; [done |].
  rewrite includes_char_cons. cbn [upToLastClose].
  destruct (upToLastClose s) as [p |].
  - split; [done |]. intros H. apply orb_false_elim in H as [_ H].
    by apply IH in H.
  - destruct (Ascii.eqb c "}"); [done |]. simpl. by rewrite <- IH.
Qed.

Lemma upToLastClose_app body post :
  includes "}" post = false ->
  upToLastClose (body +:+ "}" +:+ post) = Some (body +:+ "}").
Proof.
  intros Hpost. induction body as [| c body IH].
  - rewrite !app_empty. change ("}" +:+ post) with (String "}" post).
    cbn [upToLastClose]. by rewrite (proj2 (upToLastClose_None post) Hpost).
  - change (upToLastClose (String c (body +:+ "}" +:+ post))
            = Some (String c (body +:+ "}"))).
    cbn [upToLastClose]. by rewrite IH.
Qed.

Lemma upToLastClose_spec s p :
  upToLastClose s = Some p <->
  exists body post, s = body +:+ "}" +:+ post /\ p = body +:+ "}"
                    /\ includes "}" post = false.
Proof.
  split.
  - revert p. induction s as [| c s IH]; intros p; [done |].
    cbn [upToLastClose]. destruct (upToLastClose s) as [q |] eqn:Eq.
    + destruct (IH q eq_refl) as (body & post & -> & -> & Hpost).
      intros H. inversion H. by exists (String c body), post.
    + destruct (Ascii.eqb c "}") eqn:Ec; [| done].
      apply Ascii.eqb_eq in Ec as ->. intros H. inversion H.
      exists EmptyString, s. repeat apply conj; try done.
      by apply upToLastClose_None.
  - intros (body & post & -> & -> & Hpost). by apply upToLastClose_app.
Qed.

(** X7. What the adapter cuts out of the model's message: [matchBraces]
    returns a text exactly when the content holds an opening brace with a
    closing brace somewhere after it, and the text then runs from the first
    opening brace of the content to its last closing brace. *)
Theorem matchBraces_spans_first_open_to_last_close :
  forall content jsonMatch : string,
    matchBraces content = Some jsonMatch <->
    exists pre mid post,
      content = pre +:+ "{" +:+ mid +:+ "}" +:+ post
      /\ jsonMatch = "{" +:+ mid +:+ "}"
      /\ includes "{" pre = false
      /\ includes "}" post = false.
Proof.
  intros content jsonMatch. unfold matchBraces. split.
  - destruct (fromFirstOpen content) as [t |] eqn:E; [| done].
    apply fromFirstOpen_spec in E as (pre & rest & -> & -> & Hpre).
    intros H. apply upToLastClose_spec in H as (body & post & E & -> & Hpost).
    destruct body as [| c body].
    + rewrite app_empty in E. by inversion E.
    + change (String "{" rest = String c (body +:+ "}" +:+ post)) in E.
      inversion E. subst c rest.
      exists pre, body, post. by repeat apply conj.
  - intros (pre & mid & post & -> & -> & Hpre & Hpost).
    assert (E : fromFirstOpen (pre +:+ "{" +:+ mid +:+ "}" +:+ post)
                = Some ("{" +:+ mid +:+ "}" +:+ post)).
    { apply fromFirstOpen_spec. by exists pre, (mid +:+ "}" +:+ post). }
    rewrite E.
    apply (upToLastClose_app (String "{" mid) post Hpost).
Qed.

Lemma prefix_app p b : String.prefix p (p +:+ b) = true.
Proof.
  induction p as [| c p IH]; simpl; [by destruct b |].
  destruct (ascii_dec c c); [exact IH | done].
Qed.

Lemma includes_prefix needle hay : String.prefix needle hay = true -> includes needle hay = true.
Proof. intros H. destruct hay; cbn [includes]; by rewrite H. Qed.

Lemma includes_app needle a b : includes needle (a +:+ needle +:+ b) = true.
Proof.
  induction a as [| c a IH].
  - change (EmptyString +:+ needle +:+ b) with (needle +:+ b).
    apply includes_prefix, prefix_app.
  - change (String c a +:+ needle +:+ b) with (String c (a +:+ needle +:+ b)).
    cbn [includes]. rewrite IH. apply orb_true_r.
Qed.

Lemma toLowerCase_app a b : toLowerCase (a +:+ b) = toLowerCase a +:+ toLowerCase b.
Proof.
  induction a as [| c a IH]; [done |].
  change (String c a +:+ b) with (String c (a +:+ b)). simpl. by rewrite IH.
Qed.

Lemma textHasNSFWPattern_inside a word b :
  toLowerCase word ∈ nsfwPatterns -> textHasNSFWPattern (a +:+ word +:+ b) = true.
Proof.
  intros Hin. unfold textHasNSFWPattern. apply existsb_exists.
  exists (toLowerCase word). split; [by apply list_elem_of_In |].
  rewrite !toLowerCase_app. apply includes_app.
Qed.

(** X8. The text check matches its word list anywhere and without regard to
    letter case.  When the sentiment API answers with sentiment data, a text
    that holds one of the listed words inside any other text is flagged, with
    the reason ["<field>: Inappropriate content"], whatever the reported
    emotion says, provided the emotion is a string or missing and the
    sentiment and the score have a string form.  Otherwise the adapter throws
    before it looks at the text (in its log line, or at [toLowerCase]), and
    the same text is not flagged: the answer is ["Text check failed"]. *)
Theorem listed_word_inside_flags_text :
  forall (env : Env) (text fieldName a word b : string) (code : Z) (body : string)
         (data : Json) (sentimentData emotion sentiment score : JsVal) (st : Store),
    configured (JIGSAWSTACK_API_KEY env) = true ->
    trim env text <> EmptyString ->
    http env jigsawEndpoint text = Responds code body ->
    responseOk code = true ->
    JSON_parse env body = Ok data ->
    getProp (Some data) "sentiment" = Ok sentimentData ->
    truthy sentimentData = true ->
    getProp sentimentData "emotion" = Ok emotion ->
    getProp sentimentData "sentiment" = Ok sentiment ->
    getProp sentimentData "score" = Ok score ->
    text = a +:+ word +:+ b ->
    toLowerCase word ∈ nsfwPatterns ->
    exists v,
      outcomeOf (checkTextForNSFW env text fieldName) st = Ok v
      /\ ((exists lowered, emotionLower (orElse emotion (JStr EmptyString)) = Ok lowered) ->
          printable env (orElse sentiment (JStr EmptyString)) ->
          printable env (orElse score (JNum 0)) ->
          Text.isNSFW v = true
          /\ Text.reason v = fieldName +:+ ": Inappropriate content")
      /\ ((exists e, emotionLower (orElse emotion (JStr EmptyString)) = Throw e)
          \/ ~ printable env (orElse sentiment (JStr EmptyString))
          \/ ~ printable env (orElse score (JNum 0)) ->
          Text.isNSFW v = false
          /\ Text.reason v = "Text check failed").
Proof.
  intros env text fieldName a word b code body data sentimentData emotion sentiment
    score st Hk Ht Hh Hok Hp Hs Htr He Hse Hsc Htext Hw.
  assert (Hne : text <> EmptyString).
  { rewrite Htext. destruct a; simpl; [| done].
    destruct word; simpl; [| done]. by apply list_elem_of_In in Hw; simpl in Hw;
      repeat destruct Hw as [Hw | Hw]. }
  unfold outcomeOf, checkTextForNSFW. rewrite Hk. simpl.
  apply String.eqb_neq in Hne as ->. apply String.eqb_neq in Ht as ->. simpl.
  unfold try_catch, bind, fetch, emit, lift, ret, throw. simpl.
  rewrite Hh. simpl. rewrite Hok. simpl. rewrite Hp. simpl.
  unfold textVerdictOf. rewrite Hs. cbn [obind]. rewrite Htr. cbn [negb].
  rewrite He, Hse, Hsc. cbn [obind].
  unfold printable.
  destruct (ToString _ (orElse emotion _)) as [pe | me] eqn:Epe; cbn [obind].
  - destruct (ToString _ (orElse sentiment _)) as [ps | ms]; cbn [obind].
    + destruct (ToString _ (orElse score _)) as [pc | mc]; cbn [obind].
      * destruct (emotionLower (orElse emotion _)) as [lowered | ml]; cbn [obind].
        -- rewrite Htext, (textHasNSFWPattern_inside a word b Hw), orb_true_r.
           eexists. split; [reflexivity |]. split; [done |].
           intros [[e [=]] | [H | H]]; exfalso; apply H; by eexists.
        -- eexists. split; [reflexivity |]. split; [| done].
           by intros [lowered [=]] _ _.
      * eexists. split; [reflexivity |]. split; [| done].
        by intros _ _ [s [=]].
    + eexists. split; [reflexivity |]. split; [| done].
      by intros _ [s [=]] _.
  - eexists. split; [reflexivity |]. split; [| done].
    intros [lowered Hl] _ _. exfalso.
    unfold emotionLower in Hl. destruct (orElse emotion _) as [[| | | t | |] |];
      discriminate.
Qed.

(** ** Strikes beyond the threshold *)

Lemma reasonName_inj r r' : reasonName r = reasonName r' -> r = r'.
Proof. by destruct r, r'. Qed.

Lemma warningDoc_other userId reason userId' reason' message evidence :
  userId' <> userId \/ reason' <> reason ->
  matches (activeWarnings userId reason) (warningDoc userId' reason' message evidence)
  = false.
Proof.
  intros H. unfold matches, activeWarnings, warningDoc. simpl.
  rewrite lookup_insert_eq.
  rewrite lookup_insert_ne by done. rewrite lookup_insert_eq. simpl.
  destruct H as [H | H].
  - by apply String.eqb_neq in H as ->.
  - assert (Hr : reasonName reason' <> reasonName reason)
      by (intros E; by apply reasonName_inj in E).
    apply String.eqb_neq in Hr as ->. by rewrite andb_false_r.
Qed.

Lemma activeCount_evolves (P : Effect -> Prop) userId reason st st' :
  evolves P st st' ->
  (forall doc, P (Added Warnings doc) -> matches (activeWarnings userId reason) doc = false) ->
  activeCount userId reason (warnings st') = activeCount userId reason (warnings st).
Proof.
  intros (effects & -> & F) HP. revert st.
  induction F as [| e effects He F IH]; intros st; simpl; [done |].
  rewrite IH. destruct e as [op | c id f | c doc | uid b]; try done.
  - destruct c; simpl; by destruct (_ !! id).
  - destruct c; try done.
    change (warnings (applyEffect st (Added Warnings doc))) with (warnings st ++ [doc]).
    unfold activeCount. rewrite List.filter_app, length_app. cbn [List.filter].
    rewrite (HP _ He). simpl. lia.
Qed.

(** X9. Strikes are counted per pair of user and category: a call of
    [createWarning] for another user or another category leaves the count of
    the pair unchanged, in every environment. *)
Theorem strikes_are_counted_per_pair :
  forall (env : Env) (userId userId' : string) (reason reason' : WarningReason)
         (message : string) (evidence : option string) (st : Store),
    userId' <> userId \/ reason' <> reason ->
    activeCount userId reason
      (warnings (stateAfter (createWarning env userId' reason' message evidence) st))
    = activeCount userId reason (warnings st).
Proof.
  intros env userId userId' reason reason' message evidence st H.
  assert (Hp : preserves (evolves (strikesOf userId reason))
                 (createWarning env userId' reason' message evidence)).
  { evolves_walk; try exact I.
    by apply (warningDoc_other userId reason userId' reason' message evidence). }
  apply (activeCount_evolves _ _ _ _ _ (Hp st)). by intros doc.
Qed.

Lemma createWarning_bans env userId reason message evidence st d :
  nominal env ->
  users st !! userId = Some d ->
  is_Some (authDisabled st !! userId) ->
  (2 <= activeCount userId reason (warnings st))%nat ->
  let st' := stateAfter (createWarning env userId reason message evidence) st in
  users st' = <[userId := banFields env reason ∪ d]> (users st)
  /\ authDisabled st' = <[userId := true]> (authDisabled st)
  /\ audit_logs st' = audit_logs st.
Proof.
  intros Hn Hd Ha Hc st'.
  destruct (createWarning_nominal env userId reason message evidence st Hn) as [_ H].
  cbv zeta in H.
  replace (3 <=? activeCount userId reason (warnings st) + 1)%nat with true in H
    by (symmetry; apply Nat.leb_le; lia).
  by destruct (H d Hd Ha) as (_ & U & A & L & _).
Qed.

(** X26. A warning that cannot be counted or stored leaves nothing behind.
    When the query for the active warnings throws, or the query goes through
    and the store refuses the new warning, [createWarning] throws that same
    error, and no document, auth record or audit entry has been written: no
    ban follows from a strike that was not stored. *)
Theorem uncounted_warning_writes_nothing :
  forall (env : Env) (userId : string) (reason : WarningReason)
         (message : string) (evidence : option string) (st : Store) (e : string),
    failure env (QueryWarnings (activeWarnings userId reason)) = Some e
    \/ (failure env (QueryWarnings (activeWarnings userId reason)) = None
        /\ failure env (DocAdd Warnings (warningDoc userId reason message evidence))
           = Some e) ->
    let m := createWarning env userId reason message evidence in
    outcomeOf m st = Throw e
    /\ sameRecords st (stateAfter m st)
    /\ audit_logs (stateAfter m st) = audit_logs st.
Proof.
  intros env userId reason message evidence st e H m. subst m.
  unfold outcomeOf, stateAfter, createWarning, try_catch, bind, queryWarnings, addDoc,
    external, emit, bind, ret, throw.
  cbn [fst snd]. destruct H as [H | [H1 H2]].
  - rewrite H. cbn. by repeat split.
  - rewrite H1. cbn [fst snd]. rewrite H2. cbn. by repeat split.
Qed.

Section HalfDone.
Local Arguments Nat.leb : simpl never.

(** X10. A ban whose auth step fails is half done.  For a user with a
    document, at least two active warnings of the category and no auth
    record, in an environment that lets every call through, [createWarning]
    throws the auth error; the warning is stored and the user's document
    says [isBanned], but no auth record, notification or audit entry is
    written. *)
Theorem ban_without_auth_record_is_half_done :
  forall (env : Env) (userId : string) (reason : WarningReason)
         (message : string) (evidence : option string) (st : Store) (d : Doc),
    nominal env ->
    users st !! userId = Some d ->
    authDisabled st !! userId = None ->
    (2 <= activeCount userId reason (warnings st))%nat ->
    let m := createWarning env userId reason message evidence in
    let st' := stateAfter m st in
    outcomeOf m st
    = Throw "There is no user record corresponding to the provided identifier."
    /\ warnings st' = warnings st ++ [warningDoc userId reason message evidence]
    /\ stored (users st') userId "isBanned" = Some (FBool true)
    /\ authDisabled st' = authDisabled st
    /\ notifications st' = notifications st
    /\ audit_logs st' = audit_logs st.
Proof.
  intros env userId reason message evidence st d Hn Hd Ha Hc m st'.
  subst st' m. unfold stateAfter, outcomeOf.
  unfold createWarning, try_catch, bind, queryWarnings, addDoc, external, emit, bind, ret, throw.
  simpl. rewrite !Hn. simpl. fold (activeCount userId reason (warnings st)).
  replace (3 <=? activeCount userId reason (warnings st) + 1)%nat with true
    by (symmetry; apply Nat.leb_le; lia).
  unfold autoBan, updateDoc, authUpdateUser, external, emit, bind, ret, throw.
  simpl. rewrite !Hn. simpl. rewrite Hd. simpl. rewrite Ha. simpl.
  repeat apply conj; try reflexivity.
  rewrite stored_insert. by apply lookup_union_Some_l.
Qed.
End HalfDone.


(** ** The sweep beyond its first failure *)

Lemma authDisabled_evolves (P : Effect -> Prop) (v : string) st st' :
  evolves P st st' ->
  (forall uid b, P (AuthSet uid b) -> uid <> v) ->
  authDisabled st' !! v = authDisabled st !! v.
Proof.
  intros (effects & -> & F) HP. revert st.
  induction F as [| e effects He F IH]; intros st; simpl; [done |].
  rewrite IH. destruct e as [op | c id f | c doc | uid b]; simpl; try done.
  - destruct c; simpl; by destruct (_ !! id).
  - by destruct c.
  - apply lookup_insert_ne. by apply HP in He.
Qed.

Lemma notDue_matches env d : notDue env d -> matches (expiredBans env) d = false.
Proof.
  unfold matches, expiredBans. simpl. intros [H | H].
  - destruct (d !! "isBanned") as [[| [] | | | | |] |]; simpl; try done.
  - destruct (d !! "banUntilDate") as [[| | | | t | |] |]; simpl;
      try (by rewrite andb_false_r).
    specialize (H t eq_refl).
    replace (t <? dateNow env)%Z with false by (symmetry; apply Z.ltb_ge; lia).
    by rewrite andb_false_r.
Qed.

Lemma queryUsers_run env conds st :
  let st0 := setTrace (trace st ++ [QueryUsers conds]) st in
  queryUsers env conds st
  = (st0, match failure env (QueryUsers conds) with
          | Some e => Throw e
          | None => Ok (usersWhere conds st)
          end).
Proof.
  unfold queryUsers, external, emit, bind, ret, throw. simpl.
  by destruct (failure env _).
Qed.

Lemma restoreUser_sweepOnly env docs doc :
  doc ∈ docs -> preserves (evolves (sweepOnly docs)) (restoreUser env doc.1).
Proof.
  intros Hin. evolves_walk; try exact I; simpl; by apply list_elem_of_fmap_2.
Qed.

Lemma checkExpiredBans_sweepOnly env st :
  evolves (sweepOnly (expired env st)) st (stateAfter (checkExpiredBans env) st).
Proof.
  unfold checkExpiredBans, stateAfter, try_catch. unfold bind at 1.
  rewrite queryUsers_run. cbv zeta.
  set (st0 := setTrace _ st).
  assert (H0 : evolves (sweepOnly (expired env st)) st st0)
    by (by apply (evolves_one _ st (Traced (QueryUsers (expiredBans env))))).
  destruct (failure env _); cbv beta iota; [exact H0 |].
  fold (expired env st).
  assert (H : preserves (evolves (sweepOnly (expired env st)))
                (restoreAll env (expired env st) 0)).
  { apply restoreAll_preserves_each; [apply _ |].
    apply Forall_forall. intros d Hin. by apply restoreUser_sweepOnly. }
  specialize (H st0). unfold stateAfter, bind in *.
  destruct (restoreAll env (expired env st) 0 st0) as [st1 [n | e]]; simpl in *;
    (etransitivity; [exact H0 | exact H]).
Qed.

Lemma expired_elem env st v d :
  (v, d) ∈ expired env st <-> users st !! v = Some d /\ matches (expiredBans env) d = true.
Proof. apply usersWhere_elem. Qed.

Lemma checkExpiredBans_keeps env st v d :
  users st !! v = Some d -> notDue env d ->
  users (stateAfter (checkExpiredBans env) st) !! v = Some d
  /\ authDisabled (stateAfter (checkExpiredBans env) st) !! v = authDisabled st !! v.
Proof.
  intros Hd Hn. pose proof (checkExpiredBans_sweepOnly env st) as H.
  assert (Hv : v ∉ (expired env st).*1).
  { intros Hin. apply list_elem_of_fmap in Hin as ([v' d'] & -> & Hin).
    apply expired_elem in Hin as [Hd' Hm]. cbn [fst] in *.
    rewrite Hd in Hd'. inversion Hd'. subst d'.
    rewrite (notDue_matches _ _ Hn) in Hm. discriminate. }
  split.
  - rewrite <- Hd. apply (users_evolves _ _ _ _ H).
    intros id fields Hu ->. by apply Hv.
  - apply (authDisabled_evolves _ _ _ _ H). intros uid b Hu ->. by apply Hv.
Qed.

Lemma checkExpiredBans_keeps_warnings env st :
  warnings (stateAfter (checkExpiredBans env) st) = warnings st.
Proof.
  apply (warnings_evolves _ _ _ (checkExpiredBans_sweepOnly env st)).
  intros doc Hd. exact Hd.
Qed.

(** X11. What the sweep leaves alone, in every environment: the warnings,
    the assets, and the document and auth record of every user who is not
    banned, or banned without an end date, or banned until a date that is
    not past. *)
Theorem sweep_leaves_the_rest :
  forall (env : Env) (st : Store),
    let st' := stateAfter (checkExpiredBans env) st in
    warnings st' = warnings st
    /\ assets st' = assets st
    /\ forall v d,
         users st !! v = Some d -> notDue env d ->
         users st' !! v = Some d /\ authDisabled st' !! v = authDisabled st !! v.
Proof.
  intros env st st'. repeat apply conj.
  - apply checkExpiredBans_keeps_warnings.
  - apply (assets_evolves _ _ _ (checkExpiredBans_sweepOnly env st)).
    intros id fields Hu. exact Hu.
  - intros v d. apply checkExpiredBans_keeps.
Qed.

Lemma restoreUser_nominal env userId st d :
  nominal env -> users st !! userId = Some d -> is_Some (authDisabled st !! userId) ->
  exists st',
    restoreUser env userId st = (st', Ok tt)
    /\ users st' = <[userId := unbanFields ∪ d]> (users st)
    /\ authDisabled st' = <[userId := false]> (authDisabled st)
    /\ notifications st' = notifications st ++ [restoredNotice userId]
    /\ audit_logs st' = audit_logs st.
Proof.
  intros Hn Hd [b Hb].
  unfold restoreUser.
  unfold updateDoc, authUpdateUser, addDoc, external, emit, bind, ret, throw.
  simpl. rewrite !Hn. simpl. rewrite Hd. simpl. rewrite Hb. simpl.
  eexists. split; [reflexivity | done].
Qed.

Lemma restoreAll_nominal env docs : 
  nominal env -> 
  forall n st,
  NoDup docs.*1 ->
  Forall (fun doc => users st !! doc.1 = Some doc.2
                     /\ is_Some (authDisabled st !! doc.1)) docs ->
  exists st',
    restoreAll env docs n st = (st', Ok (n + length docs)%nat)
    /\ Forall (restored st') docs
    /\ (forall v, v ∉ docs.*1 ->
          users st' !! v = users st !! v
          /\ authDisabled st' !! v = authDisabled st !! v)
    /\ notifications st'
       = notifications st ++ map (fun doc => restoredNotice doc.1) docs
    /\ audit_logs st' = audit_logs st.
Proof.
  intros Hn. induction docs as [| [u d] docs IH]; intros n st Hnd Hdocs.
  - exists st. simpl. rewrite Nat.add_0_r, app_nil_r. by repeat apply conj.
  - apply NoDup_cons in Hnd as [Hu Hnd].
    apply Forall_cons in Hdocs as [[Hd Ha] Hdocs]. simpl in Hd, Ha.
    destruct (restoreUser_nominal env u st d Hn Hd Ha) as (st1 & R1 & U1 & A1 & N1 & L1).
    destruct (IH (S n) st1 Hnd) as (st' & R & F & U & N & L).
    { apply Forall_forall. intros [v dv] Hin. cbn [fst snd].
      assert (Hv : v <> u).
      { intros ->. apply Hu. apply list_elem_of_fmap. by exists (u, dv). }
      rewrite U1, A1, !lookup_insert_ne by done.
      by apply (proj1 (Forall_forall _ _) Hdocs (v, dv)). }
    exists st'. repeat apply conj.
    + simpl. unfold bind. rewrite R1, R. do 2 f_equal. lia.
    + apply Forall_cons. split; [| exact F]. unfold restored. cbn [fst snd].
      destruct (U u Hu) as [-> ->]. by rewrite U1, A1, !lookup_insert_eq.
    + intros v Hv. rewrite fmap_cons in Hv. apply not_elem_of_cons in Hv as [Hvu Hv].
      destruct (U v Hv) as [-> ->]. by rewrite U1, A1, !lookup_insert_ne.
    + rewrite N, N1. simpl. by rewrite <- app_assoc.
    + by rewrite L, L1.
Qed.

Lemma expired_NoDup env st : NoDup (expired env st).*1.
Proof. apply usersWhere_NoDup. Qed.

Lemma unbanned_not_expired env d :
  matches (expiredBans env) (unbanFields ∪ d) = false.
Proof.
  apply notDue_matches. left.
  erewrite lookup_union_Some_l; [| apply lookup_insert_eq]. done.
Qed.

Lemma filter_none {A} (f : A -> bool) (l : list A) :
  Forall (fun x => f x = false) l -> List.filter f l = [].
Proof. induction 1 as [| x l H _ IH]; simpl; [done |]. by rewrite H. Qed.

Lemma checkExpiredBans_nominal env st :
  nominal env ->
  Forall (fun doc => is_Some (authDisabled st !! doc.1)) (expired env st) ->
  let st' := stateAfter (checkExpiredBans env) st in
  Forall (restored st') (expired env st)
  /\ (forall v, v ∉ (expired env st).*1 -> users st' !! v = users st !! v)
  /\ notifications st'
     = notifications st ++ map (fun doc => restoredNotice doc.1) (expired env st).
Proof.
  intros Hn Hauth st'.
  set (st0 := setTrace (trace st ++ [QueryUsers (expiredBans env)]) st).
  destruct (restoreAll_nominal env (expired env st) Hn 0 st0 (expired_NoDup env st))
    as (st1 & R & F & U & N & L).
  { apply Forall_forall. intros [v d] Hin. cbn [fst snd]. split.
    - by apply expired_elem in Hin as [Hd _].
    - by apply (proj1 (Forall_forall _ _) Hauth (v, d)). }
  assert (E : st' = st1).
  { unfold st', checkExpiredBans, stateAfter, try_catch. unfold bind at 1.
    rewrite queryUsers_run. cbv zeta. rewrite Hn. cbv beta iota.
    fold (expired env st). fold st0. unfold bind. by rewrite R. }
  rewrite E. repeat apply conj; [exact F | | exact N].
  intros v Hv. by destruct (U v Hv) as [-> _].
Qed.

(** X12. The sweep in an environment that lets every call through, when
    every user it finds has an auth record: each of them gets the unban
    fields merged into the document and the login enabled, and is sent one
    notice, in the order of the query; no user is due any more, and a second
    sweep at the same time only runs its query.  The audit log is as it was:
    the [BAN_EXPIRED] entries carry no user agent and are refused. *)
Theorem sweep_restores_every_expired_ban :
  forall (env : Env) (st : Store),
    nominal env ->
    Forall (fun doc => is_Some (authDisabled st !! doc.1)) (expired env st) ->
    let st' := stateAfter (checkExpiredBans env) st in
    Forall (restored st') (expired env st)
    /\ notifications st'
       = notifications st ++ map (fun doc => restoredNotice doc.1) (expired env st)
    /\ audit_logs st' = audit_logs st
    /\ expired env st' = []
    /\ opsDuring (checkExpiredBans env) st' = [QueryUsers (expiredBans env)].
Proof.
  intros env st Hn Hauth st'.
  destruct (checkExpiredBans_nominal env st Hn Hauth) as (F & U & N).
  fold st' in F, U, N.
  assert (X : expired env st' = []).
  { unfold expired, usersWhere.
    replace (List.filter _ (map_to_list (users st'))) with (@nil (string * Doc));
      [done |].
    symmetry. apply filter_none. apply Forall_forall.
    intros [v d'] Hin. apply elem_of_map_to_list in Hin. cbn [snd].
    destruct (decide (v ∈ (expired env st).*1)) as [Hv | Hv].
    - apply list_elem_of_fmap in Hv as ([v' d] & -> & Hv).
      apply (proj1 (Forall_forall _ _) F) in Hv as [Hv _]. cbn [fst snd] in *.
      rewrite Hin in Hv. inversion Hv. apply unbanned_not_expired.
    - rewrite (U v Hv) in Hin.
      destruct (matches (expiredBans env) d') eqn:Hm; [| done].
      exfalso. apply Hv. apply list_elem_of_fmap. exists (v, d').
      split; [done |]. by apply expired_elem. }
  repeat apply conj; [exact F | exact N | | exact X |].
  - apply unaudited_keeps, checkExpiredBans_unaudited.
  - apply opsDuring_trace.
    unfold checkExpiredBans, stateAfter, try_catch. unfold bind at 1.
    rewrite queryUsers_run. cbv zeta. rewrite Hn. cbv beta iota.
    fold (expired env st'). rewrite X. reflexivity.
Qed.

(** X13. Strikes outlive the ban.  The sweep does not touch the warnings,
    so a user with at least two active warnings of a category keeps that
    count through any sweep, and the next warning of the category bans the
    user again, until 7 days after that call, and disables the login.
    Neither the sweep nor the ban leaves an audit entry. *)
Theorem strikes_outlive_the_ban :
  forall (sweepEnv env : Env) (userId : string) (reason : WarningReason)
         (message : string) (evidence : option string) (st : Store) (d : Doc),
    let st1 := stateAfter (checkExpiredBans sweepEnv) st in
    let st2 := stateAfter (createWarning env userId reason message evidence) st1 in
    nominal env ->
    users st1 !! userId = Some d ->
    is_Some (authDisabled st1 !! userId) ->
    (2 <= activeCount userId reason (warnings st))%nat ->
    activeCount userId reason (warnings st1) = activeCount userId reason (warnings st)
    /\ stored (users st2) userId "isBanned" = Some (FBool true)
    /\ stored (users st2) userId "banUntilDate"
       = Some (FDate (dateNow env + 7 * 24 * 60 * 60 * 1000))
    /\ authDisabled st2 !! userId = Some true
    /\ audit_logs st2 = audit_logs st.
Proof.
  intros sweepEnv env userId reason message evidence st d st1 st2 Hn Hd Ha Hc.
  assert (W : warnings st1 = warnings st) by apply checkExpiredBans_keeps_warnings.
  rewrite <- W in Hc.
  destruct (createWarning_bans env userId reason message evidence st1 d Hn Hd Ha Hc)
    as (U & A & L).
  fold st2 in U, A, L. repeat apply conj.
  - by rewrite W.
  - rewrite U, stored_insert. by apply lookup_union_Some_l.
  - rewrite U, stored_insert. by apply lookup_union_Some_l.
  - rewrite A. apply lookup_insert_eq.
  - rewrite L. apply unaudited_keeps, checkExpiredBans_unaudited.
Qed.

(** ** The first failure of the sweep *)

(** A restoration that goes through updated the document that was there and
    enabled the login. *)
Lemma restoreUser_ok env userId st st' :
  restoreUser env userId st = (st', Ok tt) ->
  exists d,
    users st !! userId = Some d
    /\ users st' = <[userId := unbanFields ∪ d]> (users st)
    /\ authDisabled st' = <[userId := false]> (authDisabled st).
Proof.
  unfold restoreUser.
  unfold updateDoc, authUpdateUser, addDoc, external, emit, bind, ret, throw.
  simpl. destruct (failure env (DocUpdate _ _ _)); simpl; [discriminate |].
  destruct (users st !! userId) as [d |] eqn:Hd; simpl; [| discriminate].
  destruct (failure env (AuthUpdateUser _ _)); simpl; [discriminate |].
  destruct (authDisabled st !! userId) as [b |] eqn:Hb; simpl; [| discriminate].
  destruct (failure env (DocAdd _ _)); simpl; [discriminate |].
  intros [= <-]. by exists d.
Qed.

(** Whatever a restoration does, it does to its own user. *)
Lemma restoreUser_others env userId st v :
  v <> userId ->
  users (stateAfter (restoreUser env userId) st) !! v = users st !! v
  /\ authDisabled (stateAfter (restoreUser env userId) st) !! v = authDisabled st !! v.
Proof.
  intros Hv.
  pose proof (restoreUser_sweepOnly env [(userId, ∅)] (userId, ∅)) as H.
  specialize (H ltac:(by constructor) st). cbn [fst] in H. split.
  - apply (users_evolves _ _ _ _ H). intros id fields Hu ->.
    simpl in Hu. apply list_elem_of_singleton in Hu. by apply Hv.
  - apply (authDisabled_evolves _ _ _ _ H). intros uid b Hu ->.
    simpl in Hu. apply list_elem_of_singleton in Hu. by apply Hv.
Qed.

(** The loop over documents that all go through. *)
Lemma restoreAll_ok env docs :
  forall n st st' k,
    NoDup docs.*1 ->
    Forall (fun doc => users st !! doc.1 = Some doc.2) docs ->
    restoreAll env docs n st = (st', Ok k) ->
    k = (n + length docs)%nat
    /\ Forall (restored st') docs
    /\ (forall v, v ∉ docs.*1 ->
          users st' !! v = users st !! v
          /\ authDisabled st' !! v = authDisabled st !! v).
Proof.
  induction docs as [| [u d] docs IH]; intros n st st' k Hnd Hdocs Hrun.
  - simpl in Hrun. unfold ret in Hrun. injection Hrun as <- <-.
    rewrite Nat.add_0_r. by repeat apply conj.
  - apply NoDup_cons in Hnd as [Hu Hnd].
    apply Forall_cons in Hdocs as [Hd Hdocs]. cbn [fst snd] in Hd.
    simpl in Hrun. unfold bind in Hrun.
    destruct (restoreUser env u st) as [st1 [[] | e]] eqn:R1; [| discriminate].
    destruct (restoreUser_ok env u st st1 R1) as (d' & Hd' & U1 & A1).
    rewrite Hd in Hd'. injection Hd' as <-.
    destruct (IH (S n) st1 st' k Hnd) as (Hk & F & U); [| exact Hrun |].
    { apply Forall_forall. intros [v dv] Hin. cbn [fst snd].
      assert (Hv : v <> u).
      { intros ->. apply Hu. apply list_elem_of_fmap. by exists (u, dv). }
      rewrite U1, lookup_insert_ne by done.
      by apply (proj1 (Forall_forall _ _) Hdocs (v, dv)). }
    repeat apply conj.
    + simpl. lia.
    + apply Forall_cons. split; [| exact F]. unfold restored. cbn [fst snd].
      destruct (U u Hu) as [-> ->]. by rewrite U1, A1, !lookup_insert_eq.
    + intros v Hv. rewrite fmap_cons in Hv. apply not_elem_of_cons in Hv as [Hvu Hv].
      destruct (U v Hv) as [-> ->]. by rewrite U1, A1, !lookup_insert_ne.
Qed.

(** C6, as the code has it.  The sweep has one handler around the whole loop
    and none inside it.  When the restoration of a user throws, after the
    users before it in the query went through, the sweep ends there and
    returns normally.  The users before the failing one are restored: each
    has the document the query saw with the ban fields cleared, and the
    login enabled.  Every user after the failing one still has the document
    the query saw, banned and past its date, and the auth record of
    before. *)
Theorem sweep_stops_at_first_failure :
  forall (env : Env) (st st1 st2 : Store) (pre post : list (string * Doc))
         (doc : string * Doc) (n : nat) (e : string),
    failure env (QueryUsers (expiredBans env)) = None ->
    expired env st = pre ++ doc :: post ->
    restoreAll env pre 0 (stateAfter (queryUsers env (expiredBans env)) st) = (st1, Ok n) ->
    restoreUser env doc.1 st1 = (st2, Throw e) ->
    checkExpiredBans env st = (st2, Ok tt)
    /\ n = length pre
    /\ Forall (restored st2) pre
    /\ Forall (fun later => users st2 !! later.1 = Some later.2
                           /\ matches (expiredBans env) later.2 = true
                           /\ authDisabled st2 !! later.1 = authDisabled st !! later.1)
         post.
Proof.
  intros env st st1 st2 pre post doc n e Hq Hdocs Hpre Hdoc.
  assert (Hquery : queryUsers env (expiredBans env) st
                   = (stateAfter (queryUsers env (expiredBans env)) st,
                      Ok (pre ++ doc :: post))).
  { unfold stateAfter. rewrite queryUsers_run. cbv zeta. rewrite Hq. cbn [fst].
    by rewrite <- Hdocs. }
  set (st0 := stateAfter (queryUsers env (expiredBans env)) st) in *.
  assert (Hst0 : users st0 = users st /\ authDisabled st0 = authDisabled st).
  { unfold st0, stateAfter. by rewrite queryUsers_run. }
  destruct Hst0 as [Hu0 Ha0].
  assert (Hloop : restoreAll env (pre ++ doc :: post) 0 st0 = (st2, Throw e)).
  { rewrite (restoreAll_app _ _ _ _ _ _ _ Hpre). by apply restoreAll_throw. }
  assert (Hnodup : NoDup (pre ++ doc :: post).*1)
    by (rewrite <- Hdocs; apply expired_NoDup).
  rewrite fmap_app, fmap_cons in Hnodup.
  apply NoDup_app in Hnodup as (Hndpre & Hdisj & Hndrest).
  apply NoDup_cons in Hndrest as [Hdocpost Hndpost].
  assert (Hseen : forall d, d ∈ pre ++ doc :: post -> users st !! d.1 = Some d.2
                            /\ matches (expiredBans env) d.2 = true).
  { intros [v dv] Hin. rewrite <- Hdocs in Hin. by apply expired_elem in Hin. }
  destruct (restoreAll_ok env pre 0 st0 st1 n Hndpre) as (Hn & Fpre & Upre);
    [| exact Hpre |].
  { apply Forall_forall. intros d Hin. rewrite Hu0.
    apply Hseen. apply elem_of_app. by left. }
  assert (Hst2 : st2 = stateAfter (restoreUser env doc.1) st1)
    by (unfold stateAfter; by rewrite Hdoc).
  split; [| split; [exact Hn | split]].
  - unfold checkExpiredBans, try_catch. unfold bind at 1. rewrite Hquery.
    unfold bind. by rewrite Hloop.
  - apply Forall_forall. intros d Hin.
    assert (Hne : d.1 <> doc.1).
    { intros Heq. apply (Hdisj d.1); [by apply list_elem_of_fmap_2 |].
      rewrite Heq. by left. }
    destruct (restoreUser_others env doc.1 st1 d.1 Hne) as [U2 A2].
    rewrite <- Hst2 in U2, A2.
    destruct (proj1 (Forall_forall _ _) Fpre d Hin) as [Ud Ad].
    unfold restored. by rewrite U2, A2.
  - apply Forall_forall. intros later Hin.
    assert (Hne : later.1 <> doc.1).
    { intros Heq. apply Hdocpost. rewrite <- Heq. by apply list_elem_of_fmap_2. }
    assert (Hnotpre : later.1 ∉ pre.*1).
    { intros Hp. apply (Hdisj later.1 Hp). right. by apply list_elem_of_fmap_2. }
    destruct (restoreUser_others env doc.1 st1 later.1 Hne) as [U2 A2].
    rewrite <- Hst2 in U2, A2.
    destruct (Upre later.1 Hnotpre) as [U1 A1].
    destruct (Hseen later) as [Hd Hm]; [apply elem_of_app; right; by right |].
    rewrite U2, A2, U1, A1, Hu0, Ha0. by repeat split.
Qed.

(** ** The callable functions of the upload handling *)

Lemma getDoc_run env c id st :
  getDoc env c id st
  = (setTrace (trace st ++ [Call "get" [collectionName c; id]]) st,
     match failure env (Call "get" [collectionName c; id]) with
     | Some e => Throw e
     | None => Ok (keyedDocs c st !! id)
     end).
Proof.
  unfold getDoc, external, emit, bind, ret, throw. simpl.
  destruct (failure env _); [done |]. by destruct c.
Qed.

Lemma callerWithRole_run env roles denied uid st :
  callerWithRole env roles denied (Some uid) st
  = (setTrace (trace st ++ [Call "get" ["users"; uid]]) st,
     match failure env (Call "get" ["users"; uid]) with
     | Some e => Escapes e
     | None => if hasRole roles (users st !! uid) then Returns uid
               else HttpsError "permission-denied" denied
     end).
Proof.
  unfold callerWithRole. rewrite getDoc_run. simpl.
  destruct (failure env _); [done |]. by destruct (hasRole _ _).
Qed.

Lemma sameRecords_refl st : sameRecords st st.
Proof. by repeat split. Qed.

Lemma sameRecords_trans a b c : sameRecords a b -> sameRecords b c -> sameRecords a c.
Proof.
  intros (A1 & U1 & W1 & N1 & D1) (A2 & U2 & W2 & N2 & D2).
  repeat split; congruence.
Qed.

Lemma sameRecords_trace st t : sameRecords st (setTrace t st).
Proof. by repeat split. Qed.

Lemma checkStoredImage_state env v st :
  sameRecords st (stateAfter (checkStoredImage env v) st)
  /\ audit_logs (stateAfter (checkStoredImage env v) st) = audit_logs st.
Proof.
  unfold checkStoredImage.
  assert (H : forall url, sameRecords st (stateAfter (checkImageForNSFW env url) st)
              /\ audit_logs (stateAfter (checkImageForNSFW env url) st) = audit_logs st).
  { intros url. rewrite checkImageForNSFW_state. destruct (configured _); by repeat split. }
  destruct v as [[| | | url | | |] |]; try apply H;
    destruct (configured _); by repeat split.
Qed.

(** X14. A manual scan changes no document, whoever calls it and whatever
    the verdict: assets, users, warnings, notifications and auth records are
    as before, and the audit log is as before or longer by one
    [MANUAL_NSFW_SCAN] entry for the asset. *)
Theorem manual_scan_changes_no_document :
  forall (env : Env) (auth : option string) (assetId : string) (st : Store),
    let st' := storeAfter (manualNSFWScan env auth assetId) st in
    sameRecords st st'
    /\ (audit_logs st' = audit_logs st
        \/ exists entry,
             audit_logs st' = audit_logs st ++ [entry]
             /\ entry !! "action" = Some (FStr "MANUAL_NSFW_SCAN")
             /\ entry !! "targetId" = Some (FStr assetId)).
Proof.
  intros env auth assetId st st'. subst st'. unfold storeAfter.
  destruct (manualNSFWScan env auth assetId st) as [st' r] eqn:E. cbn [fst].
  unfold manualNSFWScan, andThen in E.
  destruct auth as [uid |];
    [| inversion E; split; [apply sameRecords_refl | by left]].
  rewrite callerWithRole_run in E.
  destruct (failure env _);
    [inversion E; split; [apply sameRecords_trace | by left] |].
  destruct (hasRole _ _);
    [| inversion E; split; [apply sameRecords_trace | by left]].
  unfold orInternal in E. unfold bind at 1 in E. rewrite getDoc_run in E.
  destruct (failure env _);
    [inversion E; split; [by repeat split | by left] |].
  cbn [keyedDocs assets setTrace] in E.
  destruct (assets st !! assetId) as [asset |];
    [| inversion E; split; [by repeat split | by left]].
  unfold bind at 1 in E.
  match type of E with context [checkStoredImage env ?v ?s] =>
    destruct (checkStoredImage_state env v s) as [S3 L3];
    unfold stateAfter in S3, L3;
    destruct (checkStoredImage env v s) as [st3 [v' | e]]
  end; cbn [fst snd] in *;
    assert (L3' : audit_logs st3 = audit_logs st) by exact L3.
  - unfold bind in E.
    match type of E with context [logAuditAction ?e ?a ?b ?c ?d ?f ?g None st3] =>
      pose proof (logAuditAction_state e a b c d f g st3) as L;
      unfold stateAfter in L;
      destruct (logAuditAction e a b c d f g None st3) as [st4 [i | e']]
    end; cbn [fst snd] in *;
      inversion E; subst; clear E;
      (split; [apply (sameRecords_trans _ st3); [exact S3 | by repeat split] |
               left; exact L3']).
  - inversion E. subst. split; [exact S3 | by left].
Qed.

(** X15. The errors the two functions throw inside their [try] leave with
    the code ['internal'] and their own message.  An error of the lookup
    itself, such as the store's refusal of an id that names no document,
    leaves with the store's message.  For an id that names a document and a
    lookup that goes through, a missing asset answers ['internal'] "Asset
    not found", from the manual scan of an admin and from the recording of a
    download alike; the recording of a download of an asset that is not
    published answers ['internal'] "Asset is not available for download"
    and writes neither the asset nor the audit log. *)
Theorem lookup_errors_leave_as_internal :
  forall (env : Env) (increment : option FieldValue -> FieldValue)
         (uid assetId : string) (st : Store),
    failure env (Call "get" ["users"; uid]) = None ->
    hasRole ["admin"; "founder"] (users st !! uid) = true ->
    let scan := manualNSFWScan env (Some uid) assetId in
    let download := recordAssetDownload env increment (Some uid) assetId in
    (forall e,
        failure env (Call "get" ["assets"; assetId]) = Some e ->
        replyOf scan st = HttpsError "internal" e
        /\ replyOf download st = HttpsError "internal" e)
    /\ (failure env (Call "get" ["assets"; assetId]) = None ->
        usableId assetId = true ->
        assets st !! assetId = None ->
        replyOf scan st = HttpsError "internal" "Asset not found"
        /\ replyOf download st = HttpsError "internal" "Asset not found")
    /\ (forall asset,
          failure env (Call "get" ["assets"; assetId]) = None ->
          assets st !! assetId = Some asset -> isPublished asset = false ->
          replyOf download st
          = HttpsError "internal" "Asset is not available for download"
          /\ assets (storeAfter download st) = assets st
          /\ audit_logs (storeAfter download st) = audit_logs st).
Proof.
  intros env increment uid assetId st Hu Hr scan download. subst scan download.
  split; [| split].
  - intros e Ha. split.
    + unfold replyOf, manualNSFWScan, andThen.
      rewrite callerWithRole_run, Hu, Hr. unfold orInternal, bind.
      rewrite getDoc_run. simpl. by rewrite Ha.
    + unfold replyOf, recordAssetDownload, orInternal, bind.
      rewrite getDoc_run. simpl. by rewrite Ha.
  - intros Ha _ Hd. split.
    + unfold replyOf, manualNSFWScan, andThen.
      rewrite callerWithRole_run, Hu, Hr. unfold orInternal, bind.
      rewrite getDoc_run. simpl. rewrite Ha, Hd. reflexivity.
    + unfold replyOf, recordAssetDownload, orInternal, bind.
      rewrite getDoc_run. simpl. rewrite Ha, Hd. reflexivity.
  - intros asset Ha Hd Hp.
    unfold replyOf, storeAfter, recordAssetDownload, orInternal, bind.
    rewrite getDoc_run. simpl. rewrite Ha, Hd, Hp. by repeat split.
Qed.

(** X16. [recordAssetDownload] never touches users or warnings, and the
    only change it makes to the assets is the increment of [downloads] on an
    asset that exists and is published. *)
Theorem only_published_downloads_are_counted :
  forall (env : Env) (increment : option FieldValue -> FieldValue)
         (auth : option string) (assetId : string) (st : Store),
    let st' := storeAfter (recordAssetDownload env increment auth assetId) st in
    users st' = users st
    /\ warnings st' = warnings st
    /\ (assets st' = assets st
        \/ exists asset,
             assets st !! assetId = Some asset
             /\ isPublished asset = true
             /\ assets st'
                = <[assetId := <["downloads" := increment (asset !! "downloads")]> asset]>
                    (assets st)).
Proof.
  intros env increment auth assetId st st'. subst st'. unfold storeAfter.
  destruct (recordAssetDownload env increment auth assetId st) as [st' r] eqn:E.
  cbn [fst]. unfold recordAssetDownload in E.
  destruct auth as [uid |]; [| inversion E; split; [done | split; [done | by left]]].
  unfold orInternal in E. unfold bind at 1 in E. rewrite getDoc_run in E.
  destruct (failure env _); [inversion E; split; [done | split; [done | by left]] |].
  cbn [keyedDocs assets setTrace] in E.
  destruct (assets st !! assetId) as [asset |] eqn:Hd;
    [| inversion E; split; [done | split; [done | by left]]].
  destruct (isPublished asset) eqn:Hp;
    [| inversion E; split; [done | split; [done | by left]]].
  cbn [negb] in E. unfold bind at 1 in E.
  unfold incrementDownloads, external, emit, bind, ret, throw in E.
  cbn [fst snd assets setTrace] in E.
  destruct (failure env (Call "update" _));
    [inversion E; split; [done | split; [done | by left]] |].
  cbn [assets setTrace] in E. rewrite Hd in E.
  match type of E with context [logAuditAction ?e ?a ?b ?c ?d ?f ?g None ?s] =>
    pose proof (logAuditAction_state e a b c d f g s) as L;
    unfold stateAfter in L;
    destruct (logAuditAction e a b c d f g None s) as [st4 [i | e']]
  end; cbn [fst snd] in *; inversion E; subst; clear E;
    (split; [done | split; [done | right; exists asset; by repeat split]]).
Qed.


(** ** Bans by hand *)

Lemma banUser_nominal codeUnits dateAfter env uid userId reason durationDays st d banUntil :
  nominal env ->
  hasRole ["admin"; "founder"; "support"] (users st !! uid) = true ->
  reason <> EmptyString ->
  (5 <= codeUnits reason)%nat ->
  banUntilDate dateAfter env durationDays = Ok banUntil ->
  users st !! userId = Some d ->
  is_Some (authDisabled st !! userId) ->
  let run := banUser codeUnits dateAfter env (Some uid) userId reason durationDays st in
  run.2 = Returns tt
  /\ users run.1 = <[userId := banRecord reason banUntil ∪ d]> (users st)
  /\ authDisabled run.1 = <[userId := true]> (authDisabled st)
  /\ warnings run.1 = warnings st
  /\ audit_logs run.1 = audit_logs st.
Proof.
  intros Hn Hr Hne Hlen Hb Hd [b Ha] run. subst run.
  unfold banUser, andThen. rewrite callerWithRole_run, Hn, Hr.
  apply String.eqb_neq in Hne. rewrite Hne.
  replace (codeUnits reason <? 5)%nat with false by (symmetry; apply Nat.ltb_ge; lia).
  cbn [orb]. unfold orInternal. unfold bind at 1. unfold lift. rewrite Hb.
  unfold updateDoc, authUpdateUser, addDoc, external, emit, bind, ret, throw.
  rewrite !Hn. cbn [fst snd keyedDocs setKeyedDocs users setTrace setUsers authDisabled].
  rewrite Hd. cbn [fst snd keyedDocs setKeyedDocs users setTrace setUsers authDisabled].
  rewrite Ha. cbn [fst snd]. rewrite logAuditAction_unsent. simpl. done.
Qed.

Lemma unbanUser_denied env uid userId st :
  failure env (Call "get" ["users"; uid]) = None ->
  hasRole ["admin"; "founder"] (users st !! uid) = false ->
  unbanUser env (Some uid) userId st
  = (setTrace (trace st ++ [Call "get" ["users"; uid]]) st,
     HttpsError "permission-denied" "Only admins can unban users").
Proof.
  intros Hf Hr. unfold unbanUser, andThen. by rewrite callerWithRole_run, Hf, Hr.
Qed.

Lemma banRecord_isBanned reason banUntil d :
  (banRecord reason banUntil ∪ d) !! "isBanned" = Some (FBool true).
Proof. by apply lookup_union_Some_l. Qed.

Lemma banRecord_banUntilDate reason banUntil d :
  (banRecord reason banUntil ∪ d) !! "banUntilDate" = Some banUntil.
Proof.
  apply lookup_union_Some_l. unfold banRecord. simpl.
  do 3 (rewrite lookup_insert_ne by done). apply lookup_insert_eq.
Qed.

Lemma banRecord_role reason banUntil d :
  (banRecord reason banUntil ∪ d) !! "role" = d !! "role".
Proof.
  destruct (d !! "role") as [r |] eqn:E.
  - rewrite lookup_union_r; [done |]. unfold banRecord. simpl.
    by repeat (rewrite lookup_insert_ne by done).
  - apply lookup_union_None. split; [| done]. unfold banRecord. simpl.
    by repeat (rewrite lookup_insert_ne by done).
Qed.

(** X17. Support can ban but not unban.  A caller whose role is ['support']
    bans a user with a document and an auth record: the call returns, the
    document says [isBanned] and the login is disabled.  The same caller's
    [unbanUser] is then refused with ['permission-denied'] and changes no
    user document and no auth record. *)
Theorem support_can_ban_but_not_unban :
  forall (codeUnits : string -> nat) (dateAfter : Z -> float -> Outcome Z)
         (env later : Env) (uid userId reason : string) (durationDays : option float)
         (st : Store) (caller d : Doc) (banUntil : FieldValue),
    nominal env ->
    failure later (Call "get" ["users"; uid]) = None ->
    users st !! uid = Some caller ->
    caller !! "role" = Some (FStr "support") ->
    reason <> EmptyString ->
    (5 <= codeUnits reason)%nat ->
    banUntilDate dateAfter env durationDays = Ok banUntil ->
    users st !! userId = Some d ->
    is_Some (authDisabled st !! userId) ->
    let ban := banUser codeUnits dateAfter env (Some uid) userId reason durationDays in
    let st1 := storeAfter ban st in
    let unban := unbanUser later (Some uid) userId in
    let st2 := storeAfter unban st1 in
    replyOf ban st = Returns tt
    /\ stored (users st1) userId "isBanned" = Some (FBool true)
    /\ authDisabled st1 !! userId = Some true
    /\ replyOf unban st1 = HttpsError "permission-denied" "Only admins can unban users"
    /\ users st2 = users st1
    /\ authDisabled st2 = authDisabled st1.
Proof.
  intros codeUnits dateAfter env later uid userId reason durationDays st caller d banUntil
    Hn Hf Hc Hrole Hne Hlen Hb Hd Ha ban st1 unban st2.
  assert (Hr : hasRole ["admin"; "founder"; "support"] (users st !! uid) = true).
  { unfold hasRole. rewrite Hc. simpl. rewrite Hrole. by vm_compute. }
  destruct (banUser_nominal codeUnits dateAfter env uid userId reason durationDays st d
              banUntil Hn Hr Hne Hlen Hb Hd Ha) as (R & U & A & _ & _).
  fold ban in R, U, A. fold (storeAfter ban st) in U, A. fold st1 in U, A.
  assert (Hr1 : hasRole ["admin"; "founder"] (users st1 !! uid) = false).
  { unfold hasRole. rewrite U.
    destruct (decide (uid = userId)) as [-> | Hneq].
    - rewrite lookup_insert_eq. simpl. rewrite banRecord_role.
      rewrite Hd in Hc. inversion Hc. subst caller. rewrite Hrole.
      by vm_compute.
    - rewrite lookup_insert_ne by done. rewrite Hc. simpl. rewrite Hrole.
      by vm_compute. }
  pose proof (unbanUser_denied later uid userId st1 Hf Hr1) as D.
  repeat apply conj.
  - exact R.
  - rewrite U, stored_insert. apply banRecord_isBanned.
  - by rewrite A, lookup_insert_eq.
  - unfold replyOf, unban. by rewrite D.
  - unfold st2, storeAfter, unban. by rewrite D.
  - unfold st2, storeAfter, unban. by rewrite D.
Qed.

Lemma sweeps_keep envs st v d :
  users st !! v = Some d ->
  Forall (fun env => notDue env d) envs ->
  users (sweeps envs st) !! v = Some d
  /\ authDisabled (sweeps envs st) !! v = authDisabled st !! v.
Proof.
  revert st. induction envs as [| env envs IH]; intros st Hd Hn; [done |].
  apply Forall_cons in Hn as [Hn Hns].
  destruct (checkExpiredBans_keeps env st v d Hd Hn) as [U A].
  destruct (IH (stateAfter (checkExpiredBans env) st) U Hns) as [U' A'].
  split; [exact U' |]. by rewrite <- A.
Qed.

(** X18. A ban by hand without a duration ([durationDays] absent, zero or
    NaN) stores [banUntilDate: null], and no sequence of sweeps, at whatever
    times and in whatever environments, changes the user's document or
    enables the login again. *)
Theorem ban_without_duration_is_never_lifted :
  forall (codeUnits : string -> nat) (dateAfter : Z -> float -> Outcome Z)
         (env : Env) (uid userId reason : string) (durationDays : option float)
         (st : Store) (d : Doc) (sweepEnvs : list Env),
    nominal env ->
    hasRole ["admin"; "founder"; "support"] (users st !! uid) = true ->
    reason <> EmptyString ->
    (5 <= codeUnits reason)%nat ->
    withoutDuration durationDays ->
    users st !! userId = Some d ->
    is_Some (authDisabled st !! userId) ->
    let st1 :=
      storeAfter (banUser codeUnits dateAfter env (Some uid) userId reason durationDays) st in
    let st2 := sweeps sweepEnvs st1 in
    stored (users st1) userId "banUntilDate" = Some FNull
    /\ users st2 !! userId = users st1 !! userId
    /\ stored (users st2) userId "isBanned" = Some (FBool true)
    /\ authDisabled st2 !! userId = Some true.
Proof.
  intros codeUnits dateAfter env uid userId reason durationDays st d sweepEnvs
    Hn Hr Hne Hlen Hw Hd Ha st1 st2.
  assert (Hb : banUntilDate dateAfter env durationDays = Ok FNull).
  { unfold banUntilDate. destruct durationDays as [days |]; [| done].
    change (truthy (Some (JNum days)) = false) in Hw. by rewrite Hw. }
  destruct (banUser_nominal codeUnits dateAfter env uid userId reason durationDays st d
              FNull Hn Hr Hne Hlen Hb Hd Ha) as (_ & U & A & _ & _).
  fold (storeAfter (banUser codeUnits dateAfter env (Some uid) userId reason durationDays) st)
    in U, A.
  fold st1 in U, A.
  assert (U1 : users st1 !! userId = Some (banRecord reason FNull ∪ d))
    by (by rewrite U, lookup_insert_eq).
  destruct (sweeps_keep sweepEnvs st1 userId _ U1) as [U2 A2].
  { apply Forall_forall. intros sweepEnv _. right. intros t Ht.
    rewrite banRecord_banUntilDate in Ht. discriminate. }
  fold st2 in U2, A2. repeat apply conj.
  - unfold stored. rewrite U1. simpl. apply banRecord_banUntilDate.
  - by rewrite U2, U1.
  - unfold stored. rewrite U2. simpl. apply banRecord_isBanned.
  - by rewrite A2, A, lookup_insert_eq.
Qed.

(** X19. A ban by hand with a duration stores the date the engine computes;
    a sweep whose clock is not past that date leaves the user banned and
    disabled, and a sweep whose clock is past it, in an environment that
    lets every call through, restores the user. *)
Theorem dated_ban_is_lifted_once_past :
  forall (codeUnits : string -> nat) (dateAfter : Z -> float -> Outcome Z)
         (env sweepEnv : Env) (uid userId reason : string) (days : float) (banUntil : Z)
         (st : Store) (d : Doc),
    nominal env ->
    hasRole ["admin"; "founder"; "support"] (users st !! uid) = true ->
    reason <> EmptyString ->
    (5 <= codeUnits reason)%nat ->
    truthy (Some (JNum days)) = true ->
    dateAfter (dateNow env) days = Ok banUntil ->
    users st !! userId = Some d ->
    is_Some (authDisabled st !! userId) ->
    let st1 :=
      storeAfter (banUser codeUnits dateAfter env (Some uid) userId reason (Some days)) st in
    let st2 := stateAfter (checkExpiredBans sweepEnv) st1 in
    stored (users st1) userId "banUntilDate" = Some (FDate banUntil)
    /\ ((dateNow sweepEnv <= banUntil)%Z ->
        users st2 !! userId = users st1 !! userId
        /\ authDisabled st2 !! userId = Some true)
    /\ ((banUntil < dateNow sweepEnv)%Z ->
        nominal sweepEnv ->
        Forall (fun doc => is_Some (authDisabled st1 !! doc.1)) (expired sweepEnv st1) ->
        stored (users st2) userId "isBanned" = Some (FBool false)
        /\ stored (users st2) userId "banUntilDate" = Some FNull
        /\ authDisabled st2 !! userId = Some false).
Proof.
  intros codeUnits dateAfter env sweepEnv uid userId reason days banUntil st d
    Hn Hr Hne Hlen Ht Hdate Hd Ha st1 st2.
  assert (Hb : banUntilDate dateAfter env (Some days) = Ok (FDate banUntil)).
  { unfold banUntilDate. by rewrite Ht, Hdate. }
  destruct (banUser_nominal codeUnits dateAfter env uid userId reason (Some days) st d
              (FDate banUntil) Hn Hr Hne Hlen Hb Hd Ha) as (_ & U & A & _ & _).
  fold (storeAfter (banUser codeUnits dateAfter env (Some uid) userId reason (Some days)) st)
    in U, A.
  fold st1 in U, A.
  assert (U1 : users st1 !! userId = Some (banRecord reason (FDate banUntil) ∪ d))
    by (by rewrite U, lookup_insert_eq).
  repeat apply conj.
  - unfold stored. rewrite U1. simpl. apply banRecord_banUntilDate.
  - intros Hle.
    destruct (checkExpiredBans_keeps sweepEnv st1 userId _ U1) as [U2 A2].
    { right. intros t E. rewrite banRecord_banUntilDate in E. inversion E. by subst t. }
    fold st2 in U2, A2. split; [by rewrite U2, U1 |].
    by rewrite A2, A, lookup_insert_eq.
  - intros Hlt Hsn Hauth.
    destruct (checkExpiredBans_nominal sweepEnv st1 Hsn Hauth) as (F & _ & _).
    fold st2 in F.
    assert (Hin : (userId, banRecord reason (FDate banUntil) ∪ d) ∈ expired sweepEnv st1).
    { apply expired_elem. split; [exact U1 |].
      unfold matches, expiredBans. simpl.
      rewrite banRecord_isBanned, banRecord_banUntilDate. simpl.
      replace (banUntil <? dateNow sweepEnv)%Z with true
        by (symmetry; by apply Z.ltb_lt).
      done. }
    apply (proj1 (Forall_forall _ _) F) in Hin as [U2 A2]. cbn [fst snd] in *.
    repeat apply conj; [| | exact A2]; unfold stored; rewrite U2; simpl;
      by apply lookup_union_Some_l.
Qed.


(** ** The alerts of the audit module *)

Lemma queryAuditLogs_run env actorId field value from st :
  queryAuditLogs env actorId field value from st
  = (setTrace (trace st ++ [Call "get" ["audit_logs"; actorId; field; value; pretty from]]) st,
     match failure env (Call "get" ["audit_logs"; actorId; field; value; pretty from]) with
     | Some e => Throw e
     | None => Ok (entriesOf actorId field value from (audit_logs st))
     end).
Proof.
  unfold queryAuditLogs, external, emit, bind, ret, throw. simpl.
  by destruct (failure env _).
Qed.



Section Alerts.
Local Arguments Nat.leb : simpl never.
Local Arguments Nat.ltb : simpl never.

End Alerts.

(** The answer of the check is made from the audit log alone. *)
Lemma checkSuspiciousActivity_log env userId st st' :
  audit_logs st' = audit_logs st ->
  outcomeOf (checkSuspiciousActivity env userId) st'
  = outcomeOf (checkSuspiciousActivity env userId) st.
Proof.
  intros H. unfold outcomeOf, checkSuspiciousActivity, try_catch.
  unfold bind at 1 4. rewrite !queryAuditLogs_run.
  destruct (failure env _); [reflexivity |].
  cbv beta iota. cbn [audit_logs setTrace]. rewrite H.
  unfold bind at 1 3. rewrite !queryAuditLogs_run.
  destruct (failure env _); [reflexivity |].
  cbv beta iota. cbn [audit_logs setTrace]. rewrite H.
  unfold bind at 1 2. rewrite !queryAuditLogs_run.
  destruct (failure env _); [reflexivity |].
  cbv beta iota. cbn [audit_logs setTrace]. by rewrite H.
Qed.

Section Feeds.
Local Arguments Nat.leb : simpl never.
Local Arguments Nat.ltb : simpl never.

(** X21. The handlers never reach the alerts.  Every audit entry that
    [onAssetUploaded], [createWarning] and [checkExpiredBans] ask for carries
    an [undefined] user agent and is refused, so a run of any of them, in
    any environment, leaves the audit log as it was, and the answer of
    [checkSuspiciousActivity], for any user at any time, is the same after
    the run as before it.  On an empty log that answer is "not suspicious":
    no number of flagged rejections makes the check report a user. *)
Theorem handlers_never_reach_the_alerts :
  forall (env later : Env) (userId : string) (st : Store),
    let answer := outcomeOf (checkSuspiciousActivity later userId) in
    (forall assetId asset,
        let st' := stateAfter (onAssetUploaded env assetId asset) st in
        audit_logs st' = audit_logs st /\ answer st' = answer st)
    /\ (forall target reason message evidence,
          let st' := stateAfter (createWarning env target reason message evidence) st in
          audit_logs st' = audit_logs st /\ answer st' = answer st)
    /\ (let st' := stateAfter (checkExpiredBans env) st in
        audit_logs st' = audit_logs st /\ answer st' = answer st)
    /\ (audit_logs st = [] -> answer st = Ok {| suspicious := false; alerts := [] |}).
Proof.
  intros env later userId st answer.
  assert (Hsame : forall st', audit_logs st' = audit_logs st ->
            audit_logs st' = audit_logs st /\ answer st' = answer st).
  { intros st' H. split; [exact H | by apply checkSuspiciousActivity_log]. }
  split; [| split; [| split]].
  - intros assetId asset. apply Hsame, unaudited_keeps, onAssetUploaded_unaudited.
  - intros target reason message evidence.
    apply Hsame, unaudited_keeps, createWarning_unaudited.
  - apply Hsame, unaudited_keeps, checkExpiredBans_unaudited.
  - intros Hempty. unfold answer, outcomeOf, checkSuspiciousActivity, try_catch.
    unfold bind at 1. rewrite queryAuditLogs_run.
    destruct (failure later _); [reflexivity |].
    cbv beta iota. cbn [audit_logs setTrace]. rewrite Hempty.
    unfold bind at 1. rewrite queryAuditLogs_run.
    destruct (failure later _); [reflexivity |].
    cbv beta iota. cbn [audit_logs setTrace]. rewrite Hempty.
    unfold bind at 1. rewrite queryAuditLogs_run.
    destruct (failure later _); [reflexivity |].
    cbv beta iota. cbn [audit_logs setTrace]. rewrite Hempty. reflexivity.
Qed.
End Feeds.

(** ** The rate limiter *)

Section Limiting.
Import RateLimit.
Local Open Scope Z_scope.

Lemma counted_open w now key store entry :
  store !! key = Some entry -> now <= resetTime entry ->
  counted w now key store = mkEntry (count entry + 1) (resetTime entry).
Proof.
  intros H Hn. unfold counted. rewrite H.
  by replace (now >? resetTime entry) with false by (symmetry; rewrite Z.gtb_ltb; apply Z.ltb_ge; lia).
Qed.

Lemma counted_new w now key store :
  (forall entry, store !! key = Some entry -> resetTime entry < now) ->
  counted w now key store = mkEntry 1 (now + w).
Proof.
  intros H. unfold counted. destruct (store !! key) as [entry |]; [| done].
  specialize (H entry eq_refl).
  by replace (now >? resetTime entry) with true by (symmetry; apply Z.gtb_lt; lia).
Qed.

Lemma createLimiter_passed w m keyGen env req store :
  passed (createLimiter w m keyGen env req store).2 = true
  <-> count (counted w (dateNow env) (keyGen req) store) <= m.
Proof.
  unfold createLimiter. cbn [snd].
  destruct (count _ >? m) eqn:E; cbn [passed].
  - apply Z.gtb_lt in E. split; [done | lia].
  - split; [| done]. intros _. rewrite Z.gtb_ltb in E. apply Z.ltb_ge in E. lia.
Qed.

Lemma serve_open calls req store c t :
  store !! defaultKey req = Some (mkEntry c t) ->
  Forall (fun call => dateNow call.2 <= t) calls ->
  (serve calls req store).1 !! defaultKey req
  = Some (mkEntry (c + Z.of_nat (length calls)) t)
  /\ forall i call,
       calls !! i = Some call ->
       exists reply,
         (serve calls req store).2 !! i = Some reply
         /\ (passed reply = true <-> c + Z.of_nat i + 1 <= call.1.2).
Proof.
  revert store c. induction calls as [| [[w m] env] calls IH]; intros store c Hs Hc.
  - simpl. rewrite Z.add_0_r. split; [done | by intros i call].
  - apply Forall_cons in Hc as [Hnow Hc]. cbn [snd] in Hnow.
    pose proof (counted_open w (dateNow env) (defaultKey req) store _ Hs Hnow) as E.
    cbn [count resetTime] in E.
    pose proof (createLimiter_passed w m defaultKey env req store) as P.
    rewrite E in P. cbn [count] in P.
    assert (S1 : (createLimiter w m defaultKey env req store).1 !! defaultKey req
                 = Some (mkEntry (c + 1) t)).
    { unfold createLimiter. cbn [fst]. by rewrite lookup_insert_eq, E. }
    cbn [serve]. destruct (createLimiter w m defaultKey env req store) as [store1 reply].
    cbn [fst snd] in *.
    destruct (IH store1 (c + 1) S1 Hc) as [F R].
    destruct (serve calls req store1) as [store2 replies]. cbn [fst snd] in *.
    split.
    + rewrite F. do 2 f_equal. cbn [length]. lia.
    + intros [| i] call Hi; simpl in Hi.
      * inversion Hi. subst call. exists reply. split; [done |]. cbn [fst snd].
        rewrite P. lia.
      * destruct (R i call Hi) as (r & Hr & Hp). exists r. split; [done |].
        rewrite Hp. lia.
Qed.

(** X22. The limiters built with the default key share one counter per
    address.  From a first request that opens a window, the requests of one
    address that arrive within that window are counted together whatever
    limiter each of them goes through: the request number [i + 1] passes
    exactly when [i + 1] is at most the maximum of its own limiter, and the
    entry ends with the number of requests and the reset time of the first
    one's window. *)
Theorem one_counter_per_address :
  forall (req : Request) (store : Limits) (windowMs maxRequests : Z) (env : Env)
         (later : list (Z * Z * Env)),
    let key := defaultKey req in
    let calls := (windowMs, maxRequests, env) :: later in
    (forall entry, store !! key = Some entry -> resetTime entry < dateNow env) ->
    Forall (fun call => dateNow call.2 <= dateNow env + windowMs) later ->
    (serve calls req store).1 !! key
    = Some (mkEntry (Z.of_nat (length calls)) (dateNow env + windowMs))
    /\ forall i call,
         calls !! i = Some call ->
         exists reply,
           (serve calls req store).2 !! i = Some reply
           /\ (passed reply = true <-> Z.of_nat i + 1 <= call.1.2).
Proof.
  intros req store w m env later key calls Hnew Hlater. subst calls.
  pose proof (counted_new w (dateNow env) key store Hnew) as E.
  pose proof (createLimiter_passed w m defaultKey env req store) as P.
  fold key in P. rewrite E in P. cbn [count] in P.
  assert (S1 : (createLimiter w m defaultKey env req store).1 !! key
               = Some (mkEntry 1 (dateNow env + w))).
  { unfold createLimiter. cbn [fst]. fold key. by rewrite lookup_insert_eq, E. }
  cbn [serve]. destruct (createLimiter w m defaultKey env req store) as [store1 reply].
  cbn [fst snd] in *.
  destruct (serve_open later req store1 1 (dateNow env + w) S1 Hlater) as [F R].
  destruct (serve later req store1) as [store2 replies]. cbn [fst snd] in *.
  split.
  - fold key in F. rewrite F. do 2 f_equal. cbn [length]. lia.
  - intros [| i] call Hi; simpl in Hi.
    + inversion Hi. subst call. exists reply. split; [done |]. cbn [fst snd].
      rewrite P. lia.
    + destruct (R i call Hi) as (r & Hr & Hp). exists r. split; [done |].
      rewrite Hp. lia.
Qed.

Lemma cleanup_lookup env store key :
  cleanupRateLimitStore env store !! key
  = match store !! key with
    | Some entry => if bool_decide (dateNow env > resetTime entry + 60000) then None
                    else Some entry
    | None => None
    end.
Proof.
  unfold cleanupRateLimitStore. rewrite map_lookup_filter.
  destruct (store !! key) as [entry |]; simpl; [| done].
  case_bool_decide; by rewrite option_guard_decide; case_decide; cbn [snd] in *; try lia.
Qed.

(** X23. The cleanup changes no decision.  A request handled after a
    cleanup gets the reply it would have got without it and leaves the same
    entry for its key; the cleanup only removes entries, and keeps every
    entry whose window ended at most a minute before. *)
Theorem cleanup_changes_no_decision :
  forall (env later : Env) (windowMs maxRequests : Z) (keyGenerator : Request -> string)
         (req : Request) (store : Limits),
    dateNow env <= dateNow later ->
    let cleaned := cleanupRateLimitStore env store in
    let key := keyGenerator req in
    (createLimiter windowMs maxRequests keyGenerator later req cleaned).2
    = (createLimiter windowMs maxRequests keyGenerator later req store).2
    /\ (createLimiter windowMs maxRequests keyGenerator later req cleaned).1 !! key
       = (createLimiter windowMs maxRequests keyGenerator later req store).1 !! key
    /\ (forall k entry, cleaned !! k = Some entry -> store !! k = Some entry)
    /\ (forall k entry, store !! k = Some entry ->
          dateNow env <= resetTime entry + 60000 -> cleaned !! k = Some entry).
Proof.
  intros env later w m keyGen req store Hle cleaned key.
  assert (E : counted w (dateNow later) key cleaned = counted w (dateNow later) key store).
  { unfold counted, cleaned. rewrite cleanup_lookup.
    destruct (store !! key) as [entry |]; [| done].
    case_bool_decide; [| done].
    by replace (dateNow later >? resetTime entry) with true
      by (symmetry; apply Z.gtb_lt; lia). }
  repeat apply conj.
  - unfold createLimiter. cbn [snd]. fold key. by rewrite E.
  - unfold createLimiter. cbn [fst]. fold key. by rewrite !lookup_insert_eq, E.
  - intros k entry. unfold cleaned. rewrite cleanup_lookup.
    destruct (store !! k) as [e |]; [| done]. by case_bool_decide.
  - intros k entry Hk Hn. unfold cleaned. rewrite cleanup_lookup, Hk.
    case_bool_decide; [lia | done].
Qed.
End Limiting.


(** ** The earlier handler *)

(** X24. The earlier handler is less guarded than the current one.  The
    current one returns normally whatever happens.  For an asset without an
    image URL the earlier one returns without any call, leaving the asset
    ['uploading'], where the current one starts with a rejecting update.
    And when the adapter throws and the store refuses the fail-safe update,
    the earlier one throws that error. *)
Theorem earlier_handler_is_less_guarded :
  forall (check : string -> M Earlier.Verdict) (toField : JsVal -> FieldValue)
         (env : Env) (assetId : string) (asset : Asset) (st : Store),
    status asset = "uploading" ->
    let earlier := EarlierHandler.onAssetUploaded check toField env assetId asset in
    let current := onAssetUploaded env assetId asset in
    outcomeOf current st = Ok tt
    /\ (presentUrl asset = None ->
        earlier st = (st, Ok tt)
        /\ head (opsDuring current st)
           = Some (DocUpdate Assets assetId
                     (rejection "No image provided for verification" [])))
    /\ (forall url st1 st2 e e',
          presentUrl asset = Some url ->
          check url st = (st1, Throw e) ->
          updateDoc env Assets assetId
            (rejection "Upload verification failed. Please try again." []) st1
          = (st2, Throw e') ->
          earlier st = (st2, Throw e')).
Proof.
  intros check toField env assetId asset st Hs earlier current. repeat apply conj.
  - unfold current, onAssetUploaded. rewrite Hs. simpl.
    apply try_catch_returns. intros e s. apply failSafe_returns.
  - intros Hu. split.
    + unfold earlier, EarlierHandler.onAssetUploaded. by rewrite Hs, Hu.
    + unfold current, opsDuring, stateAfter, onAssetUploaded, verify.
      rewrite Hs, Hu. simpl.
      unfold try_catch, updateDoc, external, emit, bind, ret, throw. simpl.
      destruct (failure env _); simpl.
      * unfold failSafe, try_catch, updateDoc, external, emit, bind, ret, throw. simpl.
        destruct (failure env _); simpl; [| destruct (assets st !! assetId); simpl];
          rewrite <- !app_assoc, !drop_app_length; reflexivity.
      * destruct (assets st !! assetId); simpl.
        -- by rewrite !drop_app_length.
        -- unfold failSafe, try_catch, updateDoc, external, emit, bind, ret, throw. simpl.
           destruct (failure env _); simpl; [| destruct (assets st !! assetId); simpl];
             rewrite <- !app_assoc, !drop_app_length; reflexivity.
  - intros url st1 st2 e e' Hu Hc Hup.
    unfold earlier, EarlierHandler.onAssetUploaded. rewrite Hs, Hu. simpl.
    unfold try_catch. unfold bind at 1. by rewrite Hc.
Qed.


(** ** The download proxy *)

Section Proxy.
Import Download.
Context (encodeURIComponent : string -> string) (codeUnits : string -> nat)
        (contentTypeOf : string -> option string).

Lemma verifyAsset_run env filePath st :
  verifyAsset env filePath st
  = if negb (String.prefix "assets/" filePath) then (st, Ok None)
    else
      match RateLimit.given (split "/" filePath !! 1%nat) with
      | None => (st, Ok (Some (Json 400 "Invalid asset path" None)))
      | Some assetId =>
          (setTrace (trace st ++ [Call "get" ["assets"; assetId]]) st,
           match failure env (Call "get" ["assets"; assetId]) with
           | Some e => Throw e
           | None =>
               match assets st !! assetId with
               | None => Ok (Some (Json 404 "File not found" (Some "OBJECT_NOT_FOUND")))
               | Some asset =>
                   if negb (isPublished asset) then
                     Ok (Some (Json 403 "Asset is not available for download"
                                 (Some "FORBIDDEN")))
                   else Ok None
               end
           end)
      end.
Proof.
  unfold verifyAsset. destruct (negb _); [done |].
  destruct (RateLimit.given _) as [assetId |]; [| done].
  unfold bind. rewrite getDoc_run. destruct (failure env _); [done |].
  cbn [keyedDocs]. destruct (assets st !! assetId) as [asset |]; [| done].
  by destruct (negb _).
Qed.

Lemma deliver_run env filePath fileName st :
  exists o : Outcome Reply,
    deliver encodeURIComponent contentTypeOf env filePath fileName st
    = (setTrace (trace st ++ [Fetch (storageUrl encodeURIComponent filePath) EmptyString])
         st, o).
Proof.
  unfold deliver, bind, fetch, emit, bind, ret, throw. cbn [fst snd].
  destruct (http env _ _) as [m | code body]; cbn [fst snd]; [by eexists |].
  destruct (negb (responseOk code)).
  - destruct (code =? 404)%Z; [| destruct (code =? 403)%Z]; by eexists.
  - destruct (negb (existsb _ _)); [by eexists |]. destruct (_ <? _)%Z; by eexists.
Qed.

(** The ways a run of the proxy goes: it answers before asking the storage,
    after at most one read of the store and never with the file; or the path
    is a checked one and the last call of the run is the request for it. *)
Lemma handleDownload_run env filePath fileName st :
  let m := handleDownload encodeURIComponent codeUnits contentTypeOf env filePath fileName in
  exists ops reply,
    m st = (setTrace (trace st ++ ops) st, Ok reply)
    /\ ((Forall (fun op => isFetch op = false) ops
         /\ forall contentType disposition n body,
              reply <> File contentType disposition n body)
        \/ exists p pre,
             RateLimit.given filePath = Some p
             /\ checkedPath p st
             /\ ops = pre ++ [Fetch (storageUrl encodeURIComponent p) EmptyString]
             /\ Forall (fun op => isFetch op = false) pre).
Proof.
  intros m. subst m. unfold handleDownload, try_catch.
  assert (Q : forall (r : Reply),
            (forall contentType disposition n body,
               r <> File contentType disposition n body) ->
            exists ops reply,
              (st, Ok r) = (setTrace (trace st ++ ops) st, Ok reply)
              /\ ((Forall (fun op => isFetch op = false) ops
                   /\ forall contentType disposition n body,
                        reply <> File contentType disposition n body)
                  \/ exists p pre,
                       RateLimit.given filePath = Some p
                       /\ checkedPath p st
                       /\ ops = pre ++ [Fetch (storageUrl encodeURIComponent p) EmptyString]
                       /\ Forall (fun op => isFetch op = false) pre)).
  { intros r Hr. exists [], r. split.
    - rewrite app_nil_r. by destruct st.
    - left. by split. }
  destruct (RateLimit.given filePath) as [p |] eqn:Hp; [| by apply Q].
  destruct (traverses p) eqn:Ht; [by apply Q |].
  destruct (inAllowedFolder p) eqn:Ha; [| by apply Q]. cbn [negb].
  unfold bind at 1. rewrite verifyAsset_run.
  assert (D : forall pre st1,
            st1 = setTrace (trace st ++ pre) st ->
            Forall (fun op => isFetch op = false) pre ->
            checkedPath p st ->
            exists ops reply,
              match
                match RateLimit.given fileName with
                | Some name =>
                    if (255 <? codeUnits name)%nat
                    then ret (Json 400 "Filename too long" None)
                    else deliver encodeURIComponent contentTypeOf env p fileName
                | None => deliver encodeURIComponent contentTypeOf env p fileName
                end st1
              with
              | (st', Throw e) =>
                  ret (Failed (if String.eqb e EmptyString then "Unknown error" else e)) st'
              | r => r
              end = (setTrace (trace st ++ ops) st, Ok reply)
              /\ ((Forall (fun op => isFetch op = false) ops
                   /\ forall contentType disposition n body,
                        reply <> File contentType disposition n body)
                  \/ exists p0 pre0,
                       Some p = Some p0
                       /\ checkedPath p0 st
                       /\ ops = pre0 ++ [Fetch (storageUrl encodeURIComponent p0) EmptyString]
                       /\ Forall (fun op => isFetch op = false) pre0)).
  { intros pre st1 -> Hpre Hc.
    assert (Dl : exists ops reply,
              match deliver encodeURIComponent contentTypeOf env p fileName
                      (setTrace (trace st ++ pre) st) with
              | (st', Throw e) =>
                  ret (Failed (if String.eqb e EmptyString then "Unknown error" else e)) st'
              | r => r
              end = (setTrace (trace st ++ ops) st, Ok reply)
              /\ exists p0 pre0,
                   Some p = Some p0
                   /\ checkedPath p0 st
                   /\ ops = pre0 ++ [Fetch (storageUrl encodeURIComponent p0) EmptyString]
                   /\ Forall (fun op => isFetch op = false) pre0).
    { destruct (deliver_run env p fileName (setTrace (trace st ++ pre) st)) as [o ->].
      exists (pre ++ [Fetch (storageUrl encodeURIComponent p) EmptyString]).
      destruct o as [r | e]; eexists;
        (split; [unfold ret; cbn; by rewrite <- app_assoc | by exists p, pre]). }
    destruct (RateLimit.given fileName) as [name |].
    - destruct (255 <? codeUnits name)%nat.
      + exists pre. eexists. split; [reflexivity |]. left. by split.
      + destruct Dl as (ops & reply & E & H). exists ops, reply. split; [exact E | by right].
    - destruct Dl as (ops & reply & E & H). exists ops, reply. split; [exact E | by right]. }
  destruct (String.prefix "assets/" p) eqn:Hpre; cbn [negb].
  - destruct (RateLimit.given (split "/" p !! 1%nat)) as [assetId |] eqn:Hid;
      [| by apply Q].
    destruct (failure env _).
    + eexists [_]. eexists. split; [reflexivity |]. left. split; [by repeat constructor | done].
    + destruct (assets st !! assetId) as [asset |] eqn:Hd.
      * destruct (isPublished asset) eqn:Hpub; cbn [negb].
        -- apply (D [Call "get" ["assets"; assetId]]);
             [reflexivity | by repeat constructor |].
           split; [done | split; [done |]]. intros _. exists assetId, asset.
           split; [| done]. unfold RateLimit.given in Hid.
           destruct (split "/" p !! 1%nat) as [s |]; [| done].
           destruct (String.eqb s EmptyString); by inversion Hid.
        -- eexists [_]. eexists. split; [reflexivity |]. left.
           split; [by repeat constructor | done].
      * eexists [_]. eexists. split; [reflexivity |]. left.
        split; [by repeat constructor | done].
  - apply (D []); [rewrite app_nil_r; by destruct st | constructor |].
    split; [done | split; [done |]]. intros H. congruence.
Qed.

(** X25. The proxy asks the storage for checked paths only.  In every
    environment [handleDownload] answers (it never throws), writes no
    document, auth record or audit entry, and sends at most one request.
    When it sends one, or answers with the file, the path has no [..], no
    leading slash and no backslash, lies under [assets/] or [temp/], and
    under [assets/] its second segment names a published asset; the request
    is the last call of the run, to the storage URL of that path. *)
Theorem proxy_asks_storage_for_checked_paths_only :
  forall (env : Env) (filePath fileName : option string) (st : Store),
    let m := handleDownload encodeURIComponent codeUnits contentTypeOf env filePath fileName in
    let st' := stateAfter m st in
    (exists reply, outcomeOf m st = Ok reply)
    /\ sameRecords st st'
    /\ audit_logs st' = audit_logs st
    /\ (count isFetch (opsDuring m st) <= 1)%nat
    /\ (count isFetch (opsDuring m st) = 1%nat
        \/ (exists contentType disposition n body,
              outcomeOf m st = Ok (File contentType disposition n body)) ->
        exists p,
          RateLimit.given filePath = Some p
          /\ checkedPath p st
          /\ last (opsDuring m st)
             = Some (Fetch (storageUrl encodeURIComponent p) EmptyString)).
Proof.
  intros env filePath fileName st m st'.
  destruct (handleDownload_run env filePath fileName st) as (ops & reply & E & H).
  fold m in E.
  assert (Es : st' = setTrace (trace st ++ ops) st) by (unfold st', stateAfter; by rewrite E).
  assert (Eo : opsDuring m st = ops).
  { apply opsDuring_trace. fold st'. by rewrite Es. }
  assert (Er : outcomeOf m st = Ok reply) by (unfold outcomeOf; by rewrite E).
  rewrite Eo, Er. split; [| split; [| split; [| split]]].
  - by exists reply.
  - rewrite Es. by repeat split.
  - by rewrite Es.
  - destruct H as [[F _] | (p & pre & _ & _ & -> & F)].
    + rewrite (count_none _ _ F). lia.
    + rewrite count_app, (count_none _ _ F). cbn. lia.
  - intros Hf. destruct H as [[F Hr] | (p & pre & Hp & Hc & -> & F)].
    + exfalso. destruct Hf as [Hf | (ct & d & n & b & Hf)].
      * rewrite (count_none _ _ F) in Hf. discriminate.
      * inversion Hf. by apply (Hr ct d n b).
    + exists p. split; [exact Hp | split; [exact Hc |]]. apply last_snoc.
Qed.
End Proxy.


(** * More closed examples *)

(** An upload without an image URL: the run only asks for rejections. *)
Lemma unusable_url_rejects_without_request_witness :
  let asset := Bench.upload "Realistic Camera Rig" None in
  unusableUrl Bench.env asset = Some "No image provided for verification"
  /\ Forall (rejectingUpdate "a1") (opsDuring (onAssetUploaded Bench.env "a1" asset) Bench.store).
Proof.
  cbv zeta. split; [reflexivity |].
  apply (unusable_url_rejects_without_request Bench.env "a1"
           (Bench.upload "Realistic Camera Rig" None)
           "No image provided for verification" Bench.store eq_refl eq_refl).
Defined.

(** A clean image: the asset is published and the author is not warned. *)
Lemma clean_verdict_publishes_witness :
  let m := onAssetUploaded Bench.env "a1"
             (Bench.upload "Realistic Camera Rig" (Some "https://valid/img.png")) in
  stored (assets (stateAfter m Bench.store)) "a1" "status" = Some (FStr "published")
  /\ count warningCall (opsDuring m Bench.store) = 0%nat
  /\ count publishedAudit (opsDuring m Bench.store) = 1%nat.
Proof.
  pose proof
    (clean_verdict_publishes Bench.env "a1"
       (Bench.upload "Realistic Camera Rig" (Some "https://valid/img.png"))
       "https://valid/img.png" Bench.store
       (stateAfter (checkImageForNSFW Bench.env "https://valid/img.png") Bench.store)
       (stateAfter
          (updateDoc Bench.env Assets "a1"
             (publication {| isNSFW := false; confidence := 0.1;
                             reason := "[safe] product photo" |}))
          (stateAfter (checkImageForNSFW Bench.env "https://valid/img.png") Bench.store))
       {| isNSFW := false; confidence := 0.1; reason := "[safe] product photo" |}
       eq_refl eq_refl eq_refl) as H.
  destruct H as (_ & H2 & _ & _ & H5 & H6 & _).
  - vm_compute. reflexivity.
  - reflexivity.
  - vm_compute. reflexivity.
  - cbv zeta. split; [exact H2 | split; [exact H5 | exact H6]].
Defined.

(** A clean image for an asset whose document is gone: the publishing update
    is refused, and so is the rejection. *)
Lemma refused_publication_rejects_witness :
  let m := onAssetUploaded Bench.env "a1"
             (Bench.upload "Realistic Camera Rig" (Some "https://valid/img.png")) in
  omap statusWritten (opsDuring m Sweep.store) = [FStr "published"; FStr "rejected"].
Proof.
  pose proof
    (refused_publication_rejects Bench.env "a1"
       (Bench.upload "Realistic Camera Rig" (Some "https://valid/img.png"))
       "https://valid/img.png" Sweep.store
       (stateAfter (checkImageForNSFW Bench.env "https://valid/img.png") Sweep.store)
       (stateAfter
          (updateDoc Bench.env Assets "a1"
             (publication {| isNSFW := false; confidence := 0.1;
                             reason := "[safe] product photo" |}))
          (stateAfter (checkImageForNSFW Bench.env "https://valid/img.png") Sweep.store))
       {| isNSFW := false; confidence := 0.1; reason := "[safe] product photo" |}
       "5 NOT_FOUND: No document to update: a1"
       eq_refl eq_refl eq_refl) as H.
  destruct H as (H1 & _).
  - vm_compute. reflexivity.
  - reflexivity.
  - vm_compute. reflexivity.
  - cbv zeta. rewrite H1. reflexivity.
Defined.

(** The bench's clean verdict has confidence 0.1. *)
Lemma published_confidence_is_bounded_witness :
  let v := {| isNSFW := false; confidence := 0.1; reason := "[safe] product photo" |} in
  outcomeOf (checkImageForNSFW Bench.env "https://valid/img.png") Bench.store = Ok v
  /\ isNaN (confidence v) = false
  /\ PrimFloat.ltb 0.65 (confidence v) = false.
Proof.
  pose proof
    (published_confidence_is_bounded Bench.env "https://valid/img.png" Bench.store
       (stateAfter (checkImageForNSFW Bench.env "https://valid/img.png") Bench.store)
       {| isNSFW := false; confidence := 0.1; reason := "[safe] product photo" |})
    as H.
  destruct H as (H1 & H2).
  - vm_compute. reflexivity.
  - cbv zeta. split; [vm_compute; reflexivity | split; [exact H1 | apply H2; reflexivity]].
Defined.

(** The classifier answers 503 with a body: the body ends up on the asset. *)
Lemma upstream_error_body_is_stored_witness :
  let m := onAssetUploaded Desk.down "a1"
             (Bench.upload "Realistic Camera Rig" (Some "https://valid/img.png")) in
  stored (assets (stateAfter m Bench.store)) "a1" "verificationError"
  = Some (FStr "NSFW detection failed: OpenRouter API error 503: upstream down").
Proof.
  pose proof
    (upstream_error_body_is_stored Desk.down "a1"
       (Bench.upload "Realistic Camera Rig" (Some "https://valid/img.png"))
       "https://valid/img.png" 503 "upstream down" Bench.store
       (Bench.doc [("status", FStr "uploading")])
       eq_refl eq_refl eq_refl eq_refl eq_refl eq_refl eq_refl eq_refl) as H.
  destruct H as (_ & H2 & _). cbv zeta. rewrite H2. reflexivity.
Defined.

(** "Glass bottle" holds one of the listed words, and the API reports joy. *)
Lemma listed_word_inside_flags_text_witness :
  exists v,
    outcomeOf (checkTextForNSFW Desk.calm "Glass bottle" "Asset Name") Bench.store = Ok v
    /\ Text.isNSFW v = true
    /\ Text.reason v = "Asset Name: Inappropriate content".
Proof.
  destruct (listed_word_inside_flags_text Desk.calm "Glass bottle" "Asset Name"
              "Gl" "ass" " bottle" 200 Desk.calmBody Desk.calmData
              (Some (JObj [("emotion", JStr "joy"); ("sentiment", JStr "positive")]))
              (Some (JStr "joy")) (Some (JStr "positive")) None Bench.store)
    as (v & Hv & Hflag & _).
  - reflexivity.
  - discriminate.
  - reflexivity.
  - reflexivity.
  - reflexivity.
  - reflexivity.
  - reflexivity.
  - reflexivity.
  - reflexivity.
  - reflexivity.
  - reflexivity.
  - vm_compute. set_solver.
  - exists v. split; [exact Hv |].
    apply Hflag; eexists; reflexivity.
Defined.

(** A spam warning for [u1] does not count as an upload strike of [u1]. *)
Lemma strikes_are_counted_per_pair_witness :
  activeCount "u1" upload_abuse
    (warnings (stateAfter (createWarning Bench.env "u1" spam "unsolicited" None) Desk.struck))
  = activeCount "u1" upload_abuse (warnings Desk.struck).
Proof.
  apply (strikes_are_counted_per_pair Bench.env "u1" "u1" upload_abuse spam
           "unsolicited" None Desk.struck).
  right. discriminate.
Defined.

(** The third warning of a user without an auth record throws, and leaves
    the document banned. *)
Lemma ban_without_auth_record_is_half_done_witness :
  let m := createWarning Bench.env "u9" spam "third" None in
  outcomeOf m Desk.orphaned
  = Throw "There is no user record corresponding to the provided identifier."
  /\ stored (users (stateAfter m Desk.orphaned)) "u9" "isBanned" = Some (FBool true)
  /\ audit_logs (stateAfter m Desk.orphaned) = [].
Proof.
  pose proof
    (ban_without_auth_record_is_half_done Bench.env "u9" spam "third" None Desk.orphaned
       (Bench.doc [("isBanned", FBool false)]) (fun _ => eq_refl) eq_refl eq_refl) as H.
  destruct H as (H1 & _ & H3 & _ & _ & H6).
  - vm_compute. lia.
  - cbv zeta. split; [exact H1 | split; [exact H3 | exact H6]].
Defined.

(** The three users of the sweep's store are restored, in the order of their
    dates, each is told so, and a second sweep finds nobody. *)
Lemma sweep_restores_every_expired_ban_witness :
  let after := stateAfter (checkExpiredBans Bench.env) Sweep.store in
  (expired Bench.env Sweep.store).*1 = ["u3"; "u1"; "u2"]
  /\ notifications after
     = [restoredNotice "u3"; restoredNotice "u1"; restoredNotice "u2"]
  /\ audit_logs after = []
  /\ expired Bench.env after = []
  /\ opsDuring (checkExpiredBans Bench.env) after = [QueryUsers (expiredBans Bench.env)].
Proof.
  pose proof
    (sweep_restores_every_expired_ban Bench.env Sweep.store (fun _ => eq_refl)) as H.
  destruct H as (_ & H2 & H3 & H4 & H5).
  - vm_compute. repeat constructor; eexists; reflexivity.
  - cbv zeta.
    split; [vm_compute; reflexivity |
            split; [exact H2 | split; [exact H3 | split; [exact H4 | exact H5]]]].
Defined.

(** [u1], banned by the third warning and restored by a sweep eight days
    later, is banned again by the next warning. *)
Lemma strikes_outlive_the_ban_witness :
  let swept := stateAfter (checkExpiredBans Desk.later) Desk.struck in
  let again :=
    stateAfter (createWarning Desk.later "u1" upload_abuse "rejected upload" None) swept in
  stored (users swept) "u1" "isBanned" = Some (FBool false)
  /\ stored (users again) "u1" "isBanned" = Some (FBool true).
Proof.
  pose proof
    (strikes_outlive_the_ban Desk.later Desk.later "u1" upload_abuse "rejected upload" None
       Desk.struck
       (default ∅ (users (stateAfter (checkExpiredBans Desk.later) Desk.struck) !! "u1")))
    as H.
  cbv zeta in H. destruct H as (_ & H2 & _).
  - intros op. reflexivity.
  - vm_compute. reflexivity.
  - vm_compute. eexists. reflexivity.
  - vm_compute. lia.
  - cbv zeta. split; [vm_compute; reflexivity | exact H2].
Defined.

(** An admin scans an asset that does not exist; a member records the
    download of a rejected asset. *)
Lemma lookup_errors_leave_as_internal_witness :
  replyOf (manualNSFWScan Bench.env (Some "adm") "ghost") Desk.store
  = HttpsError "internal" "Asset not found"
  /\ replyOf (recordAssetDownload Bench.env Desk.increment (Some "adm") "a2") Desk.store
     = HttpsError "internal" "Asset is not available for download".
Proof.
  pose proof
    (lookup_errors_leave_as_internal Bench.env Desk.increment "adm" "ghost" Desk.store
       eq_refl eq_refl) as (_ & H2 & _).
  pose proof
    (lookup_errors_leave_as_internal Bench.env Desk.increment "adm" "a2" Desk.store
       eq_refl eq_refl) as (_ & _ & H3).
  split.
  - apply H2; reflexivity.
  - apply (H3 (Bench.doc [("status", FStr "rejected"); ("authorId", FStr "u1")]));
      reflexivity.
Defined.

(** [sup] bans [u1] for a week and cannot lift the ban. *)
Lemma support_can_ban_but_not_unban_witness :
  let ban :=
    banUser String.length Desk.dateAfter Bench.env (Some "sup") "u1" "repeated spam"
      (Some 7%float) in
  let st1 := storeAfter ban Desk.store in
  replyOf ban Desk.store = Returns tt
  /\ stored (users st1) "u1" "isBanned" = Some (FBool true)
  /\ replyOf (unbanUser Bench.env (Some "sup") "u1") st1
     = HttpsError "permission-denied" "Only admins can unban users".
Proof.
  pose proof
    (support_can_ban_but_not_unban String.length Desk.dateAfter Bench.env Bench.env
       "sup" "u1" "repeated spam" (Some 7%float) Desk.store
       (Bench.doc [("role", FStr "support")])
       (Bench.doc [("role", FStr "member"); ("isBanned", FBool false)])
       (FDate (dateNow Bench.env + 7 * 24 * 60 * 60 * 1000))
       (fun _ => eq_refl) eq_refl eq_refl eq_refl) as H.
  destruct H as (H1 & H2 & _ & H4 & _).
  - discriminate.
  - vm_compute. lia.
  - reflexivity.
  - reflexivity.
  - eexists. reflexivity.
  - cbv zeta. split; [exact H1 | split; [exact H2 | exact H4]].
Defined.

(** A ban with [durationDays: 0] outlives two sweeps, the second one eight
    days later. *)
Lemma ban_without_duration_is_never_lifted_witness :
  let st1 :=
    storeAfter (banUser String.length Desk.dateAfter Bench.env (Some "adm") "u1"
                  "repeated spam" (Some 0%float)) Desk.store in
  let st2 := sweeps [Bench.env; Desk.later] st1 in
  stored (users st1) "u1" "banUntilDate" = Some FNull
  /\ stored (users st2) "u1" "isBanned" = Some (FBool true)
  /\ authDisabled st2 !! "u1" = Some true.
Proof.
  pose proof
    (ban_without_duration_is_never_lifted String.length Desk.dateAfter Bench.env
       "adm" "u1" "repeated spam" (Some 0%float) Desk.store
       (Bench.doc [("role", FStr "member"); ("isBanned", FBool false)])
       [Bench.env; Desk.later]
       (fun _ => eq_refl) eq_refl) as H.
  destruct H as (H1 & _ & H3 & H4).
  - discriminate.
  - vm_compute. lia.
  - reflexivity.
  - reflexivity.
  - eexists. reflexivity.
  - cbv zeta. split; [exact H1 | split; [exact H3 | exact H4]].
Defined.

(** A ban for seven days is lifted by the sweep of the eighth day. *)
Lemma dated_ban_is_lifted_once_past_witness :
  let st1 :=
    storeAfter (banUser String.length Desk.dateAfter Bench.env (Some "adm") "u1"
                  "repeated spam" (Some 7%float)) Desk.store in
  let st2 := stateAfter (checkExpiredBans Desk.later) st1 in
  stored (users st1) "u1" "banUntilDate"
  = Some (FDate (dateNow Bench.env + 7 * 24 * 60 * 60 * 1000))
  /\ stored (users st2) "u1" "isBanned" = Some (FBool false)
  /\ authDisabled st2 !! "u1" = Some false.
Proof.
  pose proof
    (dated_ban_is_lifted_once_past String.length Desk.dateAfter Bench.env Desk.later
       "adm" "u1" "repeated spam" 7%float (dateNow Bench.env + 7 * 24 * 60 * 60 * 1000)
       Desk.store
       (Bench.doc [("role", FStr "member"); ("isBanned", FBool false)])
       (fun _ => eq_refl) eq_refl) as H.
  destruct H as (H1 & _ & H3).
  - discriminate.
  - vm_compute. lia.
  - reflexivity.
  - reflexivity.
  - reflexivity.
  - eexists. reflexivity.
  - destruct H3 as (H3 & _ & H5).
    + vm_compute. reflexivity.
    + intros op. reflexivity.
    + vm_compute. repeat constructor. eexists. reflexivity.
    + cbv zeta. split; [exact H1 | split; [exact H3 | exact H5]].
Defined.


(** A flagged upload of [u1], in the bench: the log stays empty, and the
    check of the day after answers as before. *)
Lemma handlers_never_reach_the_alerts_witness :
  let asset := Bench.upload "Beach photo set" (Some "https://valid/nsfw.png") in
  let st' := stateAfter (onAssetUploaded Bench.env "a1" asset) Bench.store in
  stored (assets st') "a1" "status" = Some (FStr "rejected")
  /\ audit_logs st' = []
  /\ outcomeOf (checkSuspiciousActivity Desk.later "u1") st'
     = Ok {| suspicious := false; alerts := [] |}.
Proof.
  pose proof (handlers_never_reach_the_alerts Bench.env Desk.later "u1" Bench.store) as H.
  cbv zeta in H. destruct H as (H1 & _ & _ & H4).
  destruct (H1 "a1" (Bench.upload "Beach photo set" (Some "https://valid/nsfw.png")))
    as (Hlog & Hanswer).
  cbv zeta. split; [vm_compute; reflexivity | split; [exact Hlog |]].
  rewrite Hanswer. apply H4. reflexivity.
Defined.

(** Five requests through the API limiter, then a login from the same
    address within the minute: the login is refused. *)
Lemma one_counter_per_address_witness :
  let api := (60 * 1000, 100, Bench.env)%Z in
  let login := (15 * 60 * 1000, 5, Bench.env)%Z in
  exists reply,
    (RateLimit.serve [api; api; api; api; api; login] Desk.client ∅).2 !! 5%nat = Some reply
    /\ RateLimit.passed reply = false.
Proof.
  pose proof
    (one_counter_per_address Desk.client ∅ (60 * 1000) 100 Bench.env
       [(60 * 1000, 100, Bench.env); (60 * 1000, 100, Bench.env);
        (60 * 1000, 100, Bench.env); (60 * 1000, 100, Bench.env);
        (15 * 60 * 1000, 5, Bench.env)]%Z) as H.
  cbv zeta in H. destruct H as (_ & H).
  - intros entry E. rewrite lookup_empty in E. discriminate.
  - repeat constructor; vm_compute; discriminate.
  - destruct (H 5%nat (15 * 60 * 1000, 5, Bench.env)%Z eq_refl) as (reply & Hr & Hp).
    cbv zeta. exists reply. split; [exact Hr |].
    destruct (RateLimit.passed reply); [| reflexivity].
    exfalso. destruct Hp as [Hp _]. specialize (Hp eq_refl). simpl in Hp. lia.
Defined.

(** A cleanup between two requests of a client changes nothing for it. *)
Lemma cleanup_changes_no_decision_witness :
  let store := (RateLimit.loginLimiter Bench.env Desk.client ∅).1 in
  (RateLimit.loginLimiter Desk.later Desk.client
     (RateLimit.cleanupRateLimitStore Desk.later store)).2
  = (RateLimit.loginLimiter Desk.later Desk.client store).2.
Proof.
  pose proof
    (cleanup_changes_no_decision Desk.later Desk.later (15 * 60 * 1000) 5
       RateLimit.defaultKey Desk.client
       (RateLimit.loginLimiter Bench.env Desk.client ∅).1) as H.
  destruct H as (H1 & _).
  - lia.
  - cbv zeta. exact H1.
Defined.

(** An adapter that throws, for an asset whose document is gone: the earlier
    handler throws the store's error. *)
Lemma earlier_handler_is_less_guarded_witness :
  let asset := Bench.upload "Realistic Camera Rig" (Some "https://valid/img.png") in
  outcomeOf
    (EarlierHandler.onAssetUploaded (fun _ => throw "fetch failed") (fun _ => FNull)
       Bench.env "a1" asset) Sweep.store
  = Throw "5 NOT_FOUND: No document to update: a1"
  /\ outcomeOf (onAssetUploaded Bench.env "a1" asset) Sweep.store = Ok tt.
Proof.
  pose proof
    (earlier_handler_is_less_guarded (fun _ => throw "fetch failed") (fun _ => FNull)
       Bench.env "a1"
       (Bench.upload "Realistic Camera Rig" (Some "https://valid/img.png"))
       Sweep.store eq_refl) as H.
  cbv zeta in H. destruct H as (H1 & _ & H3).
  cbv zeta. split; [| exact H1].
  unfold outcomeOf.
  rewrite (H3 "https://valid/img.png" Sweep.store
             (stateAfter
                (updateDoc Bench.env Assets "a1"
                   (rejection "Upload verification failed. Please try again." []))
                Sweep.store)
             "fetch failed" "5 NOT_FOUND: No document to update: a1");
    [reflexivity | reflexivity | reflexivity | vm_compute; reflexivity].
Defined.

(** The store does not answer the query for the warnings. *)
Lemma uncounted_warning_writes_nothing_witness :
  let env :=
    Bench.withFailure
      (fun op => match op with QueryWarnings _ => Some "14 UNAVAILABLE" | _ => None end)
      Bench.env in
  let m := createWarning env "u1" upload_abuse "Inappropriate image content detected" None in
  outcomeOf m Desk.struck = Throw "14 UNAVAILABLE"
  /\ sameRecords Desk.struck (stateAfter m Desk.struck)
  /\ audit_logs (stateAfter m Desk.struck) = audit_logs Desk.struck.
Proof.
  exact (uncounted_warning_writes_nothing
           (Bench.withFailure
              (fun op => match op with QueryWarnings _ => Some "14 UNAVAILABLE" | _ => None end)
              Bench.env)
           "u1" upload_abuse "Inappropriate image content detected" None Desk.struck
           "14 UNAVAILABLE" (or_introl eq_refl)).
Defined.


(** * The verdict, the guard and the sweep, on the bench *)

(** The bench's classifier answers [{is_nsfw: false, confidence: 0.8,
    category: 'adult', reason: 'suggestive pose'}] for the flagged image: the
    adapter returns a flagged verdict. *)
Lemma flagged_iff_marked_or_confident_witness :
  exists v,
    outcomeOf (checkImageForNSFW Bench.env "https://valid/nsfw.png") Bench.store = Ok v
    /\ isNSFW v = true.
Proof.
  destruct (flagged_iff_marked_or_confident Bench.env "https://valid/nsfw.png"
              [("is_nsfw", JBool false); ("confidence", JNum 0.8);
               ("category", JStr "adult"); ("reason", JStr "suggestive pose")]
              Bench.store) as (_ & Hreturns & Hflag & _).
  - split; [reflexivity |].
    exists 200%Z, (Bench.completionBody Bench.flaggedContent),
      (Bench.completion Bench.flaggedContent), Bench.flaggedContent,
      Bench.flaggedContent.
    repeat split; vm_compute; reflexivity.
  - destruct Hreturns as [v Hv]; [eexists; reflexivity .. |].
    exists v. split; [exact Hv |].
    rewrite (Hflag false 0.8%float _ eq_refl v Hv). reflexivity.
Defined.

(** A payload that says ['published'] leaves the bench's store as it is.  A
    payload that says ['uploading'], delivered for the asset [a1] that the
    desk's store holds as ['published'], has the asset rejected. *)
Lemma skips_assets_not_uploading_witness :
  let asset := Bench.upload "Beach photo set" (Some "https://valid/nsfw.png") in
  onAssetUploaded Bench.env "a1" publishedAsset Bench.store = (Bench.store, Ok tt)
  /\ stored (assets Desk.store) "a1" "status" = Some (FStr "published")
  /\ stored (assets (stateAfter (onAssetUploaded Bench.env "a1" asset) Desk.store))
       "a1" "status"
     = Some (FStr "rejected").
Proof.
  cbv zeta. split; [| split; [reflexivity |]].
  - apply (skips_assets_not_uploading Bench.env "a1" publishedAsset Bench.store).
    discriminate.
  - destruct (skips_assets_not_uploading Bench.env "a1"
                (Bench.upload "Beach photo set" (Some "https://valid/nsfw.png"))
                Desk.store) as (_ & H).
    destruct (H eq_refl) as (_ & Hdecides).
    rewrite (Hdecides
               (Bench.doc [("status", FStr "published"); ("authorId", FStr "u1");
                           ("imageUrl", FStr "https://valid/nsfw.png")])
               eq_refl (fun _ => eq_refl)).
    vm_compute. reflexivity.
Defined.

(** C7 as stated fails.  The creation event of [a1] is delivered twice.  After
    the first delivery the asset is stored as ['rejected'], with one warning
    for its author.  The second delivery carries the same created document,
    whose status is ['uploading']: the handler asks the classifier again,
    updates the asset again and records a second warning. *)
Lemma redelivery_decides_again :
  let asset := Bench.upload "Beach photo set" (Some "https://valid/nsfw.png") in
  let delivery := onAssetUploaded Bench.env "a1" asset in
  let once := stateAfter delivery Bench.store in
  let twice := stateAfter delivery once in
  stored (assets once) "a1" "status" = Some (FStr "rejected")
  /\ length (warnings once) = 1%nat
  /\ count (isFetchOf openRouterEndpoint) (opsDuring delivery once) = 1%nat
  /\ count (assetUpdate "a1") (opsDuring delivery once) = 1%nat
  /\ count warningCall (opsDuring delivery once) = 1%nat
  /\ length (warnings twice) = 2%nat.
Proof. vm_compute. repeat split. Qed.

(** C6 as stated fails: [u3], [u1] and [u2] are due, in that order; the auth
    call for [u1] throws; restoring [u2] on its own goes through; and yet the
    sweep, which restores [u3], leaves [u2] banned and disabled. *)
Lemma sweep_failure_blocks_later_users :
  let after := stateAfter (checkExpiredBans Sweep.env) Sweep.store in
  (expired Sweep.env Sweep.store).*1 = ["u3"; "u1"; "u2"]
  /\ outcomeOf (restoreUser Sweep.env "u1") Sweep.store = Throw "auth/internal-error"
  /\ outcomeOf (restoreUser Sweep.env "u2") Sweep.store = Ok tt
  /\ outcomeOf (checkExpiredBans Sweep.env) Sweep.store = Ok tt
  /\ stored (users after) "u3" "isBanned" = Some (FBool false)
  /\ authDisabled after !! "u3" = Some false
  /\ stored (users after) "u2" "isBanned" = Some (FBool true)
  /\ authDisabled after !! "u2" = Some true.
Proof. vm_compute. repeat split. Qed.

(** The sweep on the three users above: it returns, [u3] is restored, and
    [u2] keeps its banned document and its disabled login. *)
Lemma sweep_stops_at_first_failure_witness :
  let after := stateAfter (checkExpiredBans Sweep.env) Sweep.store in
  outcomeOf (checkExpiredBans Sweep.env) Sweep.store = Ok tt
  /\ restored after ("u3", Sweep.banned 1766900000000)
  /\ users after !! "u2" = Some (Sweep.banned 1767100000000)
  /\ authDisabled after !! "u2" = Some true.
Proof.
  pose proof
    (sweep_stops_at_first_failure Sweep.env Sweep.store
       (stateAfter
          (restoreUser Sweep.env "u3")
          (stateAfter (queryUsers Sweep.env (expiredBans Sweep.env)) Sweep.store))
       (stateAfter
          (restoreUser Sweep.env "u1")
          (stateAfter
             (restoreUser Sweep.env "u3")
             (stateAfter (queryUsers Sweep.env (expiredBans Sweep.env)) Sweep.store)))
       [("u3", Sweep.banned 1766900000000)] [("u2", Sweep.banned 1767100000000)]
       ("u1", Sweep.banned 1767000000000)
       1 "auth/internal-error" eq_refl) as H.
  destruct H as (Hrun & _ & Hpre & Hlater).
  - vm_compute. reflexivity.
  - vm_compute. reflexivity.
  - vm_compute. reflexivity.
  - cbv zeta. unfold stateAfter, outcomeOf. rewrite Hrun. cbn [fst snd].
    split; [reflexivity |]. split; [exact (Forall_inv Hpre) |].
    apply Forall_inv in Hlater. destruct Hlater as (Hu & _ & Ha).
    split; [exact Hu |]. cbn [fst] in Ha. rewrite Ha. reflexivity.
Defined.

